(** * Binance futures bot: validators, grid levels and sequenced executors

    A shallow embedding of [src/utils.py], [src/market_orders.py],
    [src/limit_orders.py], [src/advanced/stop_limit.py],
    [src/advanced/grid.py], [src/advanced/twap.py], [src/advanced/oco.py] and
    [src/config.py].

    Conventions of the embedding.
    - A Python [str] is a [string]; the characters are ASCII (code points
      below 128), which is what [upper], [strip] and the number grammar
      below are defined for.
    - A Python [int] is a [Z].  The limit of the interpreter on the digits of
      an integer that is read from or written to a string is the argument
      [max_str_digits] of the validator that reads integers and of the [main]
      functions that call it; an order id stays below it.
    - The answer of the exchange to an order is a [dict].  The six keys that
      the executors subscript are the fields of the record [order_response];
      the other keys, which an answer may or may not have, are an argument
      of the functions that read them.
    - A Python [float] is a value of [float] below: a real number, kept as an
      exact rational, or one of the three special values.  Arithmetic on the
      real values is exact and an integer converts to the real number it is:
      the rounding, overflow and underflow of binary64 are not part of the
      model, nor are the limits of the platform (memory, the range of the
      clock).
    - An exception is a value of [exn]; a computation that may raise returns a
      [result].
    - The exchange client, the logger, [time.sleep] and [print] are the
      effects; they are recorded, in order, in the [trace] of the run.  The
      client that [get_binance_client()] returns is an argument of the
      executors.  A log record is its level and its message; the traceback
      that [exc_info=True] adds is not represented.  An interrupt from the
      keyboard is not modelled. *)

From Stdlib Require Import ZArith QArith Qreduction List String Ascii Bool Lia Lqa.
From Stdlib Require Import DecimalString.
From Stdlib Require DecimalPos DecimalFacts.
Import ListNotations.

Local Open Scope string_scope.
Local Open Scope list_scope.
Local Open Scope Z_scope.

(** ** Python floats *)

Inductive float : Type :=
| Fin (q : Q)
| PosInf
| NegInf
| NaN.

Definition fin (q : Q) : float := Fin (Qred q).

Definition float_of_int (z : Z) : float := Fin (inject_Z z).

Definition fneg (x : float) : float :=
  match x with
  | Fin q => fin (- q)
  | PosInf => NegInf
  | NegInf => PosInf
  | NaN => NaN
  end.

Definition fadd (x y : float) : float :=
  match x, y with
  | NaN, _ | _, NaN => NaN
  | PosInf, NegInf | NegInf, PosInf => NaN
  | PosInf, _ | _, PosInf => PosInf
  | NegInf, _ | _, NegInf => NegInf
  | Fin a, Fin b => fin (a + b)
  end.

Definition fsub (x y : float) : float := fadd x (fneg y).

(** The product of an infinity of sign [pos] with the real [q]. *)
Definition inf_times (pos : bool) (q : Q) : float :=
  match (q ?= 0)%Q with
  | Eq => NaN
  | Gt => if pos then PosInf else NegInf
  | Lt => if pos then NegInf else PosInf
  end.

Definition fmul (x y : float) : float :=
  match x, y with
  | NaN, _ | _, NaN => NaN
  | PosInf, PosInf | NegInf, NegInf => PosInf
  | PosInf, NegInf | NegInf, PosInf => NegInf
  | PosInf, Fin q | Fin q, PosInf => inf_times true q
  | NegInf, Fin q | Fin q, NegInf => inf_times false q
  | Fin a, Fin b => fin (a * b)
  end.

(** [x / y]: Python raises [ZeroDivisionError] when the divisor is zero,
    whatever the dividend; [None] stands for that. *)
Definition fdiv (x y : float) : option float :=
  match y with
  | Fin b =>
      if Qeq_bool b 0 then None
      else Some (match x with
                 | Fin a => fin (a / b)
                 | PosInf => inf_times true b
                 | NegInf => inf_times false b
                 | NaN => NaN
                 end)
  | PosInf | NegInf =>
      Some (match x with
            | Fin _ => Fin 0
            | _ => NaN
            end)
  | NaN => Some NaN
  end.

(** Comparisons: every comparison with [NaN] is false. *)
Definition flt (x y : float) : bool :=
  match x, y with
  | NaN, _ | _, NaN => false
  | Fin a, Fin b => negb (Qle_bool b a)
  | NegInf, NegInf => false
  | NegInf, _ => true
  | _, NegInf => false
  | PosInf, _ => false
  | _, PosInf => true
  end.

Definition feq (x y : float) : bool :=
  match x, y with
  | Fin a, Fin b => Qeq_bool a b
  | PosInf, PosInf | NegInf, NegInf => true
  | _, _ => false
  end.

Definition fle (x y : float) : bool := flt x y || feq x y.
Definition fgt (x y : float) : bool := flt y x.
Definition fge (x y : float) : bool := fle y x.

Definition is_finite (x : float) : bool :=
  match x with Fin _ => true | _ => false end.

(** [range(n)] *)
Definition range (n : Z) : list Z := map Z.of_nat (seq 0 (Z.to_nat n)).

(** ** Python strings *)

Definition code (c : ascii) : nat := nat_of_ascii c.

(** [str.isspace] on an ASCII character: tab, line feed, vertical tab, form
    feed, carriage return, the four separators 28..31 and the space. *)
Definition is_space (c : ascii) : bool :=
  ((9 <=? code c) && (code c <=? 13) || (28 <=? code c) && (code c <=? 32))%nat.

Definition is_lower (c : ascii) : bool := ((97 <=? code c) && (code c <=? 122))%nat.

Definition is_digit (c : ascii) : bool := ((48 <=? code c) && (code c <=? 57))%nat.

Definition upper_char (c : ascii) : ascii :=
  if is_lower c then ascii_of_nat (code c - 32) else c.

(** [s.upper()] *)
Fixpoint upper (s : string) : string :=
  match s with
  | EmptyString => EmptyString
  | String c t => String (upper_char c) (upper t)
  end.

Definition is_upper (c : ascii) : bool := ((65 <=? code c) && (code c <=? 90))%nat.

Definition lower_char (c : ascii) : ascii :=
  if is_upper c then ascii_of_nat (code c + 32) else c.

(** [s.lower()] *)
Fixpoint lower (s : string) : string :=
  match s with
  | EmptyString => EmptyString
  | String c t => String (lower_char c) (lower t)
  end.

Fixpoint lstrip (s : string) : string :=
  match s with
  | EmptyString => EmptyString
  | String c t => if is_space c then lstrip t else s
  end.

Fixpoint rstrip (s : string) : string :=
  match s with
  | EmptyString => EmptyString
  | String c t =>
      match rstrip t with
      | EmptyString => if is_space c then EmptyString else String c EmptyString
      | t' => String c t'
      end
  end.

(** [s.strip()] *)
Definition strip (s : string) : string := rstrip (lstrip s).

(** [len(s)] *)
Definition len (s : string) : Z := Z.of_nat (String.length s).

(** [s.endswith(suffix)] *)
Definition endswith (s suffix : string) : bool :=
  let n := String.length s in
  let k := String.length suffix in
  ((k <=? n)%nat && String.eqb (substring (n - k) k s) suffix).

(** [sub in s] *)
Fixpoint contains (s sub : string) : bool :=
  String.prefix sub s ||
  match s with
  | EmptyString => false
  | String _ t => contains t sub
  end.

(** [str(z)] for an integer. *)
Definition str_of_int (z : Z) : string := NilZero.string_of_int (Z.to_int z).

(** ** [float(s)] for a string [s]

    The grammar is CPython's: an underscore is allowed between two digits;
    white space around the number is dropped (for an ASCII string this is the
    white space of C: tab to carriage return and the space, without the four
    separators that [str.strip] also drops); then come an optional sign and
    either [inf], [infinity] or [nan] in any case, or a decimal number with an
    optional fraction and an optional exponent.  [None] stands for the
    [ValueError] that [float] raises.  The value of a decimal number is the
    rational it denotes. *)

Definition is_c_space (c : ascii) : bool :=
  ((9 <=? code c) && (code c <=? 13) || (code c =? 32))%nat.

Fixpoint skip_c_space (s : string) : string :=
  match s with
  | EmptyString => EmptyString
  | String c t => if is_c_space c then skip_c_space t else s
  end.

Fixpoint drop_trailing_c_space (s : string) : string :=
  match s with
  | EmptyString => EmptyString
  | String c t =>
      match drop_trailing_c_space t with
      | EmptyString => if is_c_space c then EmptyString else String c EmptyString
      | t' => String c t'
      end
  end.

(** Underscores go away; [None] when one is not between two digits.  [prev]
    is the character before [s], if any. *)
Fixpoint drop_underscores (prev : option ascii) (s : string) : option string :=
  match s with
  | EmptyString =>
      match prev with
      | Some "_"%char => None
      | _ => Some EmptyString
      end
  | String c t =>
      if Ascii.eqb c "_" then
        match prev with
        | Some p => if is_digit p then drop_underscores (Some c) t else None
        | None => None
        end
      else
        match prev with
        | Some "_"%char =>
            if is_digit c
            then option_map (String c) (drop_underscores (Some c) t)
            else None
        | _ => option_map (String c) (drop_underscores (Some c) t)
        end
  end.

Definition digit_value (c : ascii) : Z := Z.of_nat (code c - 48).

(** The longest run of digits at the head of [s]: the number read so far
    (starting from [acc]), how many digits were read, and the rest. *)
Fixpoint read_digits (acc : Z) (count : nat) (s : string) : Z * nat * string :=
  match s with
  | String c t =>
      if is_digit c then read_digits (10 * acc + digit_value c) (S count) t
      else (acc, count, s)
  | EmptyString => (acc, count, s)
  end.

(** An optional sign: [true] for a minus. *)
Definition read_sign (s : string) : bool * string :=
  match s with
  | String "-" t => (true, t)
  | String "+" t => (false, t)
  | _ => (false, s)
  end.

(** An optional exponent; a letter [e] that no digit follows ends the number
    before the [e]. *)
Definition read_exponent (s : string) : Z * string :=
  match s with
  | String c t =>
      if Ascii.eqb c "e" || Ascii.eqb c "E" then
        let '(neg, t1) := read_sign t in
        let '(e, n, t2) := read_digits 0 0 t1 in
        match n with
        | O => (0, s)
        | _ => (if neg then - e else e, t2)
        end
      else (0, s)
  | EmptyString => (0, s)
  end.

(** [m * 10 ^ e] *)
Definition scale10 (m e : Z) : Q :=
  if 0 <=? e then inject_Z (m * 10 ^ e)
  else Qmake m (Z.to_pos (10 ^ (- e))).

(** A decimal number that fills the whole of [s], without its sign. *)
Definition read_decimal (s : string) : option Q :=
  let '(ip, ni, s1) := read_digits 0 0 s in
  let '(m, nf, s2) :=
    match s1 with
    | String "." t => read_digits ip 0 t
    | _ => (ip, O, s1)
    end in
  match (ni + nf)%nat with
  | O => None
  | _ =>
      let '(e, s3) := read_exponent s2 in
      match s3 with
      | EmptyString => Some (scale10 m (e - Z.of_nat nf))
      | _ => None
      end
  end.

Definition read_inf_or_nan (neg : bool) (s : string) : option float :=
  let u := upper s in
  if String.eqb u "INF" || String.eqb u "INFINITY"
  then Some (if neg then NegInf else PosInf)
  else if String.eqb u "NAN" then Some NaN
  else None.

Definition float_of_str (s : string) : option float :=
  match drop_underscores None s with
  | None => None
  | Some s0 =>
      let '(neg, s1) := read_sign (drop_trailing_c_space (skip_c_space s0)) in
      match read_decimal s1 with
      | Some q => Some (fin (if neg then - q else q))
      | None => read_inf_or_nan neg s1
      end
  end.

(** ** [int(s)] for a string [s]

    The grammar is CPython's for base 10: white space of C around the number,
    an optional sign, then digits, with single underscores allowed between
    two digits.  The interpreter refuses a number of more than
    [max_str_digits] digits when that setting is not zero
    ([sys.get_int_max_str_digits()], 4300 unless changed) and the number has
    more than 640 digits.  [None] stands for the [ValueError] that [int]
    raises. *)

(** The scan over digits and underscores: the value read so far, the number
    of digits, and what follows.  [prev] is the character before [s], if any;
    [None] as a result is an underscore out of place. *)
Fixpoint scan_int (prev : option ascii) (acc : Z) (digits : nat) (s : string)
  : option (Z * nat * string) :=
  let stop :=
    match prev with
    | Some "_"%char => None
    | _ => Some (acc, digits, s)
    end in
  match s with
  | EmptyString => stop
  | String c t =>
      if is_digit c then scan_int (Some c) (10 * acc + digit_value c) (S digits) t
      else if Ascii.eqb c "_" then
        match prev with
        | None => None
        | Some p => if Ascii.eqb p "_" then None else scan_int (Some c) acc digits t
        end
      else stop
  end.

(** The test of the interpreter on a number of [digits] digits: [true] when
    it refuses the conversion. *)
Definition exceeds_str_digits (max_str_digits digits : nat) : bool :=
  ((640 <? digits) && (0 <? max_str_digits) && (max_str_digits <? digits))%nat.

Definition int_of_str (max_str_digits : nat) (s : string) : option Z :=
  let '(neg, s1) := read_sign (skip_c_space s) in
  match scan_int None 0 0 s1 with
  | None => None
  | Some (v, digits, rest) =>
      match digits with
      | O => None
      | _ =>
          if exceeds_str_digits max_str_digits digits then None
          else
            match skip_c_space rest with
            | EmptyString => Some (if neg then - v else v)
            | _ => None
            end
      end
  end.

(** ** Requests, responses, messages and exceptions *)

(** The keyword arguments of one [client.futures_create_order] call; a key
    that the call does not pass is [None]. *)
Record order_request : Type := {
  symbol : string;
  side : string;
  type : string;
  quantity : option float;
  price : option float;
  stopPrice : option float;
  timeInForce : option string;
  closePosition : option string
}.

(** What the executors read of the client's answer. *)
Record order_response : Type := {
  orderId : Z;
  status : string;
  r_type : string;
  r_price : string;
  r_stopPrice : string;
  origQty : string
}.

(** An f-string is the list of its literal pieces and interpolated values.
    [FErr] is the [str] of an exception of the client library. *)
Inductive frag : Type :=
| FStr (s : string)
| FInt (z : Z)
| FFloat (x : float)
| FFloats (xs : list float)
| FResp (o : order_response)
| FErr (status_code : Z) (message : string).

Definition text : Type := list frag.

(** The characters of a message whose values are strings and integers; the
    [repr] of a float or of a response is not modelled. *)
Fixpoint render (t : text) : option string :=
  match t with
  | [] => Some ""
  | FStr s :: t' => option_map (append s) (render t')
  | FInt z :: t' => option_map (append (str_of_int z)) (render t')
  | _ :: _ => None
  end.

Inductive exn : Type :=
| BinanceAPIException (status_code : Z) (message : string)
| BinanceOrderException (status_code : Z) (message : string)
| ValueError (message : text)
| ZeroDivisionError (message : text)
| SystemExit (code : Z)
| OtherException (message : text).

Inductive result (A : Type) : Type :=
| Ok (a : A)
| Raise (e : exn).

Arguments Ok {A} a.
Arguments Raise {A} e.

Definition is_ok {A} (r : result A) : bool :=
  match r with Ok _ => true | Raise _ => false end.

(** ** Effects *)

Inductive level : Type := DEBUG | INFO | WARNING | ERROR.

Inductive event : Type :=
| Submitted (req : order_request) (res : result order_response)
| Slept (secs : Z)
| Logged (lvl : level) (msg : text)
| Printed (msg : text).

(** The exchange client is external.  Its answer to a submission may depend
    on the request and on everything submitted to it before (oldest first);
    it either returns a response or raises. *)
Definition Client : Type := list order_request -> order_request -> result order_response.

(** The state of a run: what has happened so far, and the executor's local
    list [orders]. *)
Record state : Type := {
  trace : list event;
  orders : list order_response
}.

Definition M (A : Type) : Type := state -> result A * state.

Definition ret {A} (a : A) : M A := fun s => (Ok a, s).

Definition raise {A} (e : exn) : M A := fun s => (Raise e, s).

Definition bind {A B} (m : M A) (k : A -> M B) : M B :=
  fun s =>
    match m s with
    | (Ok a, s') => k a s'
    | (Raise e, s') => (Raise e, s')
    end.

Declare Scope py_scope.
Delimit Scope py_scope with py.
Notation "x <- c1 ;; c2" := (bind c1 (fun x => c2))
  (at level 61, c1 at next level, right associativity) : py_scope.
Notation "' pat <- c1 ;; c2" := (bind c1 (fun x => match x with pat => c2 end))
  (at level 61, pat pattern, c1 at next level, right associativity) : py_scope.
Notation "c1 ;; c2" := (bind c1 (fun _ => c2))
  (at level 61, right associativity) : py_scope.
Local Open Scope py_scope.

(** [try: body except Exception as e: handler e] *)
Definition try_except {A} (body : M A) (handler : exn -> M A) : M A :=
  fun s =>
    match body s with
    | (Ok a, s') => (Ok a, s')
    | (Raise e, s') => handler e s'
    end.

(** [for x in xs: body x] *)
Fixpoint for_each {X} (xs : list X) (body : X -> M unit) : M unit :=
  match xs with
  | [] => ret tt
  | x :: xs' => body x ;; for_each xs' body
  end.

Definition emit (ev : event) : M unit :=
  fun s => (Ok tt, {| trace := trace s ++ [ev]; orders := orders s |}).

Definition logger_debug (msg : text) : M unit := emit (Logged DEBUG msg).
Definition logger_info (msg : text) : M unit := emit (Logged INFO msg).
Definition logger_warning (msg : text) : M unit := emit (Logged WARNING msg).
Definition logger_error (msg : text) : M unit := emit (Logged ERROR msg).

(** [print(msg)]; line breaks, indentation and the pictograph that opens some
    console lines are left out of [msg]. *)
Definition print (msg : text) : M unit := emit (Printed msg).

(** [time.sleep(secs)] *)
Definition time_sleep (secs : Z) : M unit :=
  if secs <? 0 then raise (ValueError [FStr "sleep length must be non-negative"])
  else emit (Slept secs).

(** [sys.exit(code)] *)
Definition sys_exit {A} (code : Z) : M A := raise (SystemExit code).

(** The requests submitted so far, oldest first. *)
Fixpoint submitted_requests (tr : list event) : list order_request :=
  match tr with
  | [] => []
  | Submitted req _ :: tr' => req :: submitted_requests tr'
  | _ :: tr' => submitted_requests tr'
  end.

(** [client.futures_create_order] called with the keyword arguments [req] *)
Definition futures_create_order (client : Client) (req : order_request) : M order_response :=
  fun s =>
    let res := client (submitted_requests (trace s)) req in
    (res, {| trace := trace s ++ [Submitted req res]; orders := orders s |}).

(** The local list [orders]. *)
Definition set_orders (l : list order_response) : M unit :=
  fun s => (Ok tt, {| trace := trace s; orders := l |}).
Definition append_order (o : order_response) : M unit :=
  fun s => (Ok tt, {| trace := trace s; orders := orders s ++ [o] |}).
Definition get_orders : M (list order_response) := fun s => (Ok (orders s), s).
Definition len_orders : M Z := fun s => (Ok (Z.of_nat (List.length (orders s))), s).

(** A run from the start. *)
Definition initial : state := {| trace := []; orders := [] |}.
Definition run {A} (m : M A) : result A * state := m initial.

(** The float [x / y] as a statement that may raise. *)
Definition divide (x y : float) : M float :=
  match fdiv x y with
  | Some q => ret q
  | None => raise (ZeroDivisionError [FStr "float division by zero"])
  end.

(** [str(z)] inside an f-string, as a statement that may raise: the
    interpreter refuses to write an integer of too many digits. *)
Definition format_int (max_str_digits : nat) (z : Z) : M unit :=
  if exceeds_str_digits max_str_digits (String.length (str_of_int (Z.abs z))) then
    raise (ValueError
             [FStr "Exceeds the limit ("; FInt (Z.of_nat max_str_digits);
              FStr " digits) for integer string conversion; use sys.set_int_max_str_digits() to increase the limit"])
  else ret tt.

(** [enumerate(xs, start)] *)
Definition enumerate_from {X} (start : Z) (xs : list X) : list (Z * X) :=
  combine (map (Z.add start) (range (Z.of_nat (List.length xs)))) xs.

(** ** [utils.py] *)

Definition validate_symbol (symbol : string) : M string :=
  if String.eqb symbol "" then raise (ValueError [FStr "Symbol cannot be empty"])
  else
    let symbol := strip (upper symbol) in
    if negb (endswith symbol "USDT") then
      raise (ValueError [FStr "Invalid symbol '"; FStr symbol;
                         FStr "': Must end with 'USDT' for USDT-M Futures"])
    else if len symbol <? 5 then
      raise (ValueError [FStr "Invalid symbol '"; FStr symbol; FStr "': Too short"])
    else
      logger_debug [FStr "Symbol validated: "; FStr symbol] ;;
      ret symbol.

Definition validate_quantity (quantity : string) : M float :=
  match float_of_str quantity with
  | None =>
      raise (ValueError [FStr "Invalid quantity '"; FStr quantity;
                         FStr "': Must be a valid number"])
  | Some qty =>
      if fle qty (float_of_int 0) then
        raise (ValueError [FStr "Invalid quantity "; FFloat qty;
                           FStr ": Must be greater than 0"])
      else
        logger_debug [FStr "Quantity validated: "; FFloat qty] ;;
        ret qty
  end.

Definition validate_price (price : string) : M float :=
  match float_of_str price with
  | None =>
      raise (ValueError [FStr "Invalid price '"; FStr price;
                         FStr "': Must be a valid number"])
  | Some prc =>
      if fle prc (float_of_int 0) then
        raise (ValueError [FStr "Invalid price "; FFloat prc;
                           FStr ": Must be greater than 0"])
      else
        logger_debug [FStr "Price validated: "; FFloat prc] ;;
        ret prc
  end.

Definition validate_side (side : string) : M string :=
  let side := strip (upper side) in
  if negb (String.eqb side "BUY" || String.eqb side "SELL") then
    raise (ValueError [FStr "Invalid side '"; FStr side;
                       FStr "': Must be 'BUY' or 'SELL'"])
  else
    logger_debug [FStr "Side validated: "; FStr side] ;;
    ret side.

(** [max_str_digits] is the setting of the interpreter that [int(value)]
    reads. *)
Definition validate_positive_int (max_str_digits : nat) (value param_name : string) : M Z :=
  match int_of_str max_str_digits value with
  | None =>
      raise (ValueError [FStr "Invalid "; FStr param_name; FStr " '"; FStr value;
                         FStr "': Must be a valid integer"])
  | Some val =>
      if val <=? 0 then
        raise (ValueError [FStr "Invalid "; FStr param_name; FStr " "; FInt val;
                           FStr ": Must be greater than 0"])
      else
        logger_debug [FStr param_name; FStr " validated: "; FInt val] ;;
        ret val
  end.

Definition validate_grid_params (lower_price upper_price : float) (grid_count : Z) : M unit :=
  if fge lower_price upper_price then
    raise (ValueError [FStr "Invalid price range: lower_price ("; FFloat lower_price;
                       FStr ") must be less than upper_price ("; FFloat upper_price;
                       FStr ")"])
  else if grid_count <? 2 then
    raise (ValueError [FStr "Invalid grid_count "; FInt grid_count;
                       FStr ": Must be at least 2"])
  else
    logger_debug [FStr "Grid parameters validated: lower="; FFloat lower_price;
                  FStr ", upper="; FFloat upper_price; FStr ", count="; FInt grid_count].

(** ** [advanced/grid.py] *)

Definition calculate_grid_levels (lower_price upper_price : float) (grid_count : Z)
  : M (list float) :=
  if grid_count =? 1 then
    mid <- divide (fadd lower_price upper_price) (float_of_int 2) ;;
    ret [mid]
  else
    step <- divide (fsub upper_price lower_price) (float_of_int (grid_count - 1)) ;;
    let levels :=
      map (fun i => fadd lower_price (fmul step (float_of_int i))) (range grid_count) in
    logger_debug [FStr "Calculated "; FInt grid_count; FStr " grid levels: ";
                  FFloats levels] ;;
    ret levels.

(** [enumerate(xs)] *)
Definition enumerate {X} (xs : list X) : list (Z * X) :=
  combine (range (Z.of_nat (List.length xs))) xs.

Definition grid_request (symbol : string) (quantity_per_grid price : float) : order_request :=
  {| symbol := symbol; side := "BUY"; type := "LIMIT"; timeInForce := Some "GTC";
     quantity := Some quantity_per_grid; price := Some price;
     stopPrice := None; closePosition := None |}.

(** The three [except] clauses of [execute_grid_strategy].  [SystemExit] is
    not an [Exception] and passes through. *)
Definition grid_handler (grid_count : Z) (e : exn) : M (list order_response) :=
  match e with
  | BinanceAPIException status_code message =>
      n <- len_orders ;;
      logger_error [FStr "Binance API error on grid "; FInt (n + 1); FStr "/";
                    FInt grid_count; FStr ": "; FInt status_code; FStr " - ";
                    FStr message] ;;
      logger_warning [FStr "Placed "; FInt n; FStr " out of "; FInt grid_count;
                      FStr " grids before error"] ;;
      raise e
  | BinanceOrderException status_code message =>
      n <- len_orders ;;
      logger_error [FStr "Binance order error on grid "; FInt (n + 1); FStr "/";
                    FInt grid_count; FStr ": "; FInt status_code; FStr " - ";
                    FStr message] ;;
      logger_warning [FStr "Placed "; FInt n; FStr " out of "; FInt grid_count;
                      FStr " grids before error"] ;;
      raise e
  | ValueError message | ZeroDivisionError message | OtherException message =>
      n <- len_orders ;;
      logger_error ([FStr "Unexpected error on grid "; FInt (n + 1); FStr "/";
                     FInt grid_count; FStr ": "] ++ message) ;;
      logger_warning [FStr "Placed "; FInt n; FStr " out of "; FInt grid_count;
                      FStr " grids before error"] ;;
      raise e
  | SystemExit _ => raise e
  end.

(** The body of the loop of [execute_grid_strategy], for the level [price]
    at index [i]. *)
Definition grid_order (client : Client) (symbol : string) (quantity_per_grid : float)
    (grid_count : Z) (level : Z * float) : M unit :=
  let '(i, price) := level in
  let grid_num := i + 1 in
  logger_info [FStr "Placing grid order "; FInt grid_num; FStr "/"; FInt grid_count;
               FStr ": BUY "; FFloat quantity_per_grid; FStr " "; FStr symbol;
               FStr " @ "; FFloat price] ;;
  order <- futures_create_order client (grid_request symbol quantity_per_grid price) ;;
  append_order order ;;
  logger_info [FStr "Grid "; FInt grid_num; FStr " placed successfully | Order ID: ";
               FInt (orderId order); FStr ", Price: "; FStr (r_price order)] ;;
  logger_debug [FStr "Grid "; FInt grid_num; FStr " response: "; FResp order].

Definition execute_grid_strategy (client : Client) (symbol : string)
    (quantity_per_grid lower_price upper_price : float) (grid_count : Z)
  : M (list order_response) :=
  validate_grid_params lower_price upper_price grid_count ;;
  grid_levels <- calculate_grid_levels lower_price upper_price grid_count ;;
  logger_info [FStr "Starting grid trading strategy: "; FStr symbol; FStr " | Range: ";
               FFloat lower_price; FStr " - "; FFloat upper_price; FStr ", Grids: ";
               FInt grid_count; FStr ", Qty per grid: "; FFloat quantity_per_grid] ;;
  set_orders [] ;;
  try_except
    (for_each (enumerate grid_levels)
       (grid_order client symbol quantity_per_grid grid_count) ;;
     n <- len_orders ;;
     logger_info [FStr "Grid strategy completed successfully | Total orders placed: ";
                  FInt n] ;;
     get_orders)
    (grid_handler grid_count).

(** The [except] clauses of [main] of [grid.py]: every one ends in
    [sys.exit(1)]. *)
Definition grid_main_handler (e : exn) : M unit :=
  match e with
  | ValueError message =>
      logger_error (FStr "Validation error: " :: message) ;;
      print (FStr "Validation error: " :: message) ;;
      sys_exit 1
  | BinanceAPIException _ message =>
      print [FStr "Binance API error: "; FStr message] ;;
      print [FStr "Some grid orders may have been placed. Check bot.log for details."] ;;
      sys_exit 1
  | BinanceOrderException status_code message =>
      logger_error [FStr "Fatal error: "; FErr status_code message] ;;
      print [FStr "Error: "; FErr status_code message] ;;
      print [FStr "Check bot.log for details."] ;;
      sys_exit 1
  | ZeroDivisionError message | OtherException message =>
      logger_error (FStr "Fatal error: " :: message) ;;
      print (FStr "Error: " :: message) ;;
      print [FStr "Check bot.log for details."] ;;
      sys_exit 1
  | SystemExit _ => raise e
  end.

(** [main()] of [grid.py], with [sys.argv] as its argument. *)
Definition grid_main (max_str_digits : nat) (client : Client) (argv : list string) : M unit :=
  match argv with
  | [_; symbol_arg; quantity_arg; lower_price_arg; upper_price_arg; grid_count_arg] =>
      try_except
        (symbol <- validate_symbol symbol_arg ;;
         quantity_per_grid <- validate_quantity quantity_arg ;;
         lower_price <- validate_price lower_price_arg ;;
         upper_price <- validate_price upper_price_arg ;;
         grid_count <- validate_positive_int max_str_digits grid_count_arg "grid_count" ;;
         (if 50 <? grid_count then
            raise (ValueError [FStr "grid_count must not exceed 50 for safety"])
          else ret tt) ;;
         validate_grid_params lower_price upper_price grid_count ;;
         grid_levels <- calculate_grid_levels lower_price upper_price grid_count ;;
         let total_quantity := fmul quantity_per_grid (float_of_int grid_count) in
         print [FStr "Grid Trading Strategy Configuration:"] ;;
         print [FStr "Symbol: "; FStr symbol] ;;
         print [FStr "Price Range: "; FFloat lower_price; FStr " - "; FFloat upper_price] ;;
         print [FStr "Grid Levels: "; FInt grid_count] ;;
         print [FStr "Quantity per Grid: "; FFloat quantity_per_grid] ;;
         print [FStr "Total Quantity: "; FFloat total_quantity] ;;
         print [FStr "Grid Levels:"] ;;
         for_each (enumerate_from 1 grid_levels)
           (fun '(i, level) => print [FStr "Grid "; FInt i; FStr ": "; FFloat level]) ;;
         print [FStr "Placing grid orders..."] ;;
         orders <- execute_grid_strategy client symbol quantity_per_grid lower_price
                     upper_price grid_count ;;
         print [FStr "Grid strategy completed successfully!"] ;;
         print [FStr "Execution Summary:"] ;;
         print [FStr "Total Orders Placed: "; FInt (Z.of_nat (List.length orders))] ;;
         print [FStr "Total Quantity: "; FFloat total_quantity] ;;
         print [FStr "Price Range: "; FFloat lower_price; FStr " - "; FFloat upper_price] ;;
         print [FStr "Order Details:"] ;;
         for_each (enumerate_from 1 orders)
           (fun '(i, order) =>
              print [FStr "Grid "; FInt i; FStr ":"] ;;
              print [FStr "Order ID: "; FInt (orderId order)] ;;
              print [FStr "Price: "; FStr (r_price order)] ;;
              print [FStr "Quantity: "; FStr (origQty order)] ;;
              print [FStr "Status: "; FStr (status order)]) ;;
         print [FStr "Tip: These orders will fill as price moves through the grid levels."])
        grid_main_handler
  | _ =>
      print [FStr "Usage: python src/advanced/grid.py <SYMBOL> <QUANTITY_PER_GRID> <LOWER_PRICE> <UPPER_PRICE> <GRID_COUNT>"] ;;
      print [FStr "Example: python src/advanced/grid.py BTCUSDT 0.01 50000 52000 5"] ;;
      print [FStr "Explanation:"] ;;
      print [FStr "QUANTITY_PER_GRID: Amount to trade at each grid level"] ;;
      print [FStr "LOWER_PRICE: Lower bound of the price grid"] ;;
      print [FStr "UPPER_PRICE: Upper bound of the price grid"] ;;
      print [FStr "GRID_COUNT: Number of equally-spaced grid levels"] ;;
      sys_exit 1
  end.

(** ** [advanced/twap.py] *)

Definition twap_request (symbol side : string) (quantity_per_slice : float) : order_request :=
  {| symbol := symbol; side := side; type := "MARKET";
     quantity := Some quantity_per_slice; price := None;
     stopPrice := None; timeInForce := None; closePosition := None |}.

(** The three [except] clauses of [execute_twap_strategy]. *)
Definition twap_handler (num_slices : Z) (e : exn) : M (list order_response) :=
  match e with
  | BinanceAPIException status_code message =>
      n <- len_orders ;;
      logger_error [FStr "Binance API error on slice "; FInt (n + 1); FStr "/";
                    FInt num_slices; FStr ": "; FInt status_code; FStr " - ";
                    FStr message] ;;
      logger_warning [FStr "Completed "; FInt n; FStr " out of "; FInt num_slices;
                      FStr " slices before error"] ;;
      raise e
  | BinanceOrderException status_code message =>
      n <- len_orders ;;
      logger_error [FStr "Binance order error on slice "; FInt (n + 1); FStr "/";
                    FInt num_slices; FStr ": "; FInt status_code; FStr " - ";
                    FStr message] ;;
      logger_warning [FStr "Completed "; FInt n; FStr " out of "; FInt num_slices;
                      FStr " slices before error"] ;;
      raise e
  | ValueError message | ZeroDivisionError message | OtherException message =>
      n <- len_orders ;;
      logger_error ([FStr "Unexpected error on slice "; FInt (n + 1); FStr "/";
                     FInt num_slices; FStr ": "] ++ message) ;;
      logger_warning [FStr "Completed "; FInt n; FStr " out of "; FInt num_slices;
                      FStr " slices before error"] ;;
      raise e
  | SystemExit _ => raise e
  end.

(** The body of the loop of [execute_twap_strategy], for the index [i]. *)
Definition twap_slice (client : Client) (symbol side : string) (quantity_per_slice : float)
    (num_slices interval_seconds : Z) (i : Z) : M unit :=
  let slice_num := i + 1 in
  logger_info [FStr "Executing slice "; FInt slice_num; FStr "/"; FInt num_slices;
               FStr ": "; FStr side; FStr " "; FFloat quantity_per_slice; FStr " ";
               FStr symbol] ;;
  order <- futures_create_order client (twap_request symbol side quantity_per_slice) ;;
  append_order order ;;
  logger_info [FStr "Slice "; FInt slice_num; FStr " executed successfully | Order ID: ";
               FInt (orderId order); FStr ", Status: "; FStr (status order)] ;;
  logger_debug [FStr "Slice "; FInt slice_num; FStr " response: "; FResp order] ;;
  if i <? num_slices - 1 then
    logger_info [FStr "Waiting "; FInt interval_seconds;
                 FStr " seconds before next slice..."] ;;
    time_sleep interval_seconds
  else ret tt.

Definition execute_twap_strategy (client : Client) (symbol side : string)
    (total_quantity : float) (num_slices interval_seconds : Z)
  : M (list order_response) :=
  quantity_per_slice <- divide total_quantity (float_of_int num_slices) ;;
  logger_info [FStr "Starting TWAP strategy: "; FStr side; FStr " "; FFloat total_quantity;
               FStr " "; FStr symbol; FStr " | Slices: "; FInt num_slices;
               FStr ", Interval: "; FInt interval_seconds; FStr "s, Per slice: ";
               FFloat quantity_per_slice] ;;
  set_orders [] ;;
  try_except
    (for_each (range num_slices)
       (twap_slice client symbol side quantity_per_slice num_slices interval_seconds) ;;
     n <- len_orders ;;
     logger_info [FStr "TWAP strategy completed successfully | Total orders placed: ";
                  FInt n] ;;
     get_orders)
    (twap_handler num_slices).

(** The [except] clauses of [main] of [twap.py]: every one ends in
    [sys.exit(1)]. *)
Definition twap_main_handler (e : exn) : M unit :=
  match e with
  | ValueError message =>
      logger_error (FStr "Validation error: " :: message) ;;
      print (FStr "Validation error: " :: message) ;;
      sys_exit 1
  | BinanceAPIException _ message =>
      print [FStr "Binance API error: "; FStr message] ;;
      print [FStr "Some slices may have been executed. Check bot.log for details."] ;;
      sys_exit 1
  | BinanceOrderException status_code message =>
      logger_error [FStr "Fatal error: "; FErr status_code message] ;;
      print [FStr "Error: "; FErr status_code message] ;;
      print [FStr "Check bot.log for details."] ;;
      sys_exit 1
  | ZeroDivisionError message | OtherException message =>
      logger_error (FStr "Fatal error: " :: message) ;;
      print (FStr "Error: " :: message) ;;
      print [FStr "Check bot.log for details."] ;;
      sys_exit 1
  | SystemExit _ => raise e
  end.

(** [main()] of [twap.py], with [sys.argv] as its argument. *)
Definition twap_main (max_str_digits : nat) (client : Client) (argv : list string) : M unit :=
  match argv with
  | [_; symbol_arg; side_arg; total_qty_arg; slices_arg; interval_arg] =>
      try_except
        (symbol <- validate_symbol symbol_arg ;;
         side <- validate_side side_arg ;;
         total_quantity <- validate_quantity total_qty_arg ;;
         num_slices <- validate_positive_int max_str_digits slices_arg "num_slices" ;;
         interval_seconds <-
           validate_positive_int max_str_digits interval_arg "interval_seconds" ;;
         (if 100 <? num_slices then
            raise (ValueError [FStr "num_slices must not exceed 100 for safety"])
          else ret tt) ;;
         quantity_per_slice <- divide total_quantity (float_of_int num_slices) ;;
         print [FStr "TWAP Strategy Configuration:"] ;;
         print [FStr "Symbol: "; FStr symbol] ;;
         print [FStr "Side: "; FStr side] ;;
         print [FStr "Total Quantity: "; FFloat total_quantity] ;;
         print [FStr "Number of Slices: "; FInt num_slices] ;;
         print [FStr "Quantity per Slice: "; FFloat quantity_per_slice] ;;
         print [FStr "Interval: "; FInt interval_seconds; FStr " seconds"] ;;
         format_int max_str_digits ((num_slices - 1) * interval_seconds) ;;
         print [FStr "Total Execution Time: ~"; FInt ((num_slices - 1) * interval_seconds);
                FStr " seconds"] ;;
         print [FStr "Starting execution..."] ;;
         orders <- execute_twap_strategy client symbol side total_quantity num_slices
                     interval_seconds ;;
         print [FStr "TWAP strategy completed successfully!"] ;;
         print [FStr "Execution Summary:"] ;;
         print [FStr "Total Orders Placed: "; FInt (Z.of_nat (List.length orders))] ;;
         print [FStr "Total Quantity Executed: "; FFloat total_quantity] ;;
         print [FStr "Order Details:"] ;;
         for_each (enumerate_from 1 orders)
           (fun '(i, order) =>
              print [FStr "Slice "; FInt i; FStr ":"] ;;
              print [FStr "Order ID: "; FInt (orderId order)] ;;
              print [FStr "Quantity: "; FStr (origQty order)] ;;
              print [FStr "Status: "; FStr (status order)]))
        twap_main_handler
  | _ =>
      print [FStr "Usage: python src/advanced/twap.py <SYMBOL> <SIDE> <TOTAL_QUANTITY> <NUM_SLICES> <INTERVAL_SECONDS>"] ;;
      print [FStr "Example: python src/advanced/twap.py BTCUSDT BUY 0.1 5 10"] ;;
      print [FStr "Explanation:"] ;;
      print [FStr "TOTAL_QUANTITY: Total amount to trade"] ;;
      print [FStr "NUM_SLICES: Number of equal slices to split the order into"] ;;
      print [FStr "INTERVAL_SECONDS: Time in seconds between each slice execution"] ;;
      sys_exit 1
  end.

(** ** [advanced/oco.py] *)

Definition oco_request (symbol close_side type : string) (stop_price : float) : order_request :=
  {| symbol := symbol; side := close_side; type := type;
     stopPrice := Some stop_price; closePosition := Some "true";
     quantity := None; price := None; timeInForce := None |}.

(** The three [except] clauses of [place_oco_style_orders]. *)
Definition oco_handler {A} (e : exn) : M A :=
  match e with
  | BinanceAPIException status_code message =>
      logger_error [FStr "Binance API error: "; FInt status_code; FStr " - ";
                    FStr message] ;;
      raise e
  | BinanceOrderException status_code message =>
      logger_error [FStr "Binance order error: "; FInt status_code; FStr " - ";
                    FStr message] ;;
      raise e
  | ValueError message | ZeroDivisionError message | OtherException message =>
      logger_error (FStr "Unexpected error placing OCO-style orders: " :: message) ;;
      raise e
  | SystemExit _ => raise e
  end.

Definition place_oco_style_orders (client : Client) (symbol side : string)
    (quantity take_profit_price stop_loss_price : float)
  : M (order_response * order_response) :=
  logger_info [FStr "Placing OCO-style orders: "; FStr side; FStr " "; FFloat quantity;
               FStr " "; FStr symbol; FStr " | TP: "; FFloat take_profit_price;
               FStr ", SL: "; FFloat stop_loss_price] ;;
  try_except
    (let close_side := side in
     logger_info [FStr "Placing Take-Profit order at "; FFloat take_profit_price] ;;
     take_profit_order <-
       futures_create_order client
         (oco_request symbol close_side "TAKE_PROFIT_MARKET" take_profit_price) ;;
     logger_info [FStr "Take-Profit order placed: Order ID ";
                  FInt (orderId take_profit_order)] ;;
     logger_debug [FStr "Take-Profit order response: "; FResp take_profit_order] ;;
     logger_info [FStr "Placing Stop-Loss order at "; FFloat stop_loss_price] ;;
     stop_loss_order <-
       futures_create_order client
         (oco_request symbol close_side "STOP_MARKET" stop_loss_price) ;;
     logger_info [FStr "Stop-Loss order placed: Order ID "; FInt (orderId stop_loss_order)] ;;
     logger_debug [FStr "Stop-Loss order response: "; FResp stop_loss_order] ;;
     logger_info [FStr "OCO-style orders placed successfully"] ;;
     ret (take_profit_order, stop_loss_order))
    oco_handler.

(** The [except] clauses of [main]: every one ends in [sys.exit(1)]. *)
Definition oco_main_handler (e : exn) : M unit :=
  match e with
  | ValueError message =>
      logger_error (FStr "Validation error: " :: message) ;;
      print (FStr "Validation error: " :: message) ;;
      sys_exit 1
  | BinanceAPIException _ message =>
      print [FStr "Binance API error: "; FStr message] ;;
      sys_exit 1
  | BinanceOrderException status_code message =>
      logger_error [FStr "Fatal error: "; FErr status_code message] ;;
      print [FStr "Error: "; FErr status_code message] ;;
      sys_exit 1
  | ZeroDivisionError message | OtherException message =>
      logger_error (FStr "Fatal error: " :: message) ;;
      print (FStr "Error: " :: message) ;;
      sys_exit 1
  | SystemExit _ => raise e
  end.

(** [main()] of [oco.py], with [sys.argv] as its argument. *)
Definition oco_main (client : Client) (argv : list string) : M unit :=
  match argv with
  | [_; symbol_arg; side_arg; quantity_arg; tp_price_arg; sl_price_arg] =>
      try_except
        (symbol <- validate_symbol symbol_arg ;;
         side <- validate_side side_arg ;;
         quantity <- validate_quantity quantity_arg ;;
         take_profit_price <- validate_price tp_price_arg ;;
         stop_loss_price <- validate_price sl_price_arg ;;
         (if String.eqb side "SELL" then
            if fle take_profit_price stop_loss_price then
              raise (ValueError [FStr "For SELL orders: Take-Profit price must be higher than Stop-Loss price"])
            else ret tt
          else
            if fge take_profit_price stop_loss_price then
              raise (ValueError [FStr "For BUY orders: Take-Profit price must be lower than Stop-Loss price"])
            else ret tt) ;;
         ' (tp_order, sl_order) <-
           place_oco_style_orders client symbol side quantity take_profit_price
             stop_loss_price ;;
         print [FStr "OCO-style orders placed successfully!"] ;;
         print [FStr "Take-Profit Order:"] ;;
         print [FStr "Order ID: "; FInt (orderId tp_order)] ;;
         print [FStr "Type: "; FStr (r_type tp_order)] ;;
         print [FStr "Stop Price: "; FStr (r_stopPrice tp_order)] ;;
         print [FStr "Status: "; FStr (status tp_order)] ;;
         print [FStr "Stop-Loss Order:"] ;;
         print [FStr "Order ID: "; FInt (orderId sl_order)] ;;
         print [FStr "Type: "; FStr (r_type sl_order)] ;;
         print [FStr "Stop Price: "; FStr (r_stopPrice sl_order)] ;;
         print [FStr "Status: "; FStr (status sl_order)] ;;
         print [FStr "NOTE: Both orders are now active. When one is triggered and fills,"] ;;
         print [FStr "the other will remain active unless you cancel it manually or it's"] ;;
         print [FStr "triggered by price movement in the opposite direction."])
        oco_main_handler
  | _ =>
      print [FStr "Usage: python src/advanced/oco.py <SYMBOL> <SIDE> <QUANTITY> <TAKE_PROFIT_PRICE> <STOP_LOSS_PRICE>"] ;;
      print [FStr "Example: python src/advanced/oco.py BTCUSDT SELL 0.01 52000 50000"] ;;
      print [FStr "Explanation:"] ;;
      print [FStr "SIDE: Should be opposite to your position (SELL for LONG, BUY for SHORT)"] ;;
      print [FStr "TAKE_PROFIT_PRICE: Price to take profit"] ;;
      print [FStr "STOP_LOSS_PRICE: Price to stop loss"] ;;
      print [FStr "NOTE: This simulates OCO using Take-Profit and Stop-Loss market orders."] ;;
      print [FStr "Both orders will close your position when triggered."] ;;
      sys_exit 1
  end.

(** ** The answer as a [dict], and [format_order_response] of [utils.py] *)

(** The keys of an answer other than the six of [order_response], with
    their values. *)
Definition other_keys : Type := order_response -> string -> option string.

Inductive pyvalue : Type :=
| VInt (z : Z)
| VStr (s : string).

(** [order.get(key)] *)
Definition dict_get (more : other_keys) (order : order_response) (key : string)
  : option pyvalue :=
  if String.eqb key "orderId" then Some (VInt (orderId order))
  else if String.eqb key "status" then Some (VStr (status order))
  else if String.eqb key "type" then Some (VStr (r_type order))
  else if String.eqb key "price" then Some (VStr (r_price order))
  else if String.eqb key "stopPrice" then Some (VStr (r_stopPrice order))
  else if String.eqb key "origQty" then Some (VStr (origQty order))
  else option_map VStr (more order key).

(** A value inside an f-string. *)
Definition format_value (v : pyvalue) : frag :=
  match v with
  | VInt z => FInt z
  | VStr s => FStr s
  end.

(** [order.get(key, 'N/A')] inside an f-string *)
Definition get_or_na (more : other_keys) (order : order_response) (key : string) : frag :=
  match dict_get more order key with
  | Some v => format_value v
  | None => FStr "N/A"
  end.

(** [order[key]] inside an f-string; a missing key raises [KeyError], whose
    [str] is the key between quotes. *)
Definition subscript (more : other_keys) (order : order_response) (key : string) : M frag :=
  match dict_get more order key with
  | Some v => ret (format_value v)
  | None => raise (OtherException [FStr ("'" ++ key ++ "'")])
  end.

(** The line feed. *)
Definition LF : string := String (ascii_of_nat 10) EmptyString.

Definition format_order_response (more : other_keys) (order : order_response) : text :=
  [FStr ("Order placed successfully:" ++ LF ++ "  Order ID: ");
   get_or_na more order "orderId";
   FStr (LF ++ "  Symbol: "); get_or_na more order "symbol";
   FStr (LF ++ "  Side: "); get_or_na more order "side";
   FStr (LF ++ "  Type: "); get_or_na more order "type";
   FStr (LF ++ "  Quantity: "); get_or_na more order "origQty";
   FStr (LF ++ "  Price: "); get_or_na more order "price";
   FStr (LF ++ "  Status: "); get_or_na more order "status"].

(** ** [market_orders.py], [limit_orders.py] and [advanced/stop_limit.py] *)

(** The three [except] clauses of an executor of one order; [what] is the
    kind of order that the third one names. *)
Definition order_handler {A} (what : string) (e : exn) : M A :=
  match e with
  | BinanceAPIException status_code message =>
      logger_error [FStr "Binance API error: "; FInt status_code; FStr " - ";
                    FStr message] ;;
      raise e
  | BinanceOrderException status_code message =>
      logger_error [FStr "Binance order error: "; FInt status_code; FStr " - ";
                    FStr message] ;;
      raise e
  | ValueError message | ZeroDivisionError message | OtherException message =>
      logger_error ([FStr "Unexpected error placing "; FStr what; FStr " order: "]
                    ++ message) ;;
      raise e
  | SystemExit _ => raise e
  end.

(** The [except] clauses of the three [main] functions, which are the same:
    every one ends in [sys.exit(1)]. *)
Definition order_main_handler (e : exn) : M unit :=
  match e with
  | ValueError message =>
      logger_error (FStr "Validation error: " :: message) ;;
      print (FStr "Validation error: " :: message) ;;
      sys_exit 1
  | BinanceAPIException _ message =>
      print [FStr "Binance API error: "; FStr message] ;;
      sys_exit 1
  | BinanceOrderException status_code message =>
      logger_error [FStr "Fatal error: "; FErr status_code message] ;;
      print [FStr "Error: "; FErr status_code message] ;;
      sys_exit 1
  | ZeroDivisionError message | OtherException message =>
      logger_error (FStr "Fatal error: " :: message) ;;
      print (FStr "Error: " :: message) ;;
      sys_exit 1
  | SystemExit _ => raise e
  end.

Definition market_request (symbol side : string) (quantity : float) : order_request :=
  {| symbol := symbol; side := side; type := "MARKET"; quantity := Some quantity;
     price := None; stopPrice := None; timeInForce := None; closePosition := None |}.

Definition place_market_order (more : other_keys) (client : Client) (symbol side : string)
    (quantity : float) : M order_response :=
  logger_info [FStr "Placing market order: "; FStr side; FStr " "; FFloat quantity;
               FStr " "; FStr symbol] ;;
  try_except
    (order <- futures_create_order client (market_request symbol side quantity) ;;
     logger_info (format_order_response more order) ;;
     logger_debug [FStr "Full order response: "; FResp order] ;;
     ret order)
    (order_handler "market").

(** [main()] of [market_orders.py], with [sys.argv] as its argument. *)
Definition market_main (more : other_keys) (client : Client) (argv : list string) : M unit :=
  match argv with
  | [_; symbol_arg; side_arg; quantity_arg] =>
      try_except
        (symbol <- validate_symbol symbol_arg ;;
         side <- validate_side side_arg ;;
         quantity <- validate_quantity quantity_arg ;;
         order <- place_market_order more client symbol side quantity ;;
         print [FStr "Market order executed successfully!"] ;;
         v <- subscript more order "orderId" ;; print [FStr "Order ID: "; v] ;;
         v <- subscript more order "symbol" ;; print [FStr "Symbol: "; v] ;;
         v <- subscript more order "side" ;; print [FStr "Side: "; v] ;;
         v <- subscript more order "origQty" ;; print [FStr "Quantity: "; v] ;;
         v <- subscript more order "status" ;; print [FStr "Status: "; v])
        order_main_handler
  | _ =>
      print [FStr "Usage: python src/market_orders.py <SYMBOL> <SIDE> <QUANTITY>"] ;;
      print [FStr "Example: python src/market_orders.py BTCUSDT BUY 0.01"] ;;
      sys_exit 1
  end.

Definition limit_request (symbol side : string) (quantity price : float) : order_request :=
  {| symbol := symbol; side := side; type := "LIMIT"; timeInForce := Some "GTC";
     quantity := Some quantity; price := Some price;
     stopPrice := None; closePosition := None |}.

Definition place_limit_order (more : other_keys) (client : Client) (symbol side : string)
    (quantity price : float) : M order_response :=
  logger_info [FStr "Placing limit order: "; FStr side; FStr " "; FFloat quantity;
               FStr " "; FStr symbol; FStr " @ "; FFloat price] ;;
  try_except
    (order <- futures_create_order client (limit_request symbol side quantity price) ;;
     logger_info (format_order_response more order) ;;
     logger_debug [FStr "Full order response: "; FResp order] ;;
     ret order)
    (order_handler "limit").

(** [main()] of [limit_orders.py], with [sys.argv] as its argument. *)
Definition limit_main (more : other_keys) (client : Client) (argv : list string) : M unit :=
  match argv with
  | [_; symbol_arg; side_arg; quantity_arg; price_arg] =>
      try_except
        (symbol <- validate_symbol symbol_arg ;;
         side <- validate_side side_arg ;;
         quantity <- validate_quantity quantity_arg ;;
         price <- validate_price price_arg ;;
         order <- place_limit_order more client symbol side quantity price ;;
         print [FStr "Limit order placed successfully!"] ;;
         v <- subscript more order "orderId" ;; print [FStr "Order ID: "; v] ;;
         v <- subscript more order "symbol" ;; print [FStr "Symbol: "; v] ;;
         v <- subscript more order "side" ;; print [FStr "Side: "; v] ;;
         v <- subscript more order "origQty" ;; print [FStr "Quantity: "; v] ;;
         v <- subscript more order "price" ;; print [FStr "Price: "; v] ;;
         v <- subscript more order "status" ;; print [FStr "Status: "; v] ;;
         v <- subscript more order "timeInForce" ;; print [FStr "Time in Force: "; v])
        order_main_handler
  | _ =>
      print [FStr "Usage: python src/limit_orders.py <SYMBOL> <SIDE> <QUANTITY> <PRICE>"] ;;
      print [FStr "Example: python src/limit_orders.py BTCUSDT SELL 0.01 52000"] ;;
      sys_exit 1
  end.

Definition stop_limit_request (symbol side : string) (quantity stop_price limit_price : float)
  : order_request :=
  {| symbol := symbol; side := side; type := "STOP"; timeInForce := Some "GTC";
     quantity := Some quantity; price := Some limit_price; stopPrice := Some stop_price;
     closePosition := None |}.

Definition place_stop_limit_order (more : other_keys) (client : Client)
    (symbol side : string) (quantity stop_price limit_price : float) : M order_response :=
  logger_info [FStr "Placing stop-limit order: "; FStr side; FStr " "; FFloat quantity;
               FStr " "; FStr symbol; FStr " | Stop: "; FFloat stop_price;
               FStr ", Limit: "; FFloat limit_price] ;;
  try_except
    (order <- futures_create_order client
                (stop_limit_request symbol side quantity stop_price limit_price) ;;
     logger_info (format_order_response more order) ;;
     logger_debug [FStr "Full order response: "; FResp order] ;;
     ret order)
    (order_handler "stop-limit").

(** [main()] of [stop_limit.py], with [sys.argv] as its argument. *)
Definition stop_limit_main (more : other_keys) (client : Client) (argv : list string)
  : M unit :=
  match argv with
  | [_; symbol_arg; side_arg; quantity_arg; stop_price_arg; limit_price_arg] =>
      try_except
        (symbol <- validate_symbol symbol_arg ;;
         side <- validate_side side_arg ;;
         quantity <- validate_quantity quantity_arg ;;
         stop_price <- validate_price stop_price_arg ;;
         limit_price <- validate_price limit_price_arg ;;
         order <- place_stop_limit_order more client symbol side quantity stop_price
                    limit_price ;;
         print [FStr "Stop-limit order placed successfully!"] ;;
         v <- subscript more order "orderId" ;; print [FStr "Order ID: "; v] ;;
         v <- subscript more order "symbol" ;; print [FStr "Symbol: "; v] ;;
         v <- subscript more order "side" ;; print [FStr "Side: "; v] ;;
         v <- subscript more order "type" ;; print [FStr "Type: "; v] ;;
         v <- subscript more order "origQty" ;; print [FStr "Quantity: "; v] ;;
         v <- subscript more order "stopPrice" ;; print [FStr "Stop Price: "; v] ;;
         v <- subscript more order "price" ;; print [FStr "Limit Price: "; v] ;;
         v <- subscript more order "status" ;; print [FStr "Status: "; v])
        order_main_handler
  | _ =>
      print [FStr "Usage: python src/advanced/stop_limit.py <SYMBOL> <SIDE> <QUANTITY> <STOP_PRICE> <LIMIT_PRICE>"] ;;
      print [FStr "Example: python src/advanced/stop_limit.py BTCUSDT SELL 0.01 51000 50800"] ;;
      print [FStr "Explanation:"] ;;
      print [FStr "STOP_PRICE: Price that triggers the limit order"] ;;
      print [FStr "LIMIT_PRICE: Price at which the limit order will be placed"] ;;
      sys_exit 1
  end.

(** ** [config.py]

    The environment that [os.getenv] reads, after [load_dotenv], is a function
    from names to values.  [Client(...)] and [futures_ping()] belong to the
    client library: what they answer is an argument of [get_client]. *)

Record BinanceConfig : Type := {
  api_key : option string;
  api_secret : option string;
  use_testnet : bool;
  client : option Client
}.

(** [not v] for a value that is [None] or a string. *)
Definition falsy (v : option string) : bool :=
  match v with
  | None => true
  | Some s => String.eqb s ""
  end.

(** [v == literal] for a value that is [None] or a string. *)
Definition equals (v : option string) (literal : string) : bool :=
  match v with
  | None => false
  | Some s => String.eqb s literal
  end.

Definition _validate_credentials (api_key api_secret : option string) : M unit :=
  if falsy api_key || falsy api_secret then
    let error_msg :=
      "Missing API credentials. Please set BINANCE_API_KEY and BINANCE_API_SECRET in your .env file." in
    logger_error [FStr error_msg] ;;
    raise (ValueError [FStr error_msg])
  else if equals api_key "your_api_key_here" || equals api_secret "your_api_secret_here" then
    let error_msg :=
      "Please replace placeholder API credentials in .env file with your actual Binance API key and secret." in
    logger_error [FStr error_msg] ;;
    raise (ValueError [FStr error_msg])
  else ret tt.

(** [BinanceConfig()] *)
Definition BinanceConfig_init (getenv : string -> option string) : M BinanceConfig :=
  let api_key := getenv "BINANCE_API_KEY" in
  let api_secret := getenv "BINANCE_API_SECRET" in
  let use_testnet :=
    String.eqb
      (lower (match getenv "USE_TESTNET" with Some v => v | None => "True" end))
      "true" in
  _validate_credentials api_key api_secret ;;
  ret {| api_key := api_key; api_secret := api_secret; use_testnet := use_testnet;
         client := None |}.

(** The two [except] clauses of [get_client]. *)
Definition get_client_handler {A} (e : exn) : M A :=
  match e with
  | BinanceAPIException status_code message =>
      logger_error [FStr "Binance API error during client initialization: ";
                    FErr status_code message] ;;
      raise e
  | BinanceOrderException status_code message =>
      logger_error [FStr "Unexpected error during client initialization: ";
                    FErr status_code message] ;;
      raise e
  | ValueError message | ZeroDivisionError message | OtherException message =>
      logger_error (FStr "Unexpected error during client initialization: " :: message) ;;
      raise e
  | SystemExit _ => raise e
  end.

(** [self.get_client()]: the outcome, the object [self] afterwards, and the
    state.  [new_client] is [Client(api_key=..., api_secret=..., testnet=...)]
    and [futures_ping] the connection test of the client made. *)
Definition get_client
    (new_client : option string -> option string -> bool -> result Client)
    (futures_ping : Client -> result unit)
    (self : BinanceConfig) (s : state) : result Client * BinanceConfig * state :=
  match client self with
  | Some c => (Ok c, self, s)
  | None =>
      match new_client (api_key self) (api_secret self) (use_testnet self) with
      | Raise e =>
          let '(r, s') := get_client_handler e s in (r, self, s')
      | Ok c =>
          let self :=
            {| api_key := api_key self; api_secret := api_secret self;
               use_testnet := use_testnet self; client := Some c |} in
          match futures_ping c with
          | Raise e =>
              let '(r, s') := get_client_handler e s in (r, self, s')
          | Ok _ =>
              let mode := if use_testnet self then "TESTNET" else "MAINNET" in
              let '(_, s') :=
                logger_info [FStr "Successfully connected to Binance Futures "; FStr mode] s in
              (Ok c, self, s')
          end
      end
  end.

(** ** Stub clients, for concrete runs *)

Definition stub_response (n : Z) : order_response :=
  {| orderId := n; status := "NEW"; r_type := "LIMIT"; r_price := "0";
     r_stopPrice := "0"; origQty := "0" |}.

(** Accepts every submission; the n-th answer has order id [n]. *)
Definition accepting_client : Client :=
  fun history _ => Ok (stub_response (Z.of_nat (List.length history) + 1)).

(** Raises [e] at its [k]-th submission (counting from 1) and accepts the
    others. *)
Definition failing_client (k : nat) (e : exn) : Client :=
  fun history _ =>
    if Nat.eqb (S (List.length history)) k then Raise e
    else Ok (stub_response (Z.of_nat (List.length history) + 1)).

(** ** Reading a trace *)

(** The submissions, oldest first, each with its outcome. *)
Fixpoint submissions (tr : list event) : list (order_request * result order_response) :=
  match tr with
  | [] => []
  | Submitted req res :: tr' => (req, res) :: submissions tr'
  | _ :: tr' => submissions tr'
  end.

(** The delays slept, oldest first. *)
Fixpoint sleeps (tr : list event) : list Z :=
  match tr with
  | [] => []
  | Slept secs :: tr' => secs :: sleeps tr'
  | _ :: tr' => sleeps tr'
  end.

(** The [ERROR] and [WARNING] records, oldest first. *)
Fixpoint alerts (tr : list event) : list (level * text) :=
  match tr with
  | [] => []
  | Logged ERROR msg :: tr' => (ERROR, msg) :: alerts tr'
  | Logged WARNING msg :: tr' => (WARNING, msg) :: alerts tr'
  | _ :: tr' => alerts tr'
  end.

(** Submissions and sleeps only, in the order they happened. *)
Fixpoint actions (tr : list event) : list event :=
  match tr with
  | [] => []
  | Submitted req res :: tr' => Submitted req res :: actions tr'
  | Slept secs :: tr' => Slept secs :: actions tr'
  | _ :: tr' => actions tr'
  end.

Definition succeeded (sub : order_request * result order_response) : bool :=
  match snd sub with Ok _ => true | Raise _ => false end.

(** ** The vocabulary of the properties *)

(** The level that the specification writes [L + ((U - L) / (N - 1)) * i]. *)
Definition level_formula (L U : Q) (N i : Z) : Q :=
  (L + ((U - L) / inject_Z (N - 1)) * inject_Z i)%Q.

(** The levels that the comprehension builds from real bounds. *)
Definition real_levels (L U : Q) (N : Z) : list float :=
  map (fun i =>
         fadd (Fin L)
           (fmul (fin (Qred (U + Qred (- L)) / inject_Z (N - 1))) (float_of_int i)))
    (range N).

(** The integer [0] as a float. *)
Definition zero : float := float_of_int 0.

(** What a slice that goes through does: it submits, and sleeps unless it
    is the last one. *)
Definition slice_actions (symbol side : string) (quantity_per_slice : float)
    (num_slices interval_seconds : Z) (slice : Z * order_response) : list event :=
  Submitted (twap_request symbol side quantity_per_slice) (Ok (snd slice))
  :: (if fst slice <? num_slices - 1 then [Slept interval_seconds] else []).

(** How the loop over the indices [indices] ends, with [rs] the responses
    received and [acts] the submissions and sleeps made. *)
Inductive twap_end (symbol side : string) (quantity_per_slice : float)
    (num_slices interval_seconds : Z)
    (indices : list Z) (rs : list order_response) (acts : list event)
  : result unit -> Prop :=
| twap_completed :
    List.length rs = List.length indices ->
    acts = flat_map (slice_actions symbol side quantity_per_slice num_slices interval_seconds)
             (combine indices rs) ->
    twap_end symbol side quantity_per_slice num_slices interval_seconds indices rs acts
      (Ok tt)
| twap_submission_failed (e : exn) :
    (List.length rs < List.length indices)%nat ->
    acts = flat_map (slice_actions symbol side quantity_per_slice num_slices interval_seconds)
             (combine indices rs)
           ++ [Submitted (twap_request symbol side quantity_per_slice) (Raise e)] ->
    twap_end symbol side quantity_per_slice num_slices interval_seconds indices rs acts
      (Raise e)
| twap_sleep_failed (e : exn) :
    interval_seconds < 0 ->
    (List.length rs <= List.length indices)%nat ->
    e = ValueError [FStr "sleep length must be non-negative"] ->
    forallb succeeded (submissions acts) = true ->
    twap_end symbol side quantity_per_slice num_slices interval_seconds indices rs acts
      (Raise e).

(** [isinstance(e, Exception)]: what an [except Exception] clause catches. *)
Definition is_exception (e : exn) : bool :=
  match e with SystemExit _ => false | _ => true end.

(** [sep] between every two neighbours of [l]. *)
Fixpoint intersperse {A} (sep : A) (l : list A) : list A :=
  match l with
  | [] => []
  | x :: t =>
      match t with
      | [] => [x]
      | _ :: _ => x :: sep :: intersperse sep t
      end
  end.

(** The three headlines of the error record of [execute_twap_strategy]. *)
Definition twap_headlines : list string :=
  ["Binance API error on slice "; "Binance order error on slice ";
   "Unexpected error on slice "].

Definition twap_warning (completed num_slices : Z) : text :=
  [FStr "Completed "; FInt completed; FStr " out of "; FInt num_slices;
   FStr " slices before error"].

(** The two records that the handler writes when [completed] slices went
    through. *)
Definition twap_failure_alerts (headline : string) (detail : text)
    (completed num_slices : Z) : list (level * text) :=
  [(ERROR, [FStr headline; FInt (completed + 1); FStr "/"; FInt num_slices; FStr ": "]
           ++ detail);
   (WARNING, twap_warning completed num_slices)].

(** The literal pieces of the log records of a trace. *)
Fixpoint text_literals (t : text) : list string :=
  match t with
  | [] => []
  | FStr s :: t' => s :: text_literals t'
  | _ :: t' => text_literals t'
  end.

Fixpoint log_literals (tr : list event) : list string :=
  match tr with
  | [] => []
  | Logged _ msg :: tr' => text_literals msg ++ log_literals tr'
  | _ :: tr' => log_literals tr'
  end.

(** How the loop over [levels] ends, with [rs] the responses received and
    [subs] the submissions made. *)
Inductive grid_end (symbol : string) (quantity_per_grid : float)
    (levels : list (Z * float)) (rs : list order_response)
    (subs : list (order_request * result order_response)) : result unit -> Prop :=
| grid_completed :
    List.length rs = List.length levels ->
    subs = map (fun p => (grid_request symbol quantity_per_grid (snd (fst p)), Ok (snd p)))
             (combine levels rs) ->
    grid_end symbol quantity_per_grid levels rs subs (Ok tt)
| grid_failed (level : Z * float) (e : exn) :
    nth_error levels (List.length rs) = Some level ->
    subs = map (fun p => (grid_request symbol quantity_per_grid (snd (fst p)), Ok (snd p)))
             (combine levels rs)
           ++ [(grid_request symbol quantity_per_grid (snd level), Raise e)] ->
    grid_end symbol quantity_per_grid levels rs subs (Raise e).

(** The submissions of the executor, for a client that has been sent
    [history] before: the take-profit order, then, when that one went
    through, the stop-loss order. *)
Definition oco_submissions (client : Client) (symbol side : string)
    (take_profit_price stop_loss_price : float) (history : list order_request)
  : list (order_request * result order_response) :=
  let tp_request := oco_request symbol side "TAKE_PROFIT_MARKET" take_profit_price in
  let sl_request := oco_request symbol side "STOP_MARKET" stop_loss_price in
  match client history tp_request with
  | Raise e => [(tp_request, Raise e)]
  | Ok o1 => [(tp_request, Ok o1); (sl_request, client (history ++ [tp_request]) sl_request)]
  end.

(** What the executor returns or raises. *)
Definition oco_result (client : Client) (symbol side : string)
    (take_profit_price stop_loss_price : float) (history : list order_request)
  : result (order_response * order_response) :=
  let tp_request := oco_request symbol side "TAKE_PROFIT_MARKET" take_profit_price in
  let sl_request := oco_request symbol side "STOP_MARKET" stop_loss_price in
  match client history tp_request with
  | Raise e => Raise e
  | Ok o1 =>
      match client (history ++ [tp_request]) sl_request with
      | Raise e => Raise e
      | Ok o2 => Ok (o1, o2)
      end
  end.

(** A step that only writes records other than errors and warnings, and
    whose outcome does not depend on the state. *)
Definition quiet {A} (m : M A) : Prop :=
  exists (r : result A) (evs : list event),
    (forall s, m s = (r, {| trace := trace s ++ evs; orders := orders s |}))
    /\ actions evs = [] /\ alerts evs = [].

(** The price test of [main]: [true] when it raises. *)
Definition price_logic_violated (input_side : string) (tp sl : float) : bool :=
  if String.eqb input_side "SELL" then fle tp sl else fge tp sl.

Definition price_logic_message (input_side : string) : string :=
  if String.eqb input_side "SELL"
  then "For SELL orders: Take-Profit price must be higher than Stop-Loss price"
  else "For BUY orders: Take-Profit price must be lower than Stop-Loss price".

(** [main] went on to the executor: the first order sent is [first]. *)
Definition oco_accepted (out : result unit * state) (first : order_request) : Prop :=
  exists (res : result order_response) (rest : list (order_request * result order_response)),
    submissions (trace (snd out)) = (first, res) :: rest.

(** [main] stopped on a validation error with the text [message]: it exits
    with status 1 and nothing was submitted. *)
Definition oco_rejected (out : result unit * state) (message : string) : Prop :=
  fst out = Raise (SystemExit 1)
  /\ submissions (trace (snd out)) = []
  /\ alerts (trace (snd out)) = [(ERROR, [FStr "Validation error: "; FStr message])].

(** ** The vocabulary of the further properties *)

(** The three headlines of the error record of [execute_grid_strategy]. *)
Definition grid_headlines : list string :=
  ["Binance API error on grid "; "Binance order error on grid ";
   "Unexpected error on grid "].

(** The two records that the handler writes when [placed] orders went
    through. *)
Definition grid_failure_alerts (headline : string) (detail : text)
    (placed grid_count : Z) : list (level * text) :=
  [(ERROR, [FStr headline; FInt (placed + 1); FStr "/"; FInt grid_count; FStr ": "]
           ++ detail);
   (WARNING, [FStr "Placed "; FInt placed; FStr " out of "; FInt grid_count;
              FStr " grids before error"])].

(** [sends m Q]: from every state, [m] ends, it only adds to the trace, and
    [Q] holds of the requests submitted before it started, of its outcome and
    of the submissions it made. *)
Definition sends {A} (m : M A)
    (Q : list order_request -> result A
         -> list (order_request * result order_response) -> Prop) : Prop :=
  forall s : state,
  exists (r : result A) (s' : state) (evs : list event),
    m s = (r, s') /\ trace s' = trace s ++ evs
    /\ Q (submitted_requests (trace s)) r (submissions evs).

(** [m] submits nothing. *)
Definition silent {A} (m : M A) : Prop := sends m (fun _ _ subs => subs = []).

(** The command line [argv] passes the validation of [main]: the five
    arguments validate to these values and there are at most 100 slices. *)
Definition twap_main_accepts (max_str_digits : nat) (argv : list string)
    (symbol side : string) (total_quantity : float) (num_slices interval_seconds : Z)
  : Prop :=
  exists prog symbol_arg side_arg total_qty_arg slices_arg interval_arg : string,
    argv = [prog; symbol_arg; side_arg; total_qty_arg; slices_arg; interval_arg]
    /\ fst (validate_symbol symbol_arg initial) = Ok symbol
    /\ fst (validate_side side_arg initial) = Ok side
    /\ fst (validate_quantity total_qty_arg initial) = Ok total_quantity
    /\ fst (validate_positive_int max_str_digits slices_arg "num_slices" initial)
       = Ok num_slices
    /\ fst (validate_positive_int max_str_digits interval_arg "interval_seconds" initial)
       = Ok interval_seconds
    /\ 0 < num_slices <= 100.

(** What [main] of [twap.py] may have sent: nothing, or slices of a command
    line that it accepts. *)
Definition twap_main_sent (max_str_digits : nat) (argv : list string)
    (subs : list (order_request * result order_response)) : Prop :=
  subs = []
  \/ exists (symbol side : string) (total_quantity : float)
            (num_slices interval_seconds : Z) (q : float),
       twap_main_accepts max_str_digits argv symbol side total_quantity num_slices
         interval_seconds
       /\ fdiv total_quantity (float_of_int num_slices) = Some q
       /\ Z.of_nat (List.length subs) <= num_slices
       /\ forall sub, In sub subs -> fst sub = twap_request symbol side q.

(** The command line [argv] passes the validation of [main]: the five
    arguments validate to these values, there are between 2 and 50 levels and
    the range test passes. *)
Definition grid_main_accepts (max_str_digits : nat) (argv : list string)
    (symbol : string) (quantity_per_grid lower_price upper_price : float) (grid_count : Z)
  : Prop :=
  exists prog symbol_arg quantity_arg lower_price_arg upper_price_arg grid_count_arg : string,
    argv = [prog; symbol_arg; quantity_arg; lower_price_arg; upper_price_arg;
            grid_count_arg]
    /\ fst (validate_symbol symbol_arg initial) = Ok symbol
    /\ fst (validate_quantity quantity_arg initial) = Ok quantity_per_grid
    /\ fst (validate_price lower_price_arg initial) = Ok lower_price
    /\ fst (validate_price upper_price_arg initial) = Ok upper_price
    /\ fst (validate_positive_int max_str_digits grid_count_arg "grid_count" initial)
       = Ok grid_count
    /\ 2 <= grid_count <= 50
    /\ fge lower_price upper_price = false.

(** What [main] of [grid.py] may have sent: nothing, or the orders for the
    first levels of a command line that it accepts, in the order of the
    levels. *)
Definition grid_main_sent (max_str_digits : nat) (argv : list string)
    (subs : list (order_request * result order_response)) : Prop :=
  subs = []
  \/ exists (symbol : string) (quantity_per_grid lower_price upper_price : float)
            (grid_count : Z) (levels : list float),
       grid_main_accepts max_str_digits argv symbol quantity_per_grid lower_price
         upper_price grid_count
       /\ fst (calculate_grid_levels lower_price upper_price grid_count initial) = Ok levels
       /\ List.length levels = Z.to_nat grid_count
       /\ (List.length subs <= List.length levels)%nat
       /\ map fst subs
          = firstn (List.length subs) (map (grid_request symbol quantity_per_grid) levels).

(** The command line [argv] passes the validation of [main]: the five
    arguments validate to these values and the price test passes. *)
Definition oco_main_accepts (argv : list string) (symbol input_side : string)
    (quantity take_profit_price stop_loss_price : float) : Prop :=
  exists prog symbol_arg side_arg quantity_arg tp_price_arg sl_price_arg : string,
    argv = [prog; symbol_arg; side_arg; quantity_arg; tp_price_arg; sl_price_arg]
    /\ fst (validate_symbol symbol_arg initial) = Ok symbol
    /\ fst (validate_side side_arg initial) = Ok input_side
    /\ fst (validate_quantity quantity_arg initial) = Ok quantity
    /\ fst (validate_price tp_price_arg initial) = Ok take_profit_price
    /\ fst (validate_price sl_price_arg initial) = Ok stop_loss_price
    /\ price_logic_violated input_side take_profit_price stop_loss_price = false.

(** The characters of a value that [validate_positive_int] can accept. *)
Definition count_char (c : ascii) : bool :=
  is_digit c || is_c_space c || Ascii.eqb c "_" || Ascii.eqb c "+".

(** Every character of [s] passes the test [f]. *)
Fixpoint all_chars (f : ascii -> bool) (s : string) : bool :=
  match s with
  | EmptyString => true
  | String c t => f c && all_chars f t
  end.

(** Every event of [evs] is a line printed to the console. *)
Definition printed_only (evs : list event) : bool :=
  forallb (fun ev => match ev with Printed _ => true | _ => false end) evs.

(** What an executor of one order does from the state [s], when the request
    it builds is [req]: it submits [req] and nothing else, never sleeps, and
    hands on the client's answer; an accepted order is logged in its
    formatted form and without error or warning, a refusal that is an
    [Exception] with exactly one error record. *)
Definition order_outcome (more : other_keys) (client : Client) (s : state)
    (m : M order_response) (req : order_request) : Prop :=
  exists evs : list event,
    m s = (client (submitted_requests (trace s)) req,
           {| trace := trace s ++ evs; orders := orders s |})
    /\ submissions evs = [(req, client (submitted_requests (trace s)) req)]
    /\ sleeps evs = []
    /\ match client (submitted_requests (trace s)) req with
       | Ok order =>
           alerts evs = []
           /\ In (Logged INFO (format_order_response more order)) evs
       | Raise e =>
           (is_exception e = true -> exists msg : text, alerts evs = [(ERROR, msg)])
           /\ (is_exception e = false -> alerts evs = [])
       end.

(** What a [main] that places one order has sent and how it ended: nothing,
    and then it did not end normally; or the one request [req], and then a
    normal end means that the client accepted it and that the answer has
    the keys that [main] prints ([keys]). *)
Definition one_order_sent (client : Client) (history : list order_request)
    (req : order_request) (keys : order_response -> Prop) (r : result unit)
    (subs : list (order_request * result order_response)) : Prop :=
  subs = [(req, client history req)]
  /\ (r = Ok tt -> exists order, client history req = Ok order /\ keys order).

(** The command line [argv] passes the validation of [main] of
    [market_orders.py]: the three arguments validate to these values. *)
Definition market_main_accepts (argv : list string) (symbol side : string)
    (quantity : float) : Prop :=
  exists prog symbol_arg side_arg quantity_arg : string,
    argv = [prog; symbol_arg; side_arg; quantity_arg]
    /\ fst (validate_symbol symbol_arg initial) = Ok symbol
    /\ fst (validate_side side_arg initial) = Ok side
    /\ fst (validate_quantity quantity_arg initial) = Ok quantity.

(** The command line [argv] passes the validation of [main] of
    [limit_orders.py]: the four arguments validate to these values. *)
Definition limit_main_accepts (argv : list string) (symbol side : string)
    (quantity price : float) : Prop :=
  exists prog symbol_arg side_arg quantity_arg price_arg : string,
    argv = [prog; symbol_arg; side_arg; quantity_arg; price_arg]
    /\ fst (validate_symbol symbol_arg initial) = Ok symbol
    /\ fst (validate_side side_arg initial) = Ok side
    /\ fst (validate_quantity quantity_arg initial) = Ok quantity
    /\ fst (validate_price price_arg initial) = Ok price.

(** The command line [argv] passes the validation of [main] of
    [stop_limit.py]: the five arguments validate to these values. *)
Definition stop_limit_main_accepts (argv : list string) (symbol side : string)
    (quantity stop_price limit_price : float) : Prop :=
  exists prog symbol_arg side_arg quantity_arg stop_price_arg limit_price_arg : string,
    argv = [prog; symbol_arg; side_arg; quantity_arg; stop_price_arg; limit_price_arg]
    /\ fst (validate_symbol symbol_arg initial) = Ok symbol
    /\ fst (validate_side side_arg initial) = Ok side
    /\ fst (validate_quantity quantity_arg initial) = Ok quantity
    /\ fst (validate_price stop_price_arg initial) = Ok stop_price
    /\ fst (validate_price limit_price_arg initial) = Ok limit_price.

(** * Properties *)

(** ** Ranges and floats *)

Lemma range_length (n : Z) : List.length (range n) = Z.to_nat n.
Proof. unfold range. now rewrite length_map, length_seq. Qed.

Lemma range_nth_error (n : Z) (k : nat) :
  (k < Z.to_nat n)%nat -> nth_error (range n) k = Some (Z.of_nat k).
Proof.
  intros Hk. unfold range.
  rewrite nth_error_map, nth_error_seq.
  destruct (Nat.ltb_spec k (Z.to_nat n)) as [_ | Hge]; [reflexivity | lia].
Qed.

Lemma range_nonpositive (n : Z) : n <= 0 -> range n = [].
Proof.
  intros Hn. unfold range.
  replace (Z.to_nat n) with 0%nat by lia. reflexivity.
Qed.

Lemma last_nth_error {A} (l : list A) (x d : A) :
  nth_error l (List.length l - 1) = Some x -> last l d = x.
Proof.
  destruct l as [| y t]; [discriminate |].
  destruct (@exists_last _ (y :: t)) as (l' & a & ->); [discriminate |].
  rewrite last_last, length_app. cbn [List.length].
  replace (List.length l' + 1 - 1)%nat with (List.length l') by lia.
  rewrite nth_error_app2, Nat.sub_diag by lia. cbn. congruence.
Qed.

Lemma flt_Fin (a b : Q) : flt (Fin a) (Fin b) = true <-> (a < b)%Q.
Proof.
  cbn. rewrite negb_true_iff.
  destruct (Qle_bool b a) eqn:E.
  - apply Qle_bool_iff in E. split; [discriminate | intros H; exfalso; lra].
  - split; [intros _ | reflexivity].
    apply Qnot_le_lt. intros H. apply Qle_bool_iff in H. congruence.
Qed.

Lemma feq_Fin (a b : Q) : feq (Fin a) (Fin b) = true <-> (a == b)%Q.
Proof. cbn. apply Qeq_bool_iff. Qed.

Lemma inject_Z_nonzero (z : Z) : z <> 0 -> Qeq_bool (inject_Z z) 0 = false.
Proof.
  intros Hz. destruct (Qeq_bool (inject_Z z) 0) eqn:E; [| reflexivity].
  apply Qeq_bool_iff in E. unfold Qeq in E. cbn in E. lia.
Qed.

(** Division by an integer other than zero never raises. *)
Lemma divide_by_int (x : float) (z : Z) (s : state) :
  z <> 0 -> exists q, fdiv x (float_of_int z) = Some q /\ divide x (float_of_int z) s = (Ok q, s).
Proof.
  intros Hz. unfold divide, float_of_int, fdiv.
  rewrite (inject_Z_nonzero z Hz). eexists. split; reflexivity.
Qed.

(** ** Grid levels *)

Section GridLevels.

Variables (L U : Q) (N : Z).

Lemma calculate_grid_levels_real (s : state) :
  N <> 1 ->
  calculate_grid_levels (Fin L) (Fin U) N s
  = (Ok (real_levels L U N),
     {| trace :=
          trace s
          ++ [Logged DEBUG [FStr "Calculated "; FInt N; FStr " grid levels: ";
                            FFloats (real_levels L U N)]];
        orders := orders s |}).
Proof.
  intros HN. unfold calculate_grid_levels.
  destruct (Z.eqb_spec N 1) as [E | _]; [contradiction |].
  unfold bind, divide, fsub, fneg, fadd, fin, float_of_int, fdiv.
  rewrite inject_Z_nonzero by lia. reflexivity.
Qed.

Lemma real_levels_length : List.length (real_levels L U N) = Z.to_nat N.
Proof. unfold real_levels. now rewrite length_map, range_length. Qed.

Lemma real_levels_value (k : nat) :
  (k < Z.to_nat N)%nat ->
  exists q,
    nth_error (real_levels L U N) k = Some (Fin q)
    /\ (q == level_formula L U N (Z.of_nat k))%Q.
Proof.
  intros Hk. unfold real_levels.
  rewrite nth_error_map, (range_nth_error N k Hk).
  cbv [option_map fadd fmul fin float_of_int].
  eexists. split; [reflexivity |].
  unfold level_formula. rewrite !Qred_correct. unfold Qminus. reflexivity.
Qed.

End GridLevels.

Lemma level_formula_increasing (L U : Q) (N i j : Z) :
  (L < U)%Q -> 2 <= N -> i < j ->
  (level_formula L U N i < level_formula L U N j)%Q.
Proof.
  intros HLU HN Hij. unfold level_formula.
  assert (Hd : (0 < inject_Z (N - 1))%Q).
  { replace 0%Q with (inject_Z 0) by reflexivity. rewrite <- Zlt_Qlt. lia. }
  assert (Hs : (0 < (U - L) / inject_Z (N - 1))%Q).
  { apply Qlt_shift_div_l; [exact Hd | lra]. }
  assert (Hq : (inject_Z i < inject_Z j)%Q) by (rewrite <- Zlt_Qlt; exact Hij).
  apply Qplus_lt_r. apply Qmult_lt_l; assumption.
Qed.

Lemma level_formula_first (L U : Q) (N : Z) : (level_formula L U N 0 == L)%Q.
Proof. unfold level_formula. change (inject_Z 0) with 0%Q. ring. Qed.

Lemma level_formula_last (L U : Q) (N : Z) :
  N <> 1 -> (level_formula L U N (N - 1) == U)%Q.
Proof.
  intros HN. unfold level_formula. field.
  intros E. unfold Qeq in E. cbn in E. lia.
Qed.

(** Levels built from real bounds [L < U] with [N >= 2] go up strictly. *)
Lemma real_levels_increasing (L U : Q) (N : Z) :
  (L < U)%Q -> 2 <= N ->
  forall (i j : nat) (x y : float),
    (i < j)%nat ->
    nth_error (real_levels L U N) i = Some x ->
    nth_error (real_levels L U N) j = Some y ->
    flt x y = true.
Proof.
  intros HLU HN i j x y Hij Hx Hy.
  assert (Hj : (j < List.length (real_levels L U N))%nat).
  { apply nth_error_Some. congruence. }
  rewrite real_levels_length in Hj.
  destruct (real_levels_value L U N i) as (qi & Ei & Hqi); [lia |].
  destruct (real_levels_value L U N j) as (qj & Ej & Hqj); [lia |].
  rewrite Ei in Hx. rewrite Ej in Hy.
  injection Hx as <-. injection Hy as <-.
  apply flt_Fin. rewrite Hqi, Hqj.
  apply level_formula_increasing; [assumption | assumption | lia].
Qed.

(** C1.  For real bounds [L < U] and a count [N >= 2] the function returns
    exactly [N] levels, the [i]-th being [L + ((U - L) / (N - 1)) * i]; the
    levels are strictly increasing, the first equals [L] and the last equals
    [U].  For [N = 1] it returns the single level [(L + U) / 2]. *)
Theorem calculate_grid_levels_spec :
  (forall (L U : Q) (N : Z) (s : state),
      (L < U)%Q -> 2 <= N ->
      exists levels,
        fst (calculate_grid_levels (Fin L) (Fin U) N s) = Ok levels
        /\ Z.of_nat (List.length levels) = N
        /\ (forall i : nat, Z.of_nat i < N ->
              exists q, nth_error levels i = Some (Fin q)
                        /\ (q == level_formula L U N (Z.of_nat i))%Q)
        /\ (forall (i j : nat) (x y : float),
              (i < j)%nat -> nth_error levels i = Some x -> nth_error levels j = Some y ->
              flt x y = true)
        /\ (exists x, hd_error levels = Some x /\ feq x (Fin L) = true)
        /\ feq (last levels NaN) (Fin U) = true)
  /\ (forall (L U : Q) (s : state),
        exists q, fst (calculate_grid_levels (Fin L) (Fin U) 1 s) = Ok [Fin q]
                  /\ (q == (L + U) / 2)%Q).
Proof.
  split.
  - intros L U N s HLU HN.
    assert (HN1 : N <> 1) by lia.
    rewrite (calculate_grid_levels_real L U N s HN1). cbn [fst].
    pose proof (real_levels_length L U N) as Hlen.
    exists (real_levels L U N). split; [reflexivity |]. split; [lia |].
    split; [| split; [| split]].
    + intros i Hi. apply real_levels_value. lia.
    + apply real_levels_increasing; assumption.
    + destruct (real_levels_value L U N 0%nat) as (q0 & E0 & Hq0); [lia |].
      exists (Fin q0). split.
      * destruct (real_levels L U N); [discriminate | exact E0].
      * apply feq_Fin. rewrite Hq0. apply level_formula_first.
    + destruct (real_levels_value L U N (Z.to_nat (N - 1))) as (qn & En & Hqn); [lia |].
      assert (Hlast : last (real_levels L U N) NaN = Fin qn).
      { apply last_nth_error.
        replace (List.length (real_levels L U N) - 1)%nat with (Z.to_nat (N - 1)) by lia.
        exact En. }
      rewrite Hlast. apply feq_Fin. rewrite Hqn.
      replace (Z.of_nat (Z.to_nat (N - 1))) with (N - 1) by lia.
      apply level_formula_last. exact HN1.
  - intros L U s. eexists. split; [reflexivity |].
    rewrite Qred_correct. rewrite Qred_correct. reflexivity.
Qed.

Lemma calculate_grid_levels_spec_witness :
  (50000 < 52000)%Q /\ 2 <= 5 /\
  exists levels,
    fst (calculate_grid_levels (Fin 50000) (Fin 52000) 5 initial) = Ok levels
    /\ Z.of_nat (List.length levels) = 5
    /\ feq (last levels NaN) (Fin 52000) = true.
Proof.
  assert (H1 : (50000 < 52000)%Q) by reflexivity.
  assert (H2 : 2 <= 5) by lia.
  split; [exact H1 |]. split; [exact H2 |].
  destruct (proj1 calculate_grid_levels_spec 50000%Q 52000%Q 5 initial H1 H2)
    as (levels & Hr & Hlen & _ & _ & _ & Hlast).
  exists levels. repeat split; assumption.
Defined.



(** ** Strings *)

Lemma upper_char_idempotent (c : ascii) : upper_char (upper_char c) = upper_char c.
Proof. destruct c as [[] [] [] [] [] [] [] []]; reflexivity. Qed.

Lemma is_space_upper_char (c : ascii) : is_space (upper_char c) = is_space c.
Proof. destruct c as [[] [] [] [] [] [] [] []]; reflexivity. Qed.

Lemma upper_idempotent (s : string) : upper (upper s) = upper s.
Proof.
  induction s as [| c t IH]; cbn; [reflexivity |].
  now rewrite upper_char_idempotent, IH.
Qed.

Lemma upper_lstrip (s : string) : upper (lstrip s) = lstrip (upper s).
Proof.
  induction s as [| c t IH]; cbn; [reflexivity |].
  rewrite is_space_upper_char. destruct (is_space c); [exact IH | reflexivity].
Qed.

Lemma upper_rstrip (s : string) : upper (rstrip s) = rstrip (upper s).
Proof.
  induction s as [| c t IH]; cbn; [reflexivity |].
  rewrite <- IH, is_space_upper_char.
  destruct (rstrip t); cbn; [destruct (is_space c) |]; reflexivity.
Qed.

Lemma upper_strip (s : string) : upper (strip s) = strip (upper s).
Proof. unfold strip. now rewrite upper_rstrip, upper_lstrip. Qed.

Lemma rstrip_idempotent (s : string) : rstrip (rstrip s) = rstrip s.
Proof.
  induction s as [| c t IH]; cbn; [reflexivity |].
  destruct (rstrip t) as [| d u] eqn:E.
  - destruct (is_space c) eqn:Ec; cbn; [reflexivity | now rewrite Ec].
  - cbn [rstrip] in *. now rewrite IH.
Qed.

(** What [lstrip] leaves does not start with white space, and [rstrip]
    keeps it that way. *)
Lemma lstrip_rstrip_lstrip (s : string) : lstrip (rstrip (lstrip s)) = rstrip (lstrip s).
Proof.
  induction s as [| c t IH]; cbn [lstrip]; [reflexivity |].
  destruct (is_space c) eqn:Ec; [exact IH |].
  cbn [rstrip]. destruct (rstrip t); rewrite ?Ec; cbn [lstrip]; now rewrite Ec.
Qed.

Lemma strip_idempotent (s : string) : strip (strip s) = strip s.
Proof.
  unfold strip. now rewrite lstrip_rstrip_lstrip, rstrip_idempotent.
Qed.

Lemma strip_upper_normal (s : string) :
  strip (upper (strip (upper s))) = strip (upper s).
Proof. now rewrite upper_strip, upper_idempotent, strip_idempotent. Qed.

(** ** [validate_symbol] *)

(** The value that [validate_symbol] returns is the trimmed upper-case
    string, which has passed both tests. *)
Lemma validate_symbol_ok (symbol r : string) (s : state) :
  fst (validate_symbol symbol s) = Ok r ->
  r = strip (upper symbol) /\ endswith r "USDT" = true /\ 5 <= len r.
Proof.
  unfold validate_symbol.
  destruct (String.eqb symbol ""); [discriminate |].
  destruct (endswith (strip (upper symbol)) "USDT") eqn:E1; [| discriminate].
  destruct (Z.ltb_spec (len (strip (upper symbol))) 5) as [H | H]; [discriminate |].
  cbn. intros [= <-]. repeat split; assumption.
Qed.

(** C9.  A symbol that [validate_symbol] returns is returned unchanged when
    validated again; ["BTC"], ["BTCUSD"] and the empty string are rejected. *)
Theorem validate_symbol_idempotent :
  (forall (symbol r : string) (s s' : state),
      fst (validate_symbol symbol s) = Ok r -> fst (validate_symbol r s') = Ok r)
  /\ (forall s : state,
        fst (validate_symbol "BTC" s)
        = Raise (ValueError [FStr "Invalid symbol '"; FStr "BTC";
                             FStr "': Must end with 'USDT' for USDT-M Futures"])
        /\ fst (validate_symbol "BTCUSD" s)
           = Raise (ValueError [FStr "Invalid symbol '"; FStr "BTCUSD";
                                FStr "': Must end with 'USDT' for USDT-M Futures"])
        /\ fst (validate_symbol "" s) = Raise (ValueError [FStr "Symbol cannot be empty"])).
Proof.
  split.
  - intros symbol r s s' H.
    apply validate_symbol_ok in H as (Hr & Hsuffix & Hlen).
    assert (Hnorm : strip (upper r) = r).
    { rewrite Hr. apply strip_upper_normal. }
    unfold validate_symbol.
    destruct (String.eqb_spec r "") as [E | _].
    + rewrite E in Hlen. cbn in Hlen. lia.
    + rewrite Hnorm, Hsuffix.
      destruct (Z.ltb_spec (len r) 5) as [Hlt | _]; [lia | reflexivity].
  - intros s. repeat split.
Qed.

Lemma validate_symbol_idempotent_witness :
  fst (validate_symbol " btcusdt " initial) = Ok "BTCUSDT"
  /\ fst (validate_symbol "BTCUSDT" initial) = Ok "BTCUSDT".
Proof.
  assert (H : fst (validate_symbol " btcusdt " initial) = Ok "BTCUSDT") by reflexivity.
  split; [exact H |].
  exact (proj1 validate_symbol_idempotent " btcusdt " "BTCUSDT" initial initial H).
Defined.

(** ** [validate_quantity] and [validate_price] *)


(** A float that is not [NaN] and not [<= 0] is [> 0]: a positive real or
    the positive infinity. *)
Lemma not_le_zero_positive (x : float) :
  x <> NaN -> fle x zero = false ->
  fgt x zero = true /\ (x = PosInf \/ exists q, x = Fin q /\ (0 < q)%Q).
Proof.
  intros Hnan Hle. change zero with (Fin 0) in *.
  destruct x as [q | | |]; try (cbn in Hle; discriminate).
  - unfold fle in Hle. apply orb_false_elim in Hle as [Hlt Heq].
    assert (Hpos : (0 < q)%Q).
    { destruct (Qlt_le_dec 0 q) as [H | H]; [exact H | exfalso].
      destruct (Qeq_dec q 0) as [E | E].
      - apply feq_Fin in E. congruence.
      - assert (Hq : (q < 0)%Q) by (apply Qle_lteq in H as [H | H]; [exact H | contradiction]).
        apply flt_Fin in Hq. congruence. }
    split; [| right; exists q; split; [reflexivity | exact Hpos]].
    unfold fgt. apply flt_Fin. exact Hpos.
  - split; [reflexivity | now left].
  - contradiction.
Qed.

Section NumberValidators.

Variables (text_in : string) (s : state).

Lemma validate_quantity_cases :
  fst (validate_quantity text_in s)
  = match float_of_str text_in with
    | None => Raise (ValueError [FStr "Invalid quantity '"; FStr text_in;
                                 FStr "': Must be a valid number"])
    | Some qty =>
        if fle qty zero
        then Raise (ValueError [FStr "Invalid quantity "; FFloat qty;
                                FStr ": Must be greater than 0"])
        else Ok qty
    end.
Proof.
  unfold validate_quantity, zero. destruct (float_of_str text_in) as [qty |]; [| reflexivity].
  destruct (fle qty (float_of_int 0)); reflexivity.
Qed.

Lemma validate_price_cases :
  fst (validate_price text_in s)
  = match float_of_str text_in with
    | None => Raise (ValueError [FStr "Invalid price '"; FStr text_in;
                                 FStr "': Must be a valid number"])
    | Some prc =>
        if fle prc zero
        then Raise (ValueError [FStr "Invalid price "; FFloat prc;
                                FStr ": Must be greater than 0"])
        else Ok prc
    end.
Proof.
  unfold validate_price, zero. destruct (float_of_str text_in) as [prc |]; [| reflexivity].
  destruct (fle prc (float_of_int 0)); reflexivity.
Qed.

End NumberValidators.

(** What both validators do, for a result [r] that follows the case
    analysis above. *)
Lemma number_validator_spec (text_in : string) (r : result float) (m2 : float -> exn) (m0 : exn) :
  float_of_str text_in <> Some NaN ->
  r = match float_of_str text_in with
      | None => Raise m0
      | Some x => if fle x zero then Raise (m2 x) else Ok x
      end ->
  ((exists e, r = Raise e) <->
   (float_of_str text_in = None
    \/ exists x, float_of_str text_in = Some x /\ fle x zero = true))
  /\ (forall x, r = Ok x ->
        float_of_str text_in = Some x /\ fgt x zero = true
        /\ (x = PosInf \/ exists q, x = Fin q /\ (0 < q)%Q)).
Proof.
  intros Hnan ->. destruct (float_of_str text_in) as [x |].
  - destruct (fle x zero) eqn:Hle.
    + split.
      * split; [intros _; right; now exists x | intros _; eexists; reflexivity].
      * intros y [=].
    + split.
      * split; [intros [e [=]] |].
        intros [[=] | (y & [= <-] & Hy)]. congruence.
      * intros y [= <-]. split; [reflexivity |].
        apply not_le_zero_positive; [congruence | exact Hle].
  - split.
    + split; [intros _; now left | intros _; eexists; reflexivity].
    + intros y [=].
Qed.

(** C8, as the code has it.  On every input that [float] does not read as
    [NaN], each validator raises exactly when [float] rejects the string or
    the value read is [<= 0], and otherwise returns the value read, which is
    [> 0]: a positive real or the positive infinity.  ["0"], ["-5"] and
    ["abc"] are rejected and ["0.01"] gives [0.01]. *)
Theorem validate_quantity_price_spec :
  (forall (text_in : string) (s : state),
      float_of_str text_in <> Some NaN ->
      (((exists e, fst (validate_quantity text_in s) = Raise e) <->
        (float_of_str text_in = None
         \/ exists x, float_of_str text_in = Some x /\ fle x zero = true))
       /\ (forall x, fst (validate_quantity text_in s) = Ok x ->
             float_of_str text_in = Some x /\ fgt x zero = true
             /\ (x = PosInf \/ exists q, x = Fin q /\ (0 < q)%Q)))
      /\ (((exists e, fst (validate_price text_in s) = Raise e) <->
           (float_of_str text_in = None
            \/ exists x, float_of_str text_in = Some x /\ fle x zero = true))
          /\ (forall x, fst (validate_price text_in s) = Ok x ->
                float_of_str text_in = Some x /\ fgt x zero = true
                /\ (x = PosInf \/ exists q, x = Fin q /\ (0 < q)%Q))))
  /\ (forall s : state,
        is_ok (fst (validate_quantity "0" s)) = false
        /\ is_ok (fst (validate_quantity "-5" s)) = false
        /\ is_ok (fst (validate_quantity "abc" s)) = false
        /\ fst (validate_quantity "0.01" s) = Ok (Fin 0.01)
        /\ is_ok (fst (validate_price "0" s)) = false
        /\ is_ok (fst (validate_price "-5" s)) = false
        /\ is_ok (fst (validate_price "abc" s)) = false
        /\ fst (validate_price "0.01" s) = Ok (Fin 0.01)).
Proof.
  split.
  - intros text_in s Hnan. split.
    + exact (number_validator_spec text_in _ _ _ Hnan (validate_quantity_cases text_in s)).
    + exact (number_validator_spec text_in _ _ _ Hnan (validate_price_cases text_in s)).
  - intros s. repeat split.
Qed.

Lemma validate_quantity_price_spec_witness :
  float_of_str "inf" <> Some NaN
  /\ (forall x, fst (validate_quantity "inf" initial) = Ok x ->
        float_of_str "inf" = Some x /\ fgt x zero = true
        /\ (x = PosInf \/ exists q, x = Fin q /\ (0 < q)%Q)).
Proof.
  assert (H : float_of_str "inf" <> Some NaN) by (cbv; discriminate).
  split; [exact H |].
  exact (proj2 (proj1 (proj1 validate_quantity_price_spec "inf" initial H))).
Defined.

(** C8 as stated fails: the string ["inf"] is accepted by both validators,
    and what they return is the positive infinity, not a finite value. *)
Lemma validators_return_infinity :
  fst (validate_quantity "inf" initial) = Ok PosInf
  /\ fst (validate_price "inf" initial) = Ok PosInf
  /\ is_finite PosInf = false
  /\ ~ (forall (text_in : string) (x : float),
          fst (validate_quantity text_in initial) = Ok x -> is_finite x = true).
Proof.
  repeat split.
  intros H. specialize (H "inf" PosInf eq_refl). discriminate.
Qed.

(** ** Traces *)

Lemma submissions_app (a b : list event) :
  submissions (a ++ b) = submissions a ++ submissions b.
Proof.
  induction a as [| ev a IH]; [reflexivity |].
  destruct ev; cbn; now rewrite IH.
Qed.

Lemma sleeps_app (a b : list event) : sleeps (a ++ b) = sleeps a ++ sleeps b.
Proof.
  induction a as [| ev a IH]; [reflexivity |].
  destruct ev; cbn; now rewrite IH.
Qed.

Lemma alerts_app (a b : list event) : alerts (a ++ b) = alerts a ++ alerts b.
Proof.
  induction a as [| ev a IH]; [reflexivity |].
  destruct ev as [| | [] |]; cbn; now rewrite IH.
Qed.

Lemma actions_app (a b : list event) : actions (a ++ b) = actions a ++ actions b.
Proof.
  induction a as [| ev a IH]; [reflexivity |].
  destruct ev; cbn; now rewrite IH.
Qed.

Lemma submissions_actions (tr : list event) : submissions (actions tr) = submissions tr.
Proof.
  induction tr as [| ev tr IH]; [reflexivity |].
  destruct ev; cbn; now rewrite ?IH.
Qed.

Lemma sleeps_actions (tr : list event) : sleeps (actions tr) = sleeps tr.
Proof.
  induction tr as [| ev tr IH]; [reflexivity |].
  destruct ev; cbn; now rewrite ?IH.
Qed.


(** Nested appends to a trace, flattened. *)
(** One step of a run: the primitives unfolded, the state read. *)
Ltac run_step :=
  cbv beta iota zeta delta
    [bind ret raise emit logger_debug logger_info logger_warning logger_error print
     futures_create_order append_order set_orders get_orders len_orders time_sleep
     sys_exit try_except];
  cbn [trace orders].

Ltac flatten_trace :=
  repeat (progress cbn [trace orders app] || rewrite <- app_assoc).

(** ** The TWAP loop *)

Section TwapLoop.

Variables (client : Client) (symbol side : string) (quantity_per_slice : float).
Variables (num_slices interval_seconds : Z).

Let req : order_request := twap_request symbol side quantity_per_slice.
Let body : Z -> M unit :=
  twap_slice client symbol side quantity_per_slice num_slices interval_seconds.

Local Abbreviation slice_actions :=
  (slice_actions symbol side quantity_per_slice num_slices interval_seconds).
Local Abbreviation twap_end :=
  (twap_end symbol side quantity_per_slice num_slices interval_seconds).

Lemma twap_end_cons (i : Z) (o : order_response) (rest : list Z)
    (rs : list order_response) (pre acts : list event) (r : result unit) :
  pre = slice_actions (i, o) ->
  twap_end rest rs acts r ->
  twap_end (i :: rest) (o :: rs) (pre ++ acts) r.
Proof.
  intros -> Hend. destruct Hend as [Hlen Hacts | e Hlen Hacts | e Hneg Hlen He Hall].
  - apply twap_completed; [cbn; lia |]. cbn [combine flat_map]. now rewrite Hacts.
  - apply twap_submission_failed; [cbn; lia |].
    cbn [combine flat_map]. now rewrite Hacts, app_assoc.
  - apply twap_sleep_failed; [exact Hneg | cbn; lia | exact He |].
    rewrite submissions_app, forallb_app, Hall.
    unfold slice_actions. cbn [fst snd]. now destruct (i <? num_slices - 1).
Qed.

Lemma twap_loop (indices : list Z) :
  forall s : state,
  exists (rs : list order_response) (evs : list event) (r : result unit),
    for_each indices body s
    = (r, {| trace := trace s ++ evs; orders := orders s ++ rs |})
    /\ alerts evs = []
    /\ twap_end indices rs (actions evs) r.
Proof.
  induction indices as [| i rest IH]; intros s.
  - exists [], [], (Ok tt). rewrite !app_nil_r. destruct s.
    split; [reflexivity |]. split; [reflexivity |].
    now constructor.
  - cbn [for_each]. unfold body at 1, twap_slice. run_step.
    match goal with |- context [client ?h ?q] => destruct (client h q) as [o | e] eqn:Hc end.
    + run_step. destruct (Z.ltb_spec i (num_slices - 1)) as [Hi | Hi]; run_step.
      * destruct (Z.ltb_spec interval_seconds 0) as [Hneg | Hpos]; run_step.
        -- exists [o]. eexists. exists (Raise (ValueError [FStr "sleep length must be non-negative"])).
           flatten_trace. split; [reflexivity |]. split; [reflexivity |].
           eapply twap_sleep_failed; [exact Hneg | cbn; lia | reflexivity | reflexivity].
        -- match goal with |- context [for_each rest body ?st] =>
             destruct (IH st) as (rs & evs & r & E & Ha & Hend); rewrite E end.
           exists (o :: rs). eexists. exists r.
           flatten_trace. split; [reflexivity |].
           split; [cbn; exact Ha |].
           refine (twap_end_cons i o rest rs
                     [Submitted req (Ok o); Slept interval_seconds] _ r _ Hend).
           unfold slice_actions. cbn [fst snd].
           destruct (Z.ltb_spec i (num_slices - 1)); [reflexivity | lia].
      * match goal with |- context [for_each rest body ?st] =>
          destruct (IH st) as (rs & evs & r & E & Ha & Hend); rewrite E end.
        exists (o :: rs). eexists. exists r.
        flatten_trace. split; [reflexivity |].
        split; [cbn; exact Ha |].
        refine (twap_end_cons i o rest rs [Submitted req (Ok o)] _ r _ Hend).
        unfold slice_actions. cbn [fst snd].
        destruct (Z.ltb_spec i (num_slices - 1)); [lia | reflexivity].
    + exists []. eexists. exists (Raise e).
      rewrite (app_nil_r (orders s)). flatten_trace.
      split; [reflexivity |]. split; [reflexivity |].
      apply twap_submission_failed; [cbn; lia | reflexivity].
Qed.

End TwapLoop.

(** ** The TWAP executor *)

Lemma twap_handler_spec (num_slices : Z) (e : exn) (s : state) :
  exists post : list event,
    twap_handler num_slices e s
    = (Raise e, {| trace := trace s ++ post; orders := orders s |})
    /\ actions post = []
    /\ (is_exception e = true ->
        exists (headline : string) (detail : text),
          In headline twap_headlines
          /\ alerts post
             = twap_failure_alerts headline detail
                 (Z.of_nat (List.length (orders s))) num_slices)
    /\ (is_exception e = false -> alerts post = []).
Proof.
  unfold twap_headlines, twap_failure_alerts, twap_warning.
  destruct e as [c m | c m | m | m | c | m]; unfold twap_handler; run_step.
  5: { exists []. rewrite app_nil_r. destruct s.
       split; [reflexivity |]. split; [reflexivity |].
       split; [discriminate | reflexivity]. }
  all: flatten_trace; eexists; (split; [reflexivity |]); (split; [reflexivity |]);
    (split; [intros _ | discriminate]);
    eexists; eexists; (split; [| reflexivity]); cbn; tauto.
Qed.

Lemma slices_submissions (symbol side : string) (q : float) (n interval : Z)
    (l : list (Z * order_response)) :
  submissions (flat_map (slice_actions symbol side q n interval) l)
  = map (fun slice => (twap_request symbol side q, Ok (snd slice))) l.
Proof.
  induction l as [| [i o] l IH]; [reflexivity |].
  cbn [flat_map map]. rewrite submissions_app, IH.
  unfold slice_actions. cbn [fst snd]. now destruct (i <? n - 1).
Qed.

Section TwapRun.

Variables (client : Client) (symbol side : string) (total_quantity : float).
Variables (num_slices interval_seconds : Z).

Let out : result (list order_response) * state :=
  run (execute_twap_strategy client symbol side total_quantity num_slices
         interval_seconds).

Let start (q : float) : event :=
  Logged INFO
    [FStr "Starting TWAP strategy: "; FStr side; FStr " "; FFloat total_quantity;
     FStr " "; FStr symbol; FStr " | Slices: "; FInt num_slices;
     FStr ", Interval: "; FInt interval_seconds; FStr "s, Per slice: "; FFloat q].

(** The run up to the end of the loop. *)
Lemma twap_run_loop :
  num_slices <> 0 ->
  exists (q : float) (rs : list order_response) (evs : list event) (r : result unit),
    fdiv total_quantity (float_of_int num_slices) = Some q
    /\ alerts evs = []
    /\ twap_end symbol side q num_slices interval_seconds (range num_slices) rs
         (actions evs) r
    /\ out
       = match r with
         | Ok _ =>
             (Ok rs,
              {| trace :=
                   start q :: evs
                   ++ [Logged INFO
                         [FStr "TWAP strategy completed successfully | Total orders placed: ";
                          FInt (Z.of_nat (List.length rs))]];
                 orders := rs |})
         | Raise e => twap_handler num_slices e {| trace := start q :: evs; orders := rs |}
         end.
Proof.
  intros Hn.
  destruct (divide_by_int total_quantity num_slices initial Hn) as (q & Hq & Hdiv).
  exists q. unfold out, run, execute_twap_strategy.
  unfold bind at 1. rewrite Hdiv. run_step.
  match goal with |- context [for_each _ ?b ?st] =>
    destruct (twap_loop client symbol side q num_slices interval_seconds
                (range num_slices) st) as (rs & evs & r & E & Ha & Hend)
  end.
  rewrite E. cbn [trace orders app] in *.
  exists rs, evs, r. split; [exact Hq |]. split; [exact Ha |]. split; [exact Hend |].
  destruct r as [[] | e]; reflexivity.
Qed.

(** The whole run, read off its trace: how the loop ended, what was
    submitted and slept, what was returned and what the handler wrote. *)
Lemma twap_run :
  num_slices <> 0 ->
  exists (q : float) (rs : list order_response) (r : result unit),
    fdiv total_quantity (float_of_int num_slices) = Some q
    /\ twap_end symbol side q num_slices interval_seconds (range num_slices) rs
         (actions (trace (snd out))) r
    /\ orders (snd out) = rs
    /\ match r with
       | Ok _ => fst out = Ok rs /\ alerts (trace (snd out)) = []
       | Raise e =>
           fst out = Raise e
           /\ (is_exception e = true ->
               exists (headline : string) (detail : text),
                 In headline twap_headlines
                 /\ alerts (trace (snd out))
                    = twap_failure_alerts headline detail
                        (Z.of_nat (List.length rs)) num_slices)
       end.
Proof.
  intros Hn.
  destruct (twap_run_loop Hn) as (q & rs & evs & r & Hq & Ha & Hend & ->).
  exists q, rs, r. split; [exact Hq |].
  destruct r as [[] | e].
  - cbn [fst snd trace orders]. unfold start. cbn [actions alerts].
    rewrite actions_app, alerts_app, Ha, app_nil_r.
    repeat split; assumption.
  - destruct (twap_handler_spec num_slices e {| trace := start q :: evs; orders := rs |})
      as (post & -> & Hact & Hexc & _).
    cbn [fst snd trace orders app]. unfold start. cbn [actions alerts].
    rewrite actions_app, alerts_app, Ha, Hact, app_nil_r.
    repeat split; assumption.
Qed.

End TwapRun.

Lemma slices_intersperse (symbol side : string) (q : float) (n interval : Z) :
  forall (k a : nat) (rs : list order_response),
    List.length rs = k -> Z.of_nat (a + k) = n ->
    flat_map (slice_actions symbol side q n interval)
      (combine (map Z.of_nat (seq a k)) rs)
    = intersperse (Slept interval)
        (map (fun o => Submitted (twap_request symbol side q) (Ok o)) rs).
Proof.
  induction k as [| k IH]; intros a rs Hlen Hn.
  - destruct rs; [reflexivity | discriminate].
  - destruct rs as [| o rs]; [discriminate |].
    cbn [seq map combine flat_map]. rewrite (IH (S a) rs) by (cbn in *; lia).
    unfold slice_actions at 1. cbn [fst snd].
    destruct rs as [| o' rs].
    + cbn in Hlen. destruct (Z.ltb_spec (Z.of_nat a) (n - 1)); [lia | reflexivity].
    + cbn in Hlen. destruct (Z.ltb_spec (Z.of_nat a) (n - 1)); [reflexivity | lia].
Qed.




(** The run of the specification's example: five slices of [0.02], that is
    one fiftieth, each. *)
Example twap_five_slices :
  map fst (submissions
             (trace (snd (run (execute_twap_strategy accepting_client "BTCUSDT" "BUY"
                                 (Fin 0.1) 5 10)))))
  = repeat (twap_request "BTCUSDT" "BUY" (Fin (1 # 50))) 5
  /\ sleeps (trace (snd (run (execute_twap_strategy accepting_client "BTCUSDT" "BUY"
                                (Fin 0.1) 5 10))))
     = [10; 10; 10; 10].
Proof. split; reflexivity. Qed.




(** ** The grid executor *)

Lemma nth_error_combine_r {A B} (a : list A) (b : list B) (k : nat) (p : A * B) :
  nth_error (combine a b) k = Some p -> nth_error b k = Some (snd p).
Proof.
  revert b k. induction a as [| x a IH]; intros [| y b] [| k] H; cbn in *;
    try discriminate.
  - now injection H as <-.
  - now apply IH.
Qed.

Lemma combine_enumerated {A B C} (f : A -> B -> C) (idx : list Z) :
  forall (xs : list A) (ys : list B),
    List.length idx = List.length xs ->
    map (fun p => f (snd (fst p)) (snd p)) (combine (combine idx xs) ys)
    = map (fun p => f (fst p) (snd p)) (combine xs ys).
Proof.
  induction idx as [| i idx IH]; intros [| x xs] [| y ys] Hlen; cbn in *;
    try reflexivity; try discriminate.
  f_equal. apply IH. lia.
Qed.

Section GridLoop.

Variables (client : Client) (symbol : string) (quantity_per_grid : float).
Variable grid_count : Z.

Local Abbreviation grid_end := (grid_end symbol quantity_per_grid).

Lemma grid_loop (levels : list (Z * float)) :
  forall s : state,
  exists (rs : list order_response) (evs : list event) (r : result unit),
    for_each levels (grid_order client symbol quantity_per_grid grid_count) s
    = (r, {| trace := trace s ++ evs; orders := orders s ++ rs |})
    /\ alerts evs = []
    /\ sleeps evs = []
    /\ grid_end levels rs (submissions evs) r.
Proof.
  induction levels as [| [i price] rest IH]; intros s.
  - exists [], [], (Ok tt). rewrite !app_nil_r. destruct s.
    repeat split. now constructor.
  - cbn [for_each]. unfold grid_order at 1. run_step.
    match goal with |- context [client ?h ?q] => destruct (client h q) as [o | e] eqn:Hc end.
    + run_step.
      match goal with |- context [for_each rest _ ?st] =>
        destruct (IH st) as (rs & evs & r & E & Ha & Hs & Hend); rewrite E end.
      exists (o :: rs). eexists. exists r.
      flatten_trace. split; [reflexivity |].
      split; [cbn; exact Ha |]. split; [cbn; exact Hs |].
      cbn [submissions].
      destruct Hend as [Hlen Hsubs | level e Hlevel Hsubs]; rewrite Hsubs.
      * apply grid_completed; [cbn; lia | reflexivity].
      * eapply grid_failed; [exact Hlevel | reflexivity].
    + exists []. eexists. exists (Raise e).
      rewrite (app_nil_r (orders s)). flatten_trace.
      repeat split. eapply grid_failed; reflexivity.
Qed.

Lemma grid_handler_spec (e : exn) (s : state) :
  exists post : list event,
    grid_handler grid_count e s
    = (Raise e, {| trace := trace s ++ post; orders := orders s |})
    /\ actions post = [].
Proof.
  destruct e as [c m | c m | m | m | c | m]; unfold grid_handler; run_step.
  5: { exists []. rewrite app_nil_r. destruct s. split; reflexivity. }
  all: flatten_trace; eexists; split; reflexivity.
Qed.

End GridLoop.

Lemma fge_real_false (L U : Q) : (L < U)%Q -> fge (Fin L) (Fin U) = false.
Proof.
  intros H. unfold fge, fle. apply orb_false_intro.
  - destruct (flt (Fin U) (Fin L)) eqn:E; [| reflexivity].
    apply flt_Fin in E. lra.
  - destruct (feq (Fin U) (Fin L)) eqn:E; [| reflexivity].
    apply feq_Fin in E. lra.
Qed.

Section GridRun.

Variables (client : Client) (symbol : string) (quantity_per_grid : float).
Variables (L U : Q) (N : Z).
Hypothesis bounds_ordered : (L < U)%Q.
Hypothesis count_valid : 2 <= N.

Let out : result (list order_response) * state :=
  run (execute_grid_strategy client symbol quantity_per_grid (Fin L) (Fin U) N).

(** What the executor writes before its loop. *)
Let preamble : list event :=
  [Logged DEBUG [FStr "Grid parameters validated: lower="; FFloat (Fin L);
                 FStr ", upper="; FFloat (Fin U); FStr ", count="; FInt N];
   Logged DEBUG [FStr "Calculated "; FInt N; FStr " grid levels: ";
                 FFloats (real_levels L U N)];
   Logged INFO [FStr "Starting grid trading strategy: "; FStr symbol; FStr " | Range: ";
                FFloat (Fin L); FStr " - "; FFloat (Fin U); FStr ", Grids: ";
                FInt N; FStr ", Qty per grid: "; FFloat quantity_per_grid]].

(** The run up to the end of the loop. *)
Lemma grid_run_loop :
  exists (rs : list order_response) (evs : list event) (r : result unit),
    sleeps evs = []
    /\ grid_end symbol quantity_per_grid (enumerate (real_levels L U N)) rs
         (submissions evs) r
    /\ out
       = match r with
         | Ok _ =>
             (Ok rs,
              {| trace :=
                   preamble ++ evs
                   ++ [Logged INFO
                         [FStr "Grid strategy completed successfully | Total orders placed: ";
                          FInt (Z.of_nat (List.length rs))]];
                 orders := rs |})
         | Raise e => grid_handler N e {| trace := preamble ++ evs; orders := rs |}
         end.
Proof.
  unfold out, run, execute_grid_strategy.
  unfold bind at 1, validate_grid_params.
  rewrite (fge_real_false L U bounds_ordered).
  destruct (Z.ltb_spec N 2) as [H | _]; [lia |].
  unfold bind at 1. unfold logger_debug at 1, emit at 1.
  rewrite calculate_grid_levels_real by lia. run_step.
  match goal with |- context [for_each _ _ ?st] =>
    destruct (grid_loop client symbol quantity_per_grid N
                (enumerate (real_levels L U N)) st) as (rs & evs & r & E & Ha & Hs & Hend)
  end.
  rewrite E. cbn [trace orders app] in *.
  exists rs, evs, r. split; [exact Hs |]. split; [exact Hend |].
  destruct r as [[] | e]; reflexivity.
Qed.

(** The whole run on validated real bounds, read off its trace. *)
Lemma grid_run :
  exists (rs : list order_response) (r : result unit),
    grid_end symbol quantity_per_grid (enumerate (real_levels L U N)) rs
      (submissions (trace (snd out))) r
    /\ orders (snd out) = rs
    /\ sleeps (trace (snd out)) = []
    /\ fst out = match r with Ok _ => Ok rs | Raise e => Raise e end.
Proof.
  destruct grid_run_loop as (rs & evs & r & Hs & Hend & ->).
  exists rs, r. destruct r as [[] | e].
  - cbn [fst snd trace orders].
    rewrite !submissions_app, !sleeps_app, Hs. unfold preamble.
    cbn [submissions sleeps app]. rewrite app_nil_r. repeat split; assumption.
  - destruct (grid_handler_spec N e {| trace := preamble ++ evs; orders := rs |})
      as (post & -> & Hact).
    cbn [fst snd trace orders].
    rewrite !submissions_app, !sleeps_app, <- (submissions_actions post),
      <- (sleeps_actions post), Hact, Hs. unfold preamble.
    cbn [submissions sleeps app]. rewrite app_nil_r. repeat split; assumption.
Qed.

End GridRun.

Lemma enumerate_length {X} (xs : list X) :
  List.length (range (Z.of_nat (List.length xs))) = List.length xs.
Proof. rewrite range_length. lia. Qed.




(** ** The OCO-style executor *)

Lemma submitted_requests_app (a b : list event) :
  submitted_requests (a ++ b) = submitted_requests a ++ submitted_requests b.
Proof.
  induction a as [| ev a IH]; [reflexivity |].
  destruct ev; cbn; now rewrite IH.
Qed.

Lemma submitted_requests_submissions (tr : list event) :
  submitted_requests tr = map fst (submissions tr).
Proof.
  induction tr as [| ev tr IH]; [reflexivity |].
  destruct ev; cbn; now rewrite ?IH.
Qed.

Section Oco.

Variables (client : Client) (symbol side : string).
Variables (take_profit_price stop_loss_price : float).

Let tp_request : order_request :=
  oco_request symbol side "TAKE_PROFIT_MARKET" take_profit_price.
Let sl_request : order_request :=
  oco_request symbol side "STOP_MARKET" stop_loss_price.

Local Abbreviation oco_submissions :=
  (oco_submissions client symbol side take_profit_price stop_loss_price).
Local Abbreviation oco_result :=
  (oco_result client symbol side take_profit_price stop_loss_price).

Lemma oco_handler_spec {A} (e : exn) (s : state) :
  exists post : list event,
    @oco_handler A e s = (Raise e, {| trace := trace s ++ post; orders := orders s |})
    /\ actions post = [].
Proof.
  destruct e as [c m | c m | m | m | c | m]; unfold oco_handler; run_step.
  5: { exists []. rewrite app_nil_r. destruct s. split; reflexivity. }
  all: flatten_trace; eexists; split; reflexivity.
Qed.

Lemma place_oco_style_orders_run (quantity : float) (s : state) :
  exists evs : list event,
    place_oco_style_orders client symbol side quantity take_profit_price
      stop_loss_price s
    = (oco_result (submitted_requests (trace s)),
       {| trace := trace s ++ evs; orders := orders s |})
    /\ submissions evs = oco_submissions (submitted_requests (trace s))
    /\ sleeps evs = [].
Proof.
  unfold place_oco_style_orders, oco_result, oco_submissions. run_step.
  rewrite !submitted_requests_app. cbn [submitted_requests]. rewrite !app_nil_r.
  fold tp_request.
  destruct (client (submitted_requests (trace s)) tp_request) as [o1 | e] eqn:E1.
  - run_step. rewrite !submitted_requests_app. cbn [submitted_requests app].
    rewrite !app_nil_r. fold sl_request.
    destruct (client (submitted_requests (trace s) ++ [tp_request]) sl_request)
      as [o2 | e] eqn:E2.
    + run_step. flatten_trace. eexists. split; [reflexivity |]. split; reflexivity.
    + match goal with |- context [oco_handler ?x ?st] =>
        destruct (@oco_handler_spec (order_response * order_response) x st)
          as (post & -> & Hact)
      end.
      flatten_trace. eexists. split; [reflexivity |].
      cbn [submissions sleeps].
      rewrite <- (submissions_actions post), <- (sleeps_actions post), Hact.
      split; reflexivity.
  - match goal with |- context [oco_handler ?x ?st] =>
      destruct (@oco_handler_spec (order_response * order_response) x st)
        as (post & -> & Hact)
    end.
    flatten_trace. eexists. split; [reflexivity |].
    cbn [submissions sleeps].
    rewrite <- (submissions_actions post), <- (sleeps_actions post), Hact.
    split; reflexivity.
Qed.

End Oco.


(** C5.  Every order that the executor submits carries the side it was
    given, unchanged, and the close-position flag, and has no quantity; the
    submissions are the same whatever the quantity argument is. *)
Theorem oco_requests_close_position
    (client : Client) (symbol input_side : string) (qty tp sl : float) (s : state) :
  exists added : list (order_request * result order_response),
    submissions
      (trace (snd (place_oco_style_orders client symbol input_side qty tp sl s)))
    = submissions (trace s) ++ added
    /\ (1 <= List.length added <= 2)%nat
    /\ Forall (fun sub =>
                 side (fst sub) = input_side
                 /\ closePosition (fst sub) = Some "true"
                 /\ quantity (fst sub) = None)
         added
    /\ forall qty' : float,
         submissions
           (trace (snd (place_oco_style_orders client symbol input_side qty' tp sl s)))
         = submissions (trace s) ++ added.
Proof.
  destruct (place_oco_style_orders_run client symbol input_side tp sl qty s)
    as (evs & -> & Hsubs & _).
  cbn [fst snd trace]. rewrite submissions_app, Hsubs.
  eexists. split; [reflexivity |]. split; [| split].
  - unfold oco_submissions.
    destruct (client _ _); cbn; lia.
  - unfold oco_submissions.
    destruct (client _ _); repeat constructor.
  - intros qty'.
    destruct (place_oco_style_orders_run client symbol input_side tp sl qty' s)
      as (evs' & -> & Hsubs' & _).
    cbn [fst snd trace]. now rewrite submissions_app, Hsubs'.
Qed.

(** ** [main] of the OCO-style module *)

Lemma state_eta (s : state) : {| trace := trace s ++ []; orders := orders s |} = s.
Proof. destruct s. cbn. now rewrite app_nil_r. Qed.

Ltac quiet_raise :=
  eexists; exists []; split; [intros s; rewrite state_eta; reflexivity | split; reflexivity].

Ltac quiet_log :=
  eexists; eexists; split; [intros s; run_step; reflexivity | split; reflexivity].

Lemma validate_symbol_quiet (symbol : string) : quiet (validate_symbol symbol).
Proof.
  unfold quiet, validate_symbol.
  destruct (String.eqb symbol ""); [quiet_raise |].
  destruct (endswith (strip (upper symbol)) "USDT"); cbn [negb]; [| quiet_raise].
  destruct (len (strip (upper symbol)) <? 5); [quiet_raise | quiet_log].
Qed.

Lemma validate_side_quiet (side : string) : quiet (validate_side side).
Proof.
  unfold quiet, validate_side.
  destruct (String.eqb (strip (upper side)) "BUY" || String.eqb (strip (upper side)) "SELL");
    cbn [negb]; [quiet_log | quiet_raise].
Qed.

Lemma validate_quantity_quiet (quantity : string) : quiet (validate_quantity quantity).
Proof.
  unfold quiet, validate_quantity.
  destruct (float_of_str quantity) as [qty |]; [| quiet_raise].
  destruct (fle qty (float_of_int 0)); [quiet_raise | quiet_log].
Qed.

Lemma validate_price_quiet (price : string) : quiet (validate_price price).
Proof.
  unfold quiet, validate_price.
  destruct (float_of_str price) as [prc |]; [| quiet_raise].
  destruct (fle prc (float_of_int 0)); [quiet_raise | quiet_log].
Qed.

(** A quiet step that returns [a] from the initial state returns it from
    every state. *)
Lemma quiet_returns {A} (m : M A) (a : A) :
  quiet m -> fst (m initial) = Ok a ->
  exists evs : list event,
    (forall s, m s = (Ok a, {| trace := trace s ++ evs; orders := orders s |}))
    /\ actions evs = [] /\ alerts evs = [].
Proof.
  intros (r & evs & Hm & Hact & Hal) Hr. rewrite Hm in Hr. cbn in Hr. subst r.
  exists evs. repeat split; assumption.
Qed.

Lemma oco_main_handler_spec (e : exn) (s : state) :
  exists (r : result unit) (post : list event),
    oco_main_handler e s = (r, {| trace := trace s ++ post; orders := orders s |})
    /\ actions post = [].
Proof.
  destruct e as [c m | c m | m | m | c | m]; unfold oco_main_handler; run_step.
  5: { eexists. exists []. rewrite state_eta. split; reflexivity. }
  all: flatten_trace; eexists; eexists; split; reflexivity.
Qed.

Section OcoMain.

Variables (client : Client).
Variables (prog symbol_arg side_arg quantity_arg tp_arg sl_arg : string).
Variables (symbol input_side : string) (qty tp sl : float).
Hypothesis symbol_ok : fst (validate_symbol symbol_arg initial) = Ok symbol.
Hypothesis side_ok : fst (validate_side side_arg initial) = Ok input_side.
Hypothesis quantity_ok : fst (validate_quantity quantity_arg initial) = Ok qty.
Hypothesis tp_ok : fst (validate_price tp_arg initial) = Ok tp.
Hypothesis sl_ok : fst (validate_price sl_arg initial) = Ok sl.

Let out : result unit * state :=
  run (oco_main client [prog; symbol_arg; side_arg; quantity_arg; tp_arg; sl_arg]).

(** After the five validators: either the price test raises, and [main]
    exits with status 1 having submitted nothing, or the executor runs. *)
Lemma oco_main_validated :
  if price_logic_violated input_side tp sl then
    fst out = Raise (SystemExit 1)
    /\ submissions (trace (snd out)) = []
    /\ alerts (trace (snd out))
       = [(ERROR, [FStr "Validation error: "; FStr (price_logic_message input_side)])]
  else
    submissions (trace (snd out)) = oco_submissions client symbol input_side tp sl [].
Proof.
  destruct (quiet_returns _ _ (validate_symbol_quiet symbol_arg) symbol_ok)
    as (e1 & H1 & A1 & L1).
  destruct (quiet_returns _ _ (validate_side_quiet side_arg) side_ok)
    as (e2 & H2 & A2 & L2).
  destruct (quiet_returns _ _ (validate_quantity_quiet quantity_arg) quantity_ok)
    as (e3 & H3 & A3 & L3).
  destruct (quiet_returns _ _ (validate_price_quiet tp_arg) tp_ok)
    as (e4 & H4 & A4 & L4).
  destruct (quiet_returns _ _ (validate_price_quiet sl_arg) sl_ok)
    as (e5 & H5 & A5 & L5).
  assert (Hpre : actions ((((([] ++ e1) ++ e2) ++ e3) ++ e4) ++ e5) = []
                 /\ alerts ((((([] ++ e1) ++ e2) ++ e3) ++ e4) ++ e5) = []).
  { rewrite !actions_app, !alerts_app, A1, A2, A3, A4, A5, L1, L2, L3, L4, L5.
    split; reflexivity. }
  destruct Hpre as [Apre Lpre].
  unfold out.
  remember (run (oco_main client [prog; symbol_arg; side_arg; quantity_arg; tp_arg; sl_arg]))
    as o eqn:Ho.
  unfold run, oco_main, try_except in Ho.
  unfold bind at 1 in Ho. rewrite H1 in Ho. cbn [trace orders initial] in Ho.
  unfold bind at 1 in Ho. rewrite H2 in Ho. cbn [trace orders] in Ho.
  unfold bind at 1 in Ho. rewrite H3 in Ho. cbn [trace orders] in Ho.
  unfold bind at 1 in Ho. rewrite H4 in Ho. cbn [trace orders] in Ho.
  unfold bind at 1 in Ho. rewrite H5 in Ho. cbn [trace orders] in Ho.
  set (pre := (((([] ++ e1) ++ e2) ++ e3) ++ e4) ++ e5) in *.
  assert (Spre : submissions pre = [])
    by (rewrite <- submissions_actions, Apre; reflexivity).
  assert (Rpre : submitted_requests pre = [])
    by (rewrite submitted_requests_submissions, Spre; reflexivity).
  unfold price_logic_violated, price_logic_message.
  unfold bind at 1 in Ho.
  assert (Hrejected : forall text_of_error : string,
             o = oco_main_handler (ValueError [FStr text_of_error])
                   {| trace := pre; orders := [] |} ->
             fst o = Raise (SystemExit 1)
             /\ submissions (trace (snd o)) = []
             /\ alerts (trace (snd o))
                = [(ERROR, [FStr "Validation error: "; FStr text_of_error])]).
  { intros text_of_error ->. unfold oco_main_handler. run_step. cbn [fst snd trace].
    rewrite !submissions_app, !alerts_app, Spre, Lpre. repeat split. }
  assert (Haccepted :
            o = (let (r, s') :=
                   bind (place_oco_style_orders client symbol input_side qty tp sl)
                     (fun x =>
                        let (tp_order, sl_order) := x in
                        print [FStr "OCO-style orders placed successfully!"] ;;
                        print [FStr "Take-Profit Order:"] ;;
                        print [FStr "Order ID: "; FInt (orderId tp_order)] ;;
                        print [FStr "Type: "; FStr (r_type tp_order)] ;;
                        print [FStr "Stop Price: "; FStr (r_stopPrice tp_order)] ;;
                        print [FStr "Status: "; FStr (status tp_order)] ;;
                        print [FStr "Stop-Loss Order:"] ;;
                        print [FStr "Order ID: "; FInt (orderId sl_order)] ;;
                        print [FStr "Type: "; FStr (r_type sl_order)] ;;
                        print [FStr "Stop Price: "; FStr (r_stopPrice sl_order)] ;;
                        print [FStr "Status: "; FStr (status sl_order)] ;;
                        print [FStr "NOTE: Both orders are now active. When one is triggered and fills,"] ;;
                        print [FStr "the other will remain active unless you cancel it manually or it's"] ;;
                        print [FStr "triggered by price movement in the opposite direction."])
                     {| trace := pre; orders := [] |} in
                 match r with
                 | Ok a => (Ok a, s')
                 | Raise e => oco_main_handler e s'
                 end) ->
            submissions (trace (snd o)) = oco_submissions client symbol input_side tp sl []).
  { intros ->. unfold bind at 1.
    destruct (place_oco_style_orders_run client symbol input_side tp sl qty
                {| trace := pre; orders := [] |}) as (evs & -> & Hsubs & _).
    cbn [trace orders] in *. rewrite Rpre in *.
    destruct (oco_result client symbol input_side tp sl []) as [[o1 o2] | e].
    - run_step. cbn [fst snd trace].
      rewrite !submissions_app, Spre, Hsubs. cbn [submissions app].
      now rewrite !app_nil_r.
    - match goal with |- context [oco_main_handler e ?st] =>
        destruct (oco_main_handler_spec e st) as (r & post & -> & Hact)
      end.
      cbn [fst snd trace].
      rewrite !submissions_app, <- (submissions_actions post), Hact, Spre, Hsubs.
      cbn [submissions app]. now rewrite app_nil_r. }
  destruct (String.eqb input_side "SELL").
  - destruct (fle tp sl).
    + apply Hrejected. exact Ho.
    + apply Haccepted. exact Ho.
  - destruct (fge tp sl).
    + apply Hrejected. exact Ho.
    + apply Haccepted. exact Ho.
Qed.

End OcoMain.

Lemma fle_real (a b : Q) : fle (Fin a) (Fin b) = true <-> (a <= b)%Q.
Proof.
  unfold fle. rewrite orb_true_iff, flt_Fin, feq_Fin. split.
  - intros [H | H]; lra.
  - intros H. apply Qle_lteq in H. exact H.
Qed.

Lemma oco_submissions_first (client : Client) (symbol input_side : string) (tp sl : float)
    (out : result unit * state) :
  submissions (trace (snd out)) = oco_submissions client symbol input_side tp sl [] ->
  oco_accepted out (oco_request symbol input_side "TAKE_PROFIT_MARKET" tp).
Proof.
  intros H. unfold oco_accepted. rewrite H. unfold oco_submissions.
  destruct (client [] _); eexists; eexists; reflexivity.
Qed.

(** The price test on real prices.  With real prices that the validators
    returned, [main] on side SELL goes on to submit exactly when the
    take-profit price is strictly above the stop-loss price, and on side BUY
    exactly when it is strictly below; otherwise it stops on a validation
    error before anything is submitted.  SELL with 52000 and 50000 is
    accepted, SELL with 49000 and 50000 is rejected. *)
Theorem oco_price_logic :
  (forall (client : Client)
          (prog symbol_arg side_arg quantity_arg tp_arg sl_arg symbol input_side : string)
          (qty : float) (tp sl : Q),
      fst (validate_symbol symbol_arg initial) = Ok symbol ->
      fst (validate_side side_arg initial) = Ok input_side ->
      fst (validate_quantity quantity_arg initial) = Ok qty ->
      fst (validate_price tp_arg initial) = Ok (Fin tp) ->
      fst (validate_price sl_arg initial) = Ok (Fin sl) ->
      (input_side = "SELL" ->
       ((sl < tp)%Q ->
        oco_accepted
          (run (oco_main client [prog; symbol_arg; side_arg; quantity_arg; tp_arg; sl_arg]))
          (oco_request symbol input_side "TAKE_PROFIT_MARKET" (Fin tp)))
       /\ (~ (sl < tp)%Q ->
           oco_rejected
             (run (oco_main client [prog; symbol_arg; side_arg; quantity_arg; tp_arg; sl_arg]))
             "For SELL orders: Take-Profit price must be higher than Stop-Loss price"))
      /\ (input_side = "BUY" ->
          ((tp < sl)%Q ->
           oco_accepted
             (run (oco_main client [prog; symbol_arg; side_arg; quantity_arg; tp_arg; sl_arg]))
             (oco_request symbol input_side "TAKE_PROFIT_MARKET" (Fin tp)))
          /\ (~ (tp < sl)%Q ->
              oco_rejected
                (run (oco_main client [prog; symbol_arg; side_arg; quantity_arg; tp_arg; sl_arg]))
                "For BUY orders: Take-Profit price must be lower than Stop-Loss price")))
  /\ (forall client : Client,
        oco_accepted
          (run (oco_main client ["oco.py"; "BTCUSDT"; "SELL"; "0.01"; "52000"; "50000"]))
          (oco_request "BTCUSDT" "SELL" "TAKE_PROFIT_MARKET" (Fin 52000)))
  /\ (forall client : Client,
        oco_rejected
          (run (oco_main client ["oco.py"; "BTCUSDT"; "SELL"; "0.01"; "49000"; "50000"]))
          "For SELL orders: Take-Profit price must be higher than Stop-Loss price").
Proof.
  assert (General : forall (client : Client)
          (prog symbol_arg side_arg quantity_arg tp_arg sl_arg symbol input_side : string)
          (qty : float) (tp sl : Q),
      fst (validate_symbol symbol_arg initial) = Ok symbol ->
      fst (validate_side side_arg initial) = Ok input_side ->
      fst (validate_quantity quantity_arg initial) = Ok qty ->
      fst (validate_price tp_arg initial) = Ok (Fin tp) ->
      fst (validate_price sl_arg initial) = Ok (Fin sl) ->
      (input_side = "SELL" ->
       ((sl < tp)%Q ->
        oco_accepted
          (run (oco_main client [prog; symbol_arg; side_arg; quantity_arg; tp_arg; sl_arg]))
          (oco_request symbol input_side "TAKE_PROFIT_MARKET" (Fin tp)))
       /\ (~ (sl < tp)%Q ->
           oco_rejected
             (run (oco_main client [prog; symbol_arg; side_arg; quantity_arg; tp_arg; sl_arg]))
             "For SELL orders: Take-Profit price must be higher than Stop-Loss price"))
      /\ (input_side = "BUY" ->
          ((tp < sl)%Q ->
           oco_accepted
             (run (oco_main client [prog; symbol_arg; side_arg; quantity_arg; tp_arg; sl_arg]))
             (oco_request symbol input_side "TAKE_PROFIT_MARKET" (Fin tp)))
          /\ (~ (tp < sl)%Q ->
              oco_rejected
                (run (oco_main client [prog; symbol_arg; side_arg; quantity_arg; tp_arg; sl_arg]))
                "For BUY orders: Take-Profit price must be lower than Stop-Loss price"))).
  { intros client prog symbol_arg side_arg quantity_arg tp_arg sl_arg symbol input_side
      qty tp sl H1 H2 H3 H4 H5.
    pose proof (oco_main_validated client prog symbol_arg side_arg quantity_arg tp_arg
                  sl_arg symbol input_side qty (Fin tp) (Fin sl) H1 H2 H3 H4 H5) as Hmain.
    unfold price_logic_violated, price_logic_message in Hmain.
    split; intros ->; cbn [String.eqb Ascii.eqb Bool.eqb] in Hmain.
    - destruct (fle (Fin tp) (Fin sl)) eqn:E.
      + apply fle_real in E. split; [intros H; lra | intros _; exact Hmain].
      + split; [intros _; eapply oco_submissions_first; exact Hmain |].
        intros H. exfalso. apply Qnot_lt_le in H. apply fle_real in H. congruence.
    - unfold fge in Hmain. destruct (fle (Fin sl) (Fin tp)) eqn:E.
      + apply fle_real in E. split; [intros H; lra | intros _; exact Hmain].
      + split; [intros _; eapply oco_submissions_first; exact Hmain |].
        intros H. exfalso. apply Qnot_lt_le in H. apply fle_real in H. congruence. }
  split; [exact General |]. split.
  - intros client.
    refine (proj1 (proj1 (General client "oco.py" "BTCUSDT" "SELL" "0.01" "52000" "50000"
                            "BTCUSDT" "SELL" (Fin 0.01) 52000%Q 50000%Q
                            eq_refl eq_refl eq_refl eq_refl eq_refl) eq_refl) _).
    reflexivity.
  - intros client.
    refine (proj2 (proj1 (General client "oco.py" "BTCUSDT" "SELL" "0.01" "49000" "50000"
                            "BTCUSDT" "SELL" (Fin 0.01) 49000%Q 50000%Q
                            eq_refl eq_refl eq_refl eq_refl eq_refl) eq_refl) _).
    intros H. discriminate H.
Qed.

Lemma oco_price_logic_witness :
  fst (validate_symbol "btcusdt" initial) = Ok "BTCUSDT"
  /\ fst (validate_side "buy" initial) = Ok "BUY"
  /\ fst (validate_quantity "0.01" initial) = Ok (Fin 0.01)
  /\ fst (validate_price "48000" initial) = Ok (Fin 48000)
  /\ fst (validate_price "51000" initial) = Ok (Fin 51000)
  /\ (48000 < 51000)%Q
  /\ oco_accepted
       (run (oco_main accepting_client
               ["oco.py"; "btcusdt"; "buy"; "0.01"; "48000"; "51000"]))
       (oco_request "BTCUSDT" "BUY" "TAKE_PROFIT_MARKET" (Fin 48000)).
Proof.
  assert (Hlt : (48000 < 51000)%Q) by reflexivity.
  repeat (split; [reflexivity |]).
  exact (proj1 (proj2 (proj1 oco_price_logic accepting_client
                         "oco.py" "btcusdt" "buy" "0.01" "48000" "51000"
                         "BTCUSDT" "BUY" (Fin 0.01) 48000%Q 51000%Q
                         eq_refl eq_refl eq_refl eq_refl eq_refl) eq_refl) Hlt).
Defined.

(** C6 at a price that is not a number.  ["nan"] passes [validate_price];
    every comparison with [NaN] is false, so the test for side SELL does not
    raise although the take-profit price is not above the stop-loss price,
    and [main] goes on to submit both orders. *)
Example oco_main_nan_price :
  fst (validate_price "nan" initial) = Ok NaN
  /\ fgt NaN (Fin 50000) = false
  /\ price_logic_violated "SELL" NaN (Fin 50000) = false
  /\ fst (run (oco_main accepting_client
                 ["oco.py"; "BTCUSDT"; "SELL"; "0.01"; "nan"; "50000"])) = Ok tt
  /\ map (fun sub => (type (fst sub), stopPrice (fst sub)))
       (submissions
          (trace (snd (run (oco_main accepting_client
                              ["oco.py"; "BTCUSDT"; "SELL"; "0.01"; "nan"; "50000"])))))
     = [("TAKE_PROFIT_MARKET", Some NaN); ("STOP_MARKET", Some (Fin 50000))].
Proof. repeat split. Qed.


(** * Further properties of the validators and executors *)

(** ** [validate_side] *)

(** X1.  [validate_side] accepts exactly the strings that read BUY or SELL
    once put in upper case and trimmed, and returns that normal form; what it
    returns is one of the two literals and is returned unchanged when
    validated again. *)
Theorem validate_side_spec (side_arg : string) (s : state) :
  (strip (upper side_arg) = "BUY" \/ strip (upper side_arg) = "SELL" ->
   fst (validate_side side_arg s) = Ok (strip (upper side_arg)))
  /\ (strip (upper side_arg) <> "BUY" -> strip (upper side_arg) <> "SELL" ->
      fst (validate_side side_arg s)
      = Raise (ValueError [FStr "Invalid side '"; FStr (strip (upper side_arg));
                           FStr "': Must be 'BUY' or 'SELL'"]))
  /\ (forall r : string,
        fst (validate_side side_arg s) = Ok r ->
        (r = "BUY" \/ r = "SELL")
        /\ forall s' : state, fst (validate_side r s') = Ok r).
Proof.
  unfold validate_side.
  destruct (String.eqb_spec (strip (upper side_arg)) "BUY") as [Eb | Nb];
    [| destruct (String.eqb_spec (strip (upper side_arg)) "SELL") as [Es | Ns]];
    cbn [orb negb].
  - split; [intros _; reflexivity |]. split; [intros H; contradiction |].
    intros r [= <-]. split; [now left |]. intros s'. rewrite Eb. reflexivity.
  - split; [intros _; reflexivity |]. split; [intros _ H; contradiction |].
    intros r [= <-]. split; [now right |]. intros s'. rewrite Es. reflexivity.
  - split; [intros [H | H]; contradiction |].
    split; [reflexivity |]. intros r H. discriminate H.
Qed.

Lemma validate_side_spec_witness :
  fst (validate_side " Sell " initial) = Ok "SELL"
  /\ ("SELL" = "BUY" \/ "SELL" = "SELL")
  /\ fst (validate_side "SELL" initial) = Ok "SELL".
Proof.
  assert (H : fst (validate_side " Sell " initial) = Ok "SELL") by reflexivity.
  split; [exact H |].
  destruct (proj2 (proj2 (validate_side_spec " Sell " initial)) "SELL" H) as [H1 H2].
  split; [exact H1 | exact (H2 initial)].
Defined.

(** ** [validate_grid_params] *)

(** X2.  On real bounds [validate_grid_params] passes exactly when
    [lower < upper] and [grid_count >= 2]; a bad range is reported before a
    bad count, and a rejection leaves the state as it is. *)
Theorem validate_grid_params_real (L U : Q) (N : Z) (s : state) :
  (fst (validate_grid_params (Fin L) (Fin U) N s) = Ok tt <-> (L < U)%Q /\ 2 <= N)
  /\ ((U <= L)%Q ->
      validate_grid_params (Fin L) (Fin U) N s
      = (Raise (ValueError [FStr "Invalid price range: lower_price ("; FFloat (Fin L);
                            FStr ") must be less than upper_price ("; FFloat (Fin U);
                            FStr ")"]), s))
  /\ ((L < U)%Q -> N < 2 ->
      validate_grid_params (Fin L) (Fin U) N s
      = (Raise (ValueError [FStr "Invalid grid_count "; FInt N;
                            FStr ": Must be at least 2"]), s)).
Proof.
  unfold validate_grid_params.
  destruct (fge (Fin L) (Fin U)) eqn:E.
  - assert (HUL : (U <= L)%Q) by (apply fle_real; exact E).
    split; [split; [discriminate | intros [H _]; lra] |].
    split; [reflexivity | intros H; lra].
  - assert (HLU : (L < U)%Q).
    { apply Qnot_le_lt. intros H. apply fle_real in H. unfold fge in E. congruence. }
    destruct (Z.ltb_spec N 2) as [HN | HN].
    + split; [split; [discriminate | intros [_ H]; lia] |].
      split; [intros H; lra | reflexivity].
    + split; [split; [intros _; split; assumption | reflexivity] |].
      split; [intros H; lra | intros _ H; lia].
Qed.

Lemma validate_grid_params_real_witness :
  (100 <= 100)%Q
  /\ validate_grid_params (Fin 100) (Fin 100) 5 initial
     = (Raise (ValueError [FStr "Invalid price range: lower_price ("; FFloat (Fin 100);
                           FStr ") must be less than upper_price ("; FFloat (Fin 100);
                           FStr ")"]), initial).
Proof.
  assert (H : (100 <= 100)%Q) by (apply Qle_refl).
  split; [exact H |].
  exact (proj1 (proj2 (validate_grid_params_real 100 100 5 initial)) H).
Defined.

(** X3.  A bound that is not a number passes the range test, because every
    comparison with [NaN] is false: with a count of at least 2 the parameters
    are accepted whenever either bound is [NaN]. *)
Theorem validate_grid_params_nan (x : float) (N : Z) (s : state) :
  2 <= N ->
  fst (validate_grid_params NaN x N s) = Ok tt
  /\ fst (validate_grid_params x NaN N s) = Ok tt.
Proof.
  intros HN. unfold validate_grid_params.
  assert (H1 : fge NaN x = false) by (destruct x; reflexivity).
  assert (H2 : fge x NaN = false) by (destruct x; reflexivity).
  rewrite H1, H2.
  destruct (Z.ltb_spec N 2) as [H | _]; [lia |]. split; reflexivity.
Qed.

Lemma validate_grid_params_nan_witness :
  2 <= 3
  /\ fst (validate_grid_params NaN (Fin 50000) 3 initial) = Ok tt
  /\ fst (validate_grid_params (Fin 50000) NaN 3 initial) = Ok tt.
Proof.
  split; [lia |].
  apply (validate_grid_params_nan (Fin 50000) 3 initial). lia.
Defined.

(** ** More on the grid levels *)

Lemma level_formula_bounds (L U : Q) (N i : Z) :
  (L < U)%Q -> 2 <= N -> 0 <= i <= N - 1 ->
  (L <= level_formula L U N i)%Q /\ (level_formula L U N i <= U)%Q.
Proof.
  intros HLU HN Hi. split.
  - rewrite <- (level_formula_first L U N) at 1.
    destruct (Z.eq_dec i 0) as [-> | Hne]; [apply Qle_refl |].
    apply Qlt_le_weak. apply level_formula_increasing; [assumption | assumption | lia].
  - rewrite <- (level_formula_last L U N) at 2 by lia.
    destruct (Z.eq_dec i (N - 1)) as [-> | Hne]; [apply Qle_refl |].
    apply Qlt_le_weak. apply level_formula_increasing; [assumption | assumption | lia].
Qed.

Lemma level_formula_step (L U : Q) (N i : Z) :
  (level_formula L U N (i + 1) - level_formula L U N i == (U - L) / inject_Z (N - 1))%Q.
Proof.
  unfold level_formula. rewrite inject_Z_plus. change (inject_Z 1) with 1%Q. ring.
Qed.

(** X4.  On real bounds [L < U] and a count [N >= 2] every level that
    [calculate_grid_levels] returns lies between the two bounds, and two
    neighbouring levels are one step [(U - L) / (N - 1)] apart. *)
Theorem grid_levels_within_bounds (L U : Q) (N : Z) (s : state) :
  (L < U)%Q -> 2 <= N ->
  exists levels : list float,
    fst (calculate_grid_levels (Fin L) (Fin U) N s) = Ok levels
    /\ (forall x : float, In x levels -> fle (Fin L) x = true /\ fle x (Fin U) = true)
    /\ (forall (i : nat) (x y : float),
          nth_error levels i = Some x -> nth_error levels (S i) = Some y ->
          exists a b : Q,
            x = Fin a /\ y = Fin b /\ (b - a == (U - L) / inject_Z (N - 1))%Q).
Proof.
  intros HLU HN.
  rewrite (calculate_grid_levels_real L U N s) by lia. cbn [fst].
  exists (real_levels L U N). split; [reflexivity |]. split.
  - intros x Hx. apply In_nth_error in Hx as (i & Hi).
    assert (Hlt : (i < Z.to_nat N)%nat).
    { rewrite <- real_levels_length with (L := L) (U := U). apply nth_error_Some. congruence. }
    destruct (real_levels_value L U N i Hlt) as (q & Eq & Hq).
    rewrite Eq in Hi. injection Hi as <-.
    destruct (level_formula_bounds L U N (Z.of_nat i) HLU HN) as [Hlo Hhi]; [lia |].
    split; apply fle_real; rewrite Hq; assumption.
  - intros i x y Hx Hy.
    assert (Hlt : (S i < Z.to_nat N)%nat).
    { rewrite <- real_levels_length with (L := L) (U := U). apply nth_error_Some. congruence. }
    destruct (real_levels_value L U N i) as (a & Ea & Ha); [lia |].
    destruct (real_levels_value L U N (S i) Hlt) as (b & Eb & Hb).
    rewrite Ea in Hx. rewrite Eb in Hy. injection Hx as <-. injection Hy as <-.
    exists a, b. split; [reflexivity |]. split; [reflexivity |].
    rewrite Ha, Hb. replace (Z.of_nat (S i)) with (Z.of_nat i + 1) by lia.
    apply level_formula_step.
Qed.

Lemma grid_levels_within_bounds_witness :
  (50000 < 52000)%Q /\ 2 <= 5
  /\ exists levels : list float,
       fst (calculate_grid_levels (Fin 50000) (Fin 52000) 5 initial) = Ok levels
       /\ (forall x : float,
             In x levels -> fle (Fin 50000) x = true /\ fle x (Fin 52000) = true).
Proof.
  assert (H1 : (50000 < 52000)%Q) by reflexivity.
  assert (H2 : 2 <= 5) by lia.
  split; [exact H1 |]. split; [exact H2 |].
  destruct (grid_levels_within_bounds 50000 52000 5 initial H1 H2) as (levels & Hl & Hin & _).
  exists levels. split; assumption.
Defined.

(** ** Rejections of the grid executor *)



(** ** Slice counts that are not positive *)



(** ** The grid executor from any state and on any bounds *)

Lemma calculate_grid_levels_any (lower_price upper_price : float) (N : Z) :
  N <> 1 ->
  exists levels : list float,
    List.length levels = Z.to_nat N
    /\ forall s : state,
         calculate_grid_levels lower_price upper_price N s
         = (Ok levels,
            {| trace :=
                 trace s
                 ++ [Logged DEBUG [FStr "Calculated "; FInt N; FStr " grid levels: ";
                                   FFloats levels]];
               orders := orders s |}).
Proof.
  intros HN.
  destruct (divide_by_int (fsub upper_price lower_price) (N - 1) initial) as (q & Hq & _);
    [lia |].
  eexists. split; [| intros s; unfold calculate_grid_levels].
  2: { destruct (Z.eqb_spec N 1) as [E | _]; [contradiction |].
       unfold bind at 1, divide. rewrite Hq. run_step. reflexivity. }
  now rewrite length_map, range_length.
Qed.

Lemma grid_handler_alerts (grid_count : Z) (e : exn) (s : state) :
  exists post : list event,
    grid_handler grid_count e s
    = (Raise e, {| trace := trace s ++ post; orders := orders s |})
    /\ actions post = []
    /\ (is_exception e = true ->
        exists (headline : string) (detail : text),
          In headline grid_headlines
          /\ alerts post
             = grid_failure_alerts headline detail
                 (Z.of_nat (List.length (orders s))) grid_count)
    /\ (is_exception e = false -> alerts post = []).
Proof.
  unfold grid_headlines, grid_failure_alerts.
  destruct e as [c m | c m | m | m | c | m]; unfold grid_handler; run_step.
  5: { exists []. rewrite app_nil_r. destruct s.
       split; [reflexivity |]. split; [reflexivity |].
       split; [discriminate | reflexivity]. }
  all: flatten_trace; eexists; (split; [reflexivity |]); (split; [reflexivity |]);
    (split; [intros _ | discriminate]);
    eexists; eexists; (split; [| reflexivity]); cbn; tauto.
Qed.

Section GridExec.

Variables (client : Client) (symbol : string).
Variables (quantity_per_grid lower_price upper_price : float) (N : Z).
Hypothesis range_accepted : fge lower_price upper_price = false.
Hypothesis count_accepted : 2 <= N.

(** A run of the executor on accepted parameters, from the state [s]. *)
Lemma grid_exec (s : state) :
  exists (levels : list float) (rs : list order_response) (evs : list event)
         (r : result unit),
    List.length levels = Z.to_nat N
    /\ (forall s0 : state,
          fst (calculate_grid_levels lower_price upper_price N s0) = Ok levels)
    /\ grid_end symbol quantity_per_grid (enumerate levels) rs (submissions evs) r
    /\ sleeps evs = []
    /\ execute_grid_strategy client symbol quantity_per_grid lower_price upper_price N s
       = (match r with Ok _ => Ok rs | Raise e => Raise e end,
          {| trace := trace s ++ evs; orders := rs |})
    /\ match r with
       | Ok _ => alerts evs = []
       | Raise e =>
           (is_exception e = true ->
            exists (headline : string) (detail : text),
              In headline grid_headlines
              /\ alerts evs
                 = grid_failure_alerts headline detail (Z.of_nat (List.length rs)) N)
       end.
Proof.
  destruct (calculate_grid_levels_any lower_price upper_price N) as (levels & Hlen & Hany);
    [lia |].
  unfold execute_grid_strategy.
  unfold bind at 1, validate_grid_params. rewrite range_accepted.
  destruct (Z.ltb_spec N 2) as [H | _]; [lia |].
  unfold logger_debug at 1, emit at 1.
  unfold bind at 1. rewrite Hany. run_step.
  match goal with |- context [for_each _ _ ?st] =>
    destruct (grid_loop client symbol quantity_per_grid N (enumerate levels) st)
      as (rs & evs & r & E & Ha & Hs & Hend)
  end.
  rewrite E. cbn [trace orders app] in *.
  exists levels, rs.
  destruct r as [[] | e].
  - eexists. exists (Ok tt). flatten_trace.
    split; [exact Hlen |]. split; [intros s0; now rewrite Hany |].
    split; [| split; [| split; [reflexivity |]]].
    + cbn [submissions]. rewrite submissions_app. cbn [submissions]. now rewrite app_nil_r.
    + cbn [sleeps]. rewrite sleeps_app, Hs. reflexivity.
    + cbn [alerts]. rewrite alerts_app, Ha. reflexivity.
  - match goal with |- context [grid_handler _ _ ?st] =>
      destruct (grid_handler_alerts N e st) as (post & -> & Hact & Hexc & _)
    end.
    eexists. exists (Raise e). flatten_trace.
    split; [exact Hlen |]. split; [intros s0; now rewrite Hany |].
    split; [| split; [| split; [reflexivity |]]].
    + cbn [submissions]. rewrite submissions_app, <- (submissions_actions post), Hact.
      cbn [submissions]. now rewrite app_nil_r.
    + cbn [sleeps]. rewrite sleeps_app, <- (sleeps_actions post), Hact, Hs. reflexivity.
    + intros He. destruct (Hexc He) as (h & d & Hin & Hal).
      exists h, d. split; [exact Hin |].
      cbn [alerts]. rewrite alerts_app, Ha, Hal. reflexivity.
Qed.

End GridExec.

Lemma placed_all_ok (symbol : string) (q : float) (l : list ((Z * float) * order_response))
    (k : nat) (req : order_request) (e : exn) :
  nth_error (map (fun p => (grid_request symbol q (snd (fst p)), Ok (snd p))) l) k
  <> Some (req, Raise e).
Proof.
  rewrite nth_error_map. destruct (nth_error l k); cbn; congruence.
Qed.



(** ** What the TWAP executor never does *)

Section TwapCounts.

Variables (client : Client) (symbol side : string) (quantity_per_slice : float).
Variables (num_slices interval_seconds : Z).

Let req : order_request := twap_request symbol side quantity_per_slice.
Let body : Z -> M unit :=
  twap_slice client symbol side quantity_per_slice num_slices interval_seconds.

(** The loop from any state: the responses received are appended to
    [orders]; the submissions are one accepted request per response and, when
    the loop stops on a refusal, that refused request; there is at most one
    sleep per response; the loop writes no error and no warning. *)
Lemma twap_loop_counts (indices : list Z) :
  forall s : state,
  exists (rs : list order_response) (evs : list event) (r : result unit)
         (refused : list (order_request * result order_response)),
    for_each indices body s
    = (r, {| trace := trace s ++ evs; orders := orders s ++ rs |})
    /\ submissions evs = map (fun o => (req, Ok o)) rs ++ refused
    /\ (refused = [] \/ exists e, refused = [(req, Raise e)] /\ r = Raise e)
    /\ (List.length rs + List.length refused <= List.length indices)%nat
    /\ (r = Ok tt -> refused = [] /\ List.length rs = List.length indices)
    /\ (exists m : nat, sleeps evs = repeat interval_seconds m /\ (m <= List.length rs)%nat)
    /\ alerts evs = [].
Proof.
  induction indices as [| i rest IH]; intros s.
  - exists [], [], (Ok tt), []. rewrite !app_nil_r. destruct s.
    split; [reflexivity |]. split; [reflexivity |]. split; [now left |].
    split; [cbn; lia |]. split; [now split |].
    split; [| reflexivity]. exists 0%nat. split; [reflexivity | cbn; lia].
  - cbn [for_each]. unfold body at 1, twap_slice. run_step.
    match goal with |- context [client ?h ?q] => destruct (client h q) as [o | e] eqn:Hc end.
    + run_step. destruct (Z.ltb_spec i (num_slices - 1)) as [Hi | Hi]; run_step.
      * destruct (Z.ltb_spec interval_seconds 0) as [Hneg | Hpos]; run_step.
        -- exists [o]. eexists.
           exists (Raise (ValueError [FStr "sleep length must be non-negative"])), [].
           flatten_trace. split; [reflexivity |]. split; [reflexivity |].
           split; [now left |]. split; [cbn; lia |]. split; [discriminate |].
           split; [| reflexivity]. exists 0%nat. split; [reflexivity | cbn; lia].
        -- match goal with |- context [for_each rest body ?st] =>
             destruct (IH st)
               as (rs & evs & r & refused & E & Hsub & Href & Hlen & Hok & (m & Hm & Hle) & Hal);
             rewrite E end.
           exists (o :: rs). eexists. exists r, refused.
           flatten_trace. split; [reflexivity |].
           split; [cbn [submissions map app]; now rewrite Hsub |].
           split; [exact Href |]. split; [cbn; lia |].
           split; [intros H; destruct (Hok H) as [H1 H2]; split; [exact H1 | cbn; lia] |].
           split; [| cbn [alerts]; exact Hal].
           exists (S m). split; [cbn [sleeps repeat]; now rewrite Hm | cbn; lia].
      * match goal with |- context [for_each rest body ?st] =>
          destruct (IH st)
            as (rs & evs & r & refused & E & Hsub & Href & Hlen & Hok & (m & Hm & Hle) & Hal);
          rewrite E end.
        exists (o :: rs). eexists. exists r, refused.
        flatten_trace. split; [reflexivity |].
        split; [cbn [submissions map app]; now rewrite Hsub |].
        split; [exact Href |]. split; [cbn; lia |].
        split; [intros H; destruct (Hok H) as [H1 H2]; split; [exact H1 | cbn; lia] |].
        split; [| cbn [alerts]; exact Hal].
        exists m. split; [cbn [sleeps]; exact Hm | cbn; lia].
    + exists []. eexists. exists (Raise e), [(req, Raise e)].
      rewrite (app_nil_r (orders s)). flatten_trace.
      split; [reflexivity |]. split; [reflexivity |].
      split; [right; exists e; now split |]. split; [cbn; lia |].
      split; [discriminate |].
      split; [| reflexivity]. exists 0%nat. split; [reflexivity | cbn; lia].
Qed.

End TwapCounts.

(** The executor from any state, for [num_slices <> 0]: [orders] ends as the
    responses received, one accepted submission each, followed by the refused
    submission when the run stops on one; it sleeps [interval_seconds] at
    most once per response. *)
Lemma twap_exec (client : Client) (symbol side : string) (total_quantity : float)
    (num_slices interval_seconds : Z) (s : state) :
  num_slices <> 0 ->
  exists (q : float) (rs : list order_response) (evs : list event)
         (res : result (list order_response))
         (refused : list (order_request * result order_response)),
    fdiv total_quantity (float_of_int num_slices) = Some q
    /\ execute_twap_strategy client symbol side total_quantity num_slices
         interval_seconds s
       = (res, {| trace := trace s ++ evs; orders := rs |})
    /\ submissions evs = map (fun o => (twap_request symbol side q, Ok o)) rs ++ refused
    /\ (refused = [] \/ exists e, refused = [(twap_request symbol side q, Raise e)]
                                  /\ res = Raise e)
    /\ (List.length rs + List.length refused <= Z.to_nat num_slices)%nat
    /\ (forall l, res = Ok l -> l = rs /\ refused = []
                                /\ List.length rs = Z.to_nat num_slices
                                /\ alerts evs = [])
    /\ (exists m : nat, sleeps evs = repeat interval_seconds m
                        /\ (m <= List.length rs)%nat).
Proof.
  intros Hn. unfold execute_twap_strategy. unfold bind at 1.
  destruct (divide_by_int total_quantity num_slices s Hn) as (q & Hq & ->).
  exists q. run_step.
  match goal with |- context [for_each (range num_slices) ?b ?st] =>
    destruct (twap_loop_counts client symbol side q num_slices interval_seconds
                (range num_slices) st)
      as (rs & evs & r & refused & E & Hsub & Href & Hlen & Hok & (m & Hm & Hle) & Hal) end.
  cbn [trace orders app] in E. rewrite E. rewrite range_length in *.
  destruct r as [[] | e].
  - destruct (Hok eq_refl) as [-> Hrs]. run_step.
    exists rs. eexists. exists (Ok rs), []. flatten_trace.
    split; [exact Hq |]. split; [reflexivity |].
    split; [cbn [submissions]; rewrite submissions_app, Hsub; cbn; now rewrite !app_nil_r |].
    split; [now left |]. split; [cbn; lia |].
    split.
    + intros l [= <-]. split; [reflexivity |]. split; [reflexivity |]. split; [exact Hrs |].
      cbn [alerts]. rewrite alerts_app, Hal. reflexivity.
    + exists m. split; [| exact Hle]. cbn [sleeps]. rewrite sleeps_app, Hm. cbn.
      now rewrite app_nil_r.
  - match goal with |- context [twap_handler num_slices e ?st] =>
      destruct (twap_handler_spec num_slices e st) as (post & Eh & Hact & _ & _);
      rewrite Eh end.
    cbn [trace orders].
    exists rs. eexists. exists (Raise e), refused. flatten_trace.
    split; [exact Hq |]. split; [reflexivity |].
    split.
    { cbn [submissions]. rewrite submissions_app, Hsub.
      rewrite <- (submissions_actions post), Hact. cbn. now rewrite !app_nil_r. }
    split.
    { destruct Href as [-> | (e' & -> & [= ->])]; [now left |].
      right. exists e'. now split. }
    split; [exact Hlen |].
    split; [discriminate |].
    exists m. split; [| exact Hle]. cbn [sleeps]. rewrite sleeps_app, Hm.
    rewrite <- (sleeps_actions post), Hact. cbn. now rewrite app_nil_r.
Qed.

Lemma filter_succeeded_accepted (req : order_request) (rs : list order_response) :
  filter succeeded (map (fun o => (req, Ok o)) rs) = map (fun o => (req, Ok o)) rs.
Proof.
  induction rs as [| o rs IH]; [reflexivity |].
  cbn [map filter]. unfold succeeded at 1. cbn [snd]. now rewrite IH.
Qed.

(** X8.  Whatever the client answers and whatever the arguments are,
    [execute_twap_strategy] submits at most [num_slices] orders, each of them
    the market order for [total_quantity / num_slices]; it only ever sleeps
    for [interval_seconds], and no more often than it had a submission
    accepted; and when it returns, it returns the responses of its
    submissions, in order, and there are [num_slices] of them (none when
    [num_slices] is negative). *)
Theorem twap_never_oversubmits
    (client : Client) (symbol side : string) (total_quantity : float)
    (num_slices interval_seconds : Z) (s : state) :
  exists (res : result (list order_response)) (s' : state) (evs : list event),
    execute_twap_strategy client symbol side total_quantity num_slices interval_seconds s
    = (res, s')
    /\ trace s' = trace s ++ evs
    /\ Z.of_nat (List.length (submissions evs)) <= Z.max 0 num_slices
    /\ (forall sub, In sub (submissions evs) ->
        exists q, fdiv total_quantity (float_of_int num_slices) = Some q
                  /\ fst sub = twap_request symbol side q)
    /\ (forall d, In d (sleeps evs) -> d = interval_seconds)
    /\ (List.length (sleeps evs) <= List.length (filter succeeded (submissions evs)))%nat
    /\ (forall l, res = Ok l ->
        map snd (submissions evs) = map Ok l
        /\ Z.of_nat (List.length l) = Z.max 0 num_slices).
Proof.
  destruct (Z.eq_dec num_slices 0) as [-> | Hn].
  - exists (Raise (ZeroDivisionError [FStr "float division by zero"])), s, [].
    split; [reflexivity |]. split; [now rewrite app_nil_r |].
    split; [cbn; lia |]. split; [intros sub [] |]. split; [intros d [] |].
    split; [cbn; lia |]. discriminate.
  - destruct (twap_exec client symbol side total_quantity num_slices interval_seconds s Hn)
      as (q & rs & evs & res & refused & Hq & E & Hsub & Href & Hlen & Hok & m & Hm & Hle).
    exists res. eexists. exists evs.
    split; [exact E |]. split; [reflexivity |].
    split; [rewrite Hsub, length_app, length_map; lia |].
    split.
    { intros sub Hin. exists q. split; [exact Hq |].
      rewrite Hsub in Hin. apply in_app_or in Hin. destruct Hin as [Hin | Hin].
      - apply in_map_iff in Hin. destruct Hin as (o & <- & _). reflexivity.
      - destruct Href as [-> | (e & -> & _)]; [destruct Hin |].
        destruct Hin as [<- | []]. reflexivity. }
    split; [intros d Hd; rewrite Hm in Hd; exact (repeat_spec _ _ _ Hd) |].
    split.
    { rewrite Hsub, filter_app, filter_succeeded_accepted, length_app, length_map, Hm,
        repeat_length. lia. }
    intros l Hl. destruct (Hok l Hl) as (-> & -> & Hrs & _).
    rewrite Hsub, app_nil_r, map_map. cbn [snd]. split; [reflexivity | lia].
Qed.

(** ** What a computation sends to the exchange *)

Lemma sends_weaken {A} (m : M A)
    (Q1 Q2 : list order_request -> result A
             -> list (order_request * result order_response) -> Prop) :
  sends m Q1 -> (forall h r subs, Q1 h r subs -> Q2 h r subs) -> sends m Q2.
Proof.
  intros Hm HQ s. destruct (Hm s) as (r & s' & evs & E & Ht & H).
  exists r, s', evs. split; [exact E |]. split; [exact Ht |]. apply HQ, H.
Qed.

Lemma silent_ret {A} (a : A) : silent (ret a).
Proof.
  intros s. exists (Ok a), s, []. split; [reflexivity |].
  split; [now rewrite app_nil_r | reflexivity].
Qed.

Lemma silent_raise {A} (e : exn) : silent (@raise A e).
Proof.
  intros s. exists (Raise e), s, []. split; [reflexivity |].
  split; [now rewrite app_nil_r | reflexivity].
Qed.

Lemma silent_print (msg : text) : silent (print msg).
Proof.
  intros s. eexists. eexists. exists [Printed msg].
  split; [reflexivity |]. split; reflexivity.
Qed.

Lemma silent_bind {A B} (m : M A) (k : A -> M B) :
  silent m -> (forall a, silent (k a)) -> silent (bind m k).
Proof.
  intros Hm Hk s. destruct (Hm s) as (r & s1 & evs1 & E1 & T1 & S1).
  unfold bind. rewrite E1. destruct r as [a | e].
  - destruct (Hk a s1) as (r2 & s2 & evs2 & E2 & T2 & S2).
    exists r2, s2, (evs1 ++ evs2). split; [exact E2 |].
    split; [now rewrite T2, T1, app_assoc |].
    now rewrite submissions_app, S1, S2.
  - exists (Raise e), s1, evs1. split; [reflexivity |]. split; assumption.
Qed.

Lemma silent_for_each {X} (xs : list X) (body : X -> M unit) :
  (forall x, silent (body x)) -> silent (for_each xs body).
Proof.
  intros Hbody. induction xs as [| x xs IH]; [apply silent_ret |].
  cbn [for_each]. apply silent_bind; [apply Hbody | intros _; exact IH].
Qed.

Lemma quiet_silent {A} (m : M A) : quiet m -> silent m.
Proof.
  intros (r & evs & Hm & Hact & _) s. exists r. eexists. exists evs.
  split; [apply Hm |]. split; [reflexivity |].
  now rewrite <- submissions_actions, Hact.
Qed.

Ltac prove_silent :=
  repeat (cbv beta;
          lazymatch goal with
          | |- silent (bind _ _) => apply silent_bind; [| intros ?]
          | |- silent (print _) => apply silent_print
          | |- silent (ret _) => apply silent_ret
          | |- silent (raise _) => apply silent_raise
          | |- silent (for_each _ _) => apply silent_for_each; intros [? ?]
          end).

(** A quiet step in front: what follows starts from the same history. *)
Lemma sends_bind_quiet {A B} (m : M A) (k : A -> M B)
    (Q : list order_request -> result B
         -> list (order_request * result order_response) -> Prop) :
  quiet m ->
  (forall a, fst (m initial) = Ok a -> sends (k a) Q) ->
  (forall e h, fst (m initial) = Raise e -> Q h (Raise e) []) ->
  sends (bind m k) Q.
Proof.
  intros (r & evs & Hm & Hact & _) Hok Hraise s.
  assert (Hsub : submissions evs = []) by now rewrite <- submissions_actions, Hact.
  assert (Hr : fst (m initial) = r) by now rewrite Hm.
  unfold bind. rewrite Hm. destruct r as [a | e].
  - destruct (Hok a Hr {| trace := trace s ++ evs; orders := orders s |})
      as (r2 & s2 & evs2 & E2 & T2 & H2).
    cbn [trace] in *. exists r2, s2, (evs ++ evs2). split; [exact E2 |].
    split; [now rewrite T2, app_assoc |].
    rewrite submissions_app, Hsub. cbn [app].
    rewrite submitted_requests_app, (submitted_requests_submissions evs), Hsub in H2.
    cbn [map] in H2. now rewrite app_nil_r in H2.
  - eexists. eexists. exists evs. split; [reflexivity |]. split; [reflexivity |].
    rewrite Hsub. now apply Hraise.
Qed.

(** Silent steps behind: they add nothing to what was sent. *)
Lemma sends_then_silent {A B} (m : M A) (k : A -> M B)
    (G : list order_request -> list (order_request * result order_response) -> Prop) :
  sends m (fun h _ subs => G h subs) ->
  (forall a, silent (k a)) ->
  sends (bind m k) (fun h _ subs => G h subs).
Proof.
  intros Hm Hk s. destruct (Hm s) as (r & s1 & evs1 & E1 & T1 & H1).
  unfold bind. rewrite E1. destruct r as [a | e].
  - destruct (Hk a s1) as (r2 & s2 & evs2 & E2 & T2 & S2).
    exists r2, s2, (evs1 ++ evs2). split; [exact E2 |].
    split; [now rewrite T2, T1, app_assoc |].
    now rewrite submissions_app, S2, app_nil_r.
  - exists (Raise e), s1, evs1. split; [reflexivity |]. split; assumption.
Qed.

(** A [try] whose handlers submit nothing and all end in an exit. *)
Lemma sends_try_exit (body : M unit) (handler : exn -> M unit)
    (G : list order_request -> list (order_request * result order_response) -> Prop) :
  sends body (fun h _ subs => G h subs) ->
  (forall e, sends (handler e)
               (fun _ r subs => subs = [] /\ exists c, r = Raise (SystemExit c))) ->
  sends (try_except body handler)
    (fun h r subs => (r = Ok tt \/ exists c, r = Raise (SystemExit c)) /\ G h subs).
Proof.
  intros Hb Hh s. destruct (Hb s) as (r & s1 & evs1 & E1 & T1 & H1).
  unfold try_except. rewrite E1. destruct r as [[] | e].
  - exists (Ok tt), s1, evs1. split; [reflexivity |]. split; [exact T1 |].
    split; [now left | exact H1].
  - destruct (Hh e s1) as (r2 & s2 & evs2 & E2 & T2 & S2 & c & ->).
    exists (Raise (SystemExit c)), s2, (evs1 ++ evs2). split; [exact E2 |].
    split; [now rewrite T2, T1, app_assoc |].
    split; [right; now exists c |].
    now rewrite submissions_app, S2, app_nil_r.
Qed.

Lemma exit_handlers (e : exn) :
  sends (oco_main_handler e)
    (fun _ r subs => subs = [] /\ exists c, r = Raise (SystemExit c))
  /\ sends (twap_main_handler e)
       (fun _ r subs => subs = [] /\ exists c, r = Raise (SystemExit c))
  /\ sends (grid_main_handler e)
       (fun _ r subs => subs = [] /\ exists c, r = Raise (SystemExit c)).
Proof.
  split; [| split]; intros s;
    destruct e as [c m | c m | m | m | c | m];
    unfold oco_main_handler, twap_main_handler, grid_main_handler; run_step.
  all: try (eexists; eexists; eexists; split; [reflexivity |];
            split; [cbn [trace]; rewrite <- ?app_assoc; reflexivity |];
            split; [reflexivity | eexists; reflexivity]).
  all: exists (Raise (SystemExit c)), s, []; split; [reflexivity |];
    split; [now rewrite app_nil_r |]; split; [reflexivity | now exists c].
Qed.

(** ** [validate_positive_int] *)

Lemma validate_positive_int_quiet (max_str_digits : nat) (value param_name : string) :
  quiet (validate_positive_int max_str_digits value param_name).
Proof.
  unfold quiet, validate_positive_int.
  destruct (int_of_str max_str_digits value) as [val |]; [| quiet_raise].
  destruct (val <=? 0); [quiet_raise | quiet_log].
Qed.

Lemma validate_positive_int_returns (max_str_digits : nat) (value param_name : string)
    (s : state) (v : Z) :
  fst (validate_positive_int max_str_digits value param_name s) = Ok v ->
  int_of_str max_str_digits value = Some v /\ 0 < v.
Proof.
  unfold validate_positive_int.
  destruct (int_of_str max_str_digits value) as [val |]; [| discriminate].
  destruct (Z.leb_spec val 0) as [H | H]; [discriminate |].
  run_step. cbn [fst]. intros [= <-]. split; [reflexivity | exact H].
Qed.

(** ** [main] of [twap.py] *)

Lemma quiet_ret {A} (a : A) : quiet (ret a).
Proof. exists (Ok a), []. split; [intros s; now rewrite state_eta | split; reflexivity]. Qed.

Lemma quiet_raise_any {A} (e : exn) : quiet (@raise A e).
Proof.
  exists (Raise e), []. split; [intros s; now rewrite state_eta | split; reflexivity].
Qed.

Lemma quiet_print (msg : text) : quiet (print msg).
Proof. exists (Ok tt), [Printed msg]. split; [reflexivity | split; reflexivity]. Qed.

Lemma quiet_divide (x y : float) : quiet (divide x y).
Proof. unfold divide. destruct (fdiv x y); [apply quiet_ret | apply quiet_raise_any]. Qed.

Lemma quiet_format_int (max_str_digits : nat) (z : Z) : quiet (format_int max_str_digits z).
Proof.
  unfold format_int.
  destruct (exceeds_str_digits _ _); [apply quiet_raise_any | apply quiet_ret].
Qed.

Ltac quiet_step lemma :=
  apply sends_bind_quiet; [apply lemma | | intros; now left].

Ltac usage_branch :=
  intros s; run_step; exists (Raise (SystemExit 1)); eexists; eexists;
  split; [reflexivity |];
  split; [cbn [trace]; rewrite <- ?app_assoc; reflexivity |];
  split; [right; now exists 1 | now left].


Lemma quiet_for_each_print {X} (xs : list X) (body : X -> M unit) (line : X -> text) :
  (forall x, body x = print (line x)) ->
  quiet (for_each xs body).
Proof.
  intros Hbody.
  exists (Ok tt), (map (fun x => Printed (line x)) xs).
  split; [| split].
  - induction xs as [| x xs IH]; intros s; [now rewrite state_eta |].
    cbn [for_each map]. unfold bind. rewrite Hbody. unfold print, emit.
    rewrite IH. cbn [trace orders]. now rewrite <- app_assoc.
  - induction xs as [| x xs IH]; [reflexivity | exact IH].
  - induction xs as [| x xs IH]; [reflexivity | exact IH].
Qed.

(** ** [main] of [grid.py] *)

Lemma map_combine_l {A B C} (f : A -> C) (l : list A) (r : list B) :
  map (fun p => f (fst p)) (combine l r) = firstn (List.length r) (map f l).
Proof.
  revert r. induction l as [| x l IH]; intros [| y r]; cbn; try reflexivity.
  now rewrite IH.
Qed.

Lemma map_snd_combine {A B C} (g : B -> C) (idx : list A) :
  forall xs : list B,
    List.length idx = List.length xs ->
    map (fun p => g (snd p)) (combine idx xs) = map g xs.
Proof.
  induction idx as [| i idx IH]; intros [| x xs] H; cbn in *; try reflexivity;
    try discriminate.
  f_equal. apply IH. lia.
Qed.

Lemma firstn_S_nth {A} (l : list A) (k : nat) (x : A) :
  nth_error l k = Some x -> firstn (S k) l = firstn k l ++ [x].
Proof.
  revert k. induction l as [| y l IH]; intros [| k] H; cbn in *; try discriminate.
  - now injection H as ->.
  - f_equal. now apply IH.
Qed.

Lemma grid_end_prefix (symbol : string) (q : float) (levels : list float)
    (rs : list order_response) (subs : list (order_request * result order_response))
    (r : result unit) :
  grid_end symbol q (enumerate levels) rs subs r ->
  (List.length subs <= List.length levels)%nat
  /\ map fst subs = firstn (List.length subs) (map (grid_request symbol q) levels).
Proof.
  assert (Hsnd : map (fun il : Z * float => grid_request symbol q (snd il))
                   (enumerate levels)
                 = map (grid_request symbol q) levels).
  { unfold enumerate. apply map_snd_combine. apply enumerate_length. }
  assert (Hlen : List.length (enumerate levels) = List.length levels).
  { unfold enumerate. rewrite length_combine, enumerate_length. lia. }
  assert (Hfst : forall l : list ((Z * float) * order_response),
             map fst (map (fun p => (grid_request symbol q (snd (fst p)),
                                     Ok (snd p) : result order_response)) l)
             = map (fun p => grid_request symbol q (snd (fst p))) l).
  { intros l. rewrite map_map. reflexivity. }
  intros [Hl -> | level e Hlevel ->].
  - rewrite length_map, length_combine, Hl, Nat.min_id, Hfst.
    rewrite (map_combine_l (fun il : Z * float => grid_request symbol q (snd il))),
      Hsnd, Hl.
    split; [lia | reflexivity].
  - assert (Hk : (List.length rs < List.length (enumerate levels))%nat).
    { apply nth_error_Some. congruence. }
    rewrite length_app, length_map, length_combine, map_app, Hfst.
    rewrite (map_combine_l (fun il : Z * float => grid_request symbol q (snd il))), Hsnd.
    replace (Nat.min (List.length (enumerate levels)) (List.length rs) + List.length [(grid_request symbol q (snd level), @Raise order_response e)])%nat
      with (S (List.length rs)) by (cbn [List.length]; lia).
    split; [lia |].
    cbn [map fst]. symmetry. apply firstn_S_nth.
    rewrite <- Hsnd.
    exact (map_nth_error (fun il : Z * float => grid_request symbol q (snd il)) _ _ Hlevel).
Qed.

Lemma quiet_validate_grid_params (lower_price upper_price : float) (grid_count : Z) :
  quiet (validate_grid_params lower_price upper_price grid_count).
Proof.
  unfold quiet, validate_grid_params.
  destruct (fge lower_price upper_price); [quiet_raise |].
  destruct (grid_count <? 2); [quiet_raise | quiet_log].
Qed.


(** ** [main] of [oco.py] on any command line *)


(** ** [validate_positive_int] and the grammar of [int] *)

Lemma scan_int_stop (prev : option ascii) (acc : Z) (n : nat) :
  prev <> Some "_"%char -> scan_int prev acc n "" = Some (acc, n, "").
Proof.
  intros Hprev. cbn. destruct prev as [c |]; [| reflexivity].
  destruct c as [[] [] [] [] [] [] [] []]; try reflexivity. congruence.
Qed.

Ltac scan_digit :=
  cbn [scan_int];
  match goal with |- context [is_digit ?c] => change (is_digit c) with true end;
  match goal with |- context [digit_value ?c] =>
    let v := eval vm_compute in (digit_value c) in change (digit_value c) with v end;
  cbv iota;
  rewrite Nat.add_succ_r, <- Nat.add_succ_l.

(** The scan reads the digits that [str] writes. *)
Lemma scan_int_uint_pos (d : Decimal.uint) :
  forall (prev : option ascii) (p : positive) (n : nat),
    prev <> Some "_"%char ->
    scan_int prev (Z.pos p) n (NilEmpty.string_of_uint d)
    = Some (Z.pos (Pos.of_uint_acc d p), (n + Decimal.nb_digits d)%nat, "").
Proof.
  induction d; intros prev p n Hprev;
    cbn [NilEmpty.string_of_uint Pos.of_uint_acc Decimal.nb_digits].
  1: { rewrite Nat.add_0_r. now apply scan_int_stop. }
  all: scan_digit; erewrite <- IHd; [f_equal; lia | discriminate].
Qed.

Lemma scan_int_uint (d : Decimal.uint) :
  forall (prev : option ascii) (n : nat),
    prev <> Some "_"%char ->
    scan_int prev 0 n (NilEmpty.string_of_uint d)
    = Some (Z.of_N (Pos.of_uint d), (n + Decimal.nb_digits d)%nat, "").
Proof.
  induction d; intros prev n Hprev;
    cbn [NilEmpty.string_of_uint Pos.of_uint Decimal.nb_digits].
  1: { rewrite Nat.add_0_r. now apply scan_int_stop. }
  1: { scan_digit. erewrite <- IHd; [reflexivity | discriminate]. }
  all: scan_digit; cbn [Z.of_N]; erewrite <- scan_int_uint_pos; [reflexivity | discriminate].
Qed.

Lemma string_of_uint_length (d : Decimal.uint) :
  String.length (NilEmpty.string_of_uint d) = Decimal.nb_digits d.
Proof. induction d; cbn; congruence. Qed.

Lemma digit_head (c : ascii) (t : string) :
  is_digit c = true ->
  skip_c_space (String c t) = String c t /\ read_sign (String c t) = (false, String c t).
Proof.
  destruct c as [[] [] [] [] [] [] [] []]; intros H; try discriminate H;
    split; reflexivity.
Qed.

(** [int(str(z))] is [z], when the interpreter allows that many digits. *)
Lemma int_of_str_round_trip (max_str_digits : nat) (z : Z) :
  exceeds_str_digits max_str_digits (String.length (str_of_int (Z.abs z))) = false ->
  int_of_str max_str_digits (str_of_int z) = Some z.
Proof.
  assert (Hpos : forall (p : positive) (neg : bool),
             exceeds_str_digits max_str_digits
               (String.length (NilEmpty.string_of_uint (Pos.to_uint p))) = false ->
             match scan_int None 0 0 (NilEmpty.string_of_uint (Pos.to_uint p)) with
             | None => None
             | Some (v, digits, rest) =>
                 match digits with
                 | O => None
                 | _ =>
                     if exceeds_str_digits max_str_digits digits then None
                     else
                       match skip_c_space rest with
                       | EmptyString => Some (if neg then - v else v)
                       | _ => None
                       end
                 end
             end = Some (if neg then Z.neg p else Z.pos p)).
  { intros p neg Hlim. rewrite scan_int_uint by discriminate.
    rewrite DecimalPos.Unsigned.of_to. cbn [Nat.add].
    rewrite string_of_uint_length in Hlim.
    destruct (Decimal.nb_digits (Pos.to_uint p)) eqn:Hd.
    - exfalso. apply (DecimalPos.Unsigned.to_uint_nonnil p).
      now apply DecimalFacts.nb_digits_0.
    - rewrite Hlim. cbn. now destruct neg. }
  assert (Hnil : forall p, NilZero.string_of_uint (Pos.to_uint p)
                           = NilEmpty.string_of_uint (Pos.to_uint p)).
  { intros p. pose proof (DecimalPos.Unsigned.to_uint_nonnil p) as H.
    destruct (Pos.to_uint p); [congruence | reflexivity ..]. }
  assert (Hhead : forall p, exists c t,
               NilEmpty.string_of_uint (Pos.to_uint p) = String c t /\ is_digit c = true).
  { intros p. pose proof (DecimalPos.Unsigned.to_uint_nonnil p) as H.
    destruct (Pos.to_uint p); [congruence | ..]; eexists; eexists; split; reflexivity. }
  unfold int_of_str, str_of_int.
  destruct z as [| p | p]; cbn [Z.abs Z.to_int NilZero.string_of_int].
  - intros _. reflexivity.
  - rewrite Hnil. intros Hlim. specialize (Hpos p false Hlim).
    destruct (Hhead p) as (c & t & E & Hc). rewrite E in *.
    destruct (digit_head c t Hc) as [-> ->]. exact Hpos.
  - rewrite Hnil. intros Hlim. specialize (Hpos p true Hlim).
    cbn [skip_c_space is_c_space]. change (is_c_space "-") with false. cbv iota.
    cbn [read_sign]. exact Hpos.
Qed.

Lemma skip_c_space_chars (f : ascii -> bool) (s : string) :
  (forall c, is_c_space c = true -> f c = true) ->
  all_chars f (skip_c_space s) = true -> all_chars f s = true.
Proof.
  intros Hf. induction s as [| c t IH]; [reflexivity |].
  cbn [skip_c_space]. destruct (is_c_space c) eqn:Hc; [| exact (fun H => H)].
  intros H. cbn [all_chars]. now rewrite (Hf c Hc), IH.
Qed.

Lemma skip_c_space_all (s : string) :
  skip_c_space s = "" -> all_chars is_c_space s = true.
Proof.
  induction s as [| c t IH]; [reflexivity |].
  cbn [skip_c_space all_chars]. destruct (is_c_space c); [exact IH | discriminate].
Qed.

Lemma all_chars_weaken (f g : ascii -> bool) (s : string) :
  (forall c, f c = true -> g c = true) -> all_chars f s = true -> all_chars g s = true.
Proof.
  intros Hfg. induction s as [| c t IH]; [reflexivity |].
  cbn [all_chars]. rewrite !andb_true_iff. intros [Hc Ht].
  split; [now apply Hfg | now apply IH].
Qed.

(** What the scan went over is digits and underscores, and the value it read
    is not negative. *)
Lemma scan_int_chars (f : ascii -> bool) (s : string) :
  (forall c, is_digit c = true -> f c = true) ->
  f "_"%char = true ->
  forall (prev : option ascii) (acc : Z) (n : nat) (v : Z) (d : nat) (rest : string),
    scan_int prev acc n s = Some (v, d, rest) ->
    0 <= acc ->
    0 <= v /\ (all_chars f rest = true -> all_chars f s = true).
Proof.
  intros Hdigit Hunder. induction s as [| c t IH]; intros prev acc n v d rest H Hacc.
  - cbn in H. destruct prev as [[[] [] [] [] [] [] [] []] |]; inversion H; subst;
      split; auto.
  - cbn [scan_int] in H. destruct (is_digit c) eqn:Hc.
    + apply IH in H.
      * destruct H as [Hv Hrest]. split; [exact Hv |]. intros Hr. cbn [all_chars].
        now rewrite (Hdigit c Hc), Hrest.
      * unfold digit_value. lia.
    + destruct (Ascii.eqb_spec c "_") as [-> | Hne].
      * destruct prev as [p |]; [| discriminate].
        destruct (Ascii.eqb p "_"); [discriminate |].
        apply IH in H; [| exact Hacc]. destruct H as [Hv Hrest]. split; [exact Hv |].
        intros Hr. cbn [all_chars]. now rewrite Hunder, Hrest.
      * destruct prev as [[[] [] [] [] [] [] [] []] |]; inversion H; subst; split; auto.
Qed.

(** X12.  [validate_positive_int] either returns an integer greater than
    zero, the one that [int] reads from the value, after writing one [DEBUG]
    record; or it raises a [ValueError] whose text starts with "Invalid" and
    the name of the parameter, leaving the state as it was: that is when
    [int] refuses the value, or reads an integer that is zero or negative. *)
Theorem validate_positive_int_spec (max_str_digits : nat) (value param_name : string)
    (s : state) :
  (exists v : Z,
      int_of_str max_str_digits value = Some v /\ 0 < v
      /\ validate_positive_int max_str_digits value param_name s
         = (Ok v,
            {| trace := trace s ++ [Logged DEBUG [FStr param_name; FStr " validated: ";
                                                  FInt v]];
               orders := orders s |}))
  \/ (exists detail : text,
        (int_of_str max_str_digits value = None
         \/ exists v, int_of_str max_str_digits value = Some v /\ v <= 0)
        /\ validate_positive_int max_str_digits value param_name s
           = (Raise (ValueError (FStr "Invalid " :: FStr param_name :: detail)), s)).
Proof.
  unfold validate_positive_int.
  destruct (int_of_str max_str_digits value) as [v |].
  - destruct (Z.leb_spec v 0) as [H | H].
    + right. eexists. split; [right; exists v; now split | reflexivity].
    + left. exists v. split; [reflexivity |]. split; [exact H | reflexivity].
  - right. eexists. split; [now left | reflexivity].
Qed.

(** X13.  A positive integer written the way [str] writes it is accepted
    and read back as itself, as long as the interpreter allows that many
    digits. *)
Theorem validate_positive_int_round_trip (max_str_digits : nat) (z : Z)
    (param_name : string) (s : state) :
  0 < z ->
  exceeds_str_digits max_str_digits (String.length (str_of_int z)) = false ->
  validate_positive_int max_str_digits (str_of_int z) param_name s
  = (Ok z,
     {| trace := trace s ++ [Logged DEBUG [FStr param_name; FStr " validated: "; FInt z]];
        orders := orders s |}).
Proof.
  intros Hz Hlim. unfold validate_positive_int.
  rewrite int_of_str_round_trip by (now replace (Z.abs z) with z by lia).
  destruct (Z.leb_spec z 0); [lia | reflexivity].
Qed.

Lemma validate_positive_int_round_trip_witness :
  0 < 120
  /\ validate_positive_int 4300 (str_of_int 120) "num_slices" initial
     = (Ok 120,
        {| trace := trace initial
                    ++ [Logged DEBUG [FStr "num_slices"; FStr " validated: "; FInt 120]];
           orders := orders initial |}).
Proof.
  assert (H : 0 < 120) by lia.
  split; [exact H |].
  exact (validate_positive_int_round_trip 4300 120 "num_slices" initial H eq_refl).
Defined.

(** X14.  A value that [validate_positive_int] accepts is made of digits,
    underscores, white space and the plus sign only: a minus sign, a decimal
    point or an exponent makes it raise. *)
Theorem validate_positive_int_chars (max_str_digits : nat) (value param_name : string)
    (s : state) (v : Z) :
  fst (validate_positive_int max_str_digits value param_name s) = Ok v ->
  all_chars count_char value = true /\ 0 < v.
Proof.
  intros H. destruct (validate_positive_int_returns _ _ _ _ _ H) as [Hint Hpos].
  split; [| exact Hpos].
  assert (Hspace : forall c, is_c_space c = true -> count_char c = true).
  { intros c Hc. unfold count_char. rewrite Hc. now rewrite !orb_true_r. }
  assert (Hdigit : forall c, is_digit c = true -> count_char c = true).
  { intros c Hc. unfold count_char. now rewrite Hc. }
  apply (skip_c_space_chars count_char value Hspace).
  unfold int_of_str in Hint.
  destruct (read_sign (skip_c_space value)) as [neg s1] eqn:Hsign.
  destruct (scan_int None 0 0 s1) as [[[v' d] rest] |] eqn:Hscan; [| discriminate].
  destruct d as [| d]; [discriminate |].
  destruct (exceeds_str_digits max_str_digits (S d)); [discriminate |].
  destruct (skip_c_space rest) eqn:Hrest; [| discriminate].
  injection Hint as <-.
  destruct (scan_int_chars count_char s1 Hdigit eq_refl _ _ _ _ _ _ Hscan (Z.le_refl 0))
    as [Hv Hs1].
  assert (Hall : all_chars count_char s1 = true).
  { apply Hs1. apply (all_chars_weaken is_c_space); [exact Hspace |].
    now apply skip_c_space_all. }
  unfold read_sign in Hsign.
  destruct (skip_c_space value) as [| c t]; [now inversion Hsign; subst |].
  destruct (Ascii.eqb_spec c "-") as [-> | Hminus].
  { inversion Hsign; subst. lia. }
  destruct (Ascii.eqb_spec c "+") as [-> | Hplus].
  { inversion Hsign; subst. exact Hall. }
  assert (Hsame : (neg, s1) = (false, String c t)).
  { rewrite <- Hsign. destruct c as [[] [] [] [] [] [] [] []]; try reflexivity; congruence. }
  inversion Hsame; subst. exact Hall.
Qed.

Lemma validate_positive_int_chars_witness :
  fst (validate_positive_int 4300 " +1_0 " "grid_count" initial) = Ok 10
  /\ all_chars count_char " +1_0 " = true /\ 0 < 10.
Proof.
  assert (H : fst (validate_positive_int 4300 " +1_0 " "grid_count" initial) = Ok 10)
    by reflexivity.
  split; [exact H |].
  exact (validate_positive_int_chars 4300 " +1_0 " "grid_count" initial 10 H).
Defined.

(** ** The three [main] functions on a wrong number of arguments *)

(** X15.  Called with anything but five arguments after the program name,
    [main] of [oco.py], of [twap.py] and of [grid.py] prints its usage and
    exits with status 1: nothing is validated, logged or submitted. *)
Theorem mains_usage (max_str_digits : nat) (client : Client) (argv : list string)
    (s : state) :
  List.length argv <> 6%nat ->
  exists usage_oco usage_twap usage_grid : list event,
    oco_main client argv s
    = (Raise (SystemExit 1), {| trace := trace s ++ usage_oco; orders := orders s |})
    /\ twap_main max_str_digits client argv s
       = (Raise (SystemExit 1), {| trace := trace s ++ usage_twap; orders := orders s |})
    /\ grid_main max_str_digits client argv s
       = (Raise (SystemExit 1), {| trace := trace s ++ usage_grid; orders := orders s |})
    /\ printed_only usage_oco = true
    /\ printed_only usage_twap = true
    /\ printed_only usage_grid = true
    /\ usage_oco <> [] /\ usage_twap <> [] /\ usage_grid <> [].
Proof.
  intros Hlen.
  destruct argv as [| prog [| a1 [| a2 [| a3 [| a4 [| a5 [| a6 rest]]]]]]];
    try (exfalso; apply Hlen; reflexivity);
    unfold oco_main, twap_main, grid_main; run_step; flatten_trace;
    eexists; eexists; eexists;
    (split; [reflexivity |]); (split; [reflexivity |]); (split; [reflexivity |]);
    repeat split; discriminate.
Qed.

Lemma mains_usage_witness :
  List.length ["twap.py"; "BTCUSDT"; "BUY"] <> 6%nat
  /\ exists usage_oco usage_twap usage_grid : list event,
       oco_main accepting_client ["twap.py"; "BTCUSDT"; "BUY"] initial
       = (Raise (SystemExit 1),
          {| trace := trace initial ++ usage_oco; orders := orders initial |})
       /\ twap_main 4300 accepting_client ["twap.py"; "BTCUSDT"; "BUY"] initial
          = (Raise (SystemExit 1),
             {| trace := trace initial ++ usage_twap; orders := orders initial |})
       /\ grid_main 4300 accepting_client ["twap.py"; "BTCUSDT"; "BUY"] initial
          = (Raise (SystemExit 1),
             {| trace := trace initial ++ usage_grid; orders := orders initial |})
       /\ printed_only usage_oco = true
       /\ printed_only usage_twap = true
       /\ printed_only usage_grid = true
       /\ usage_oco <> [] /\ usage_twap <> [] /\ usage_grid <> [].
Proof.
  assert (H : List.length ["twap.py"; "BTCUSDT"; "BUY"] <> 6%nat) by (cbn; lia).
  split; [exact H |].
  exact (mains_usage 4300 accepting_client ["twap.py"; "BTCUSDT"; "BUY"] initial H).
Defined.

(** ** [config.py]: credentials and the stored client *)

Lemma get_client_handler_spec {A} (e : exn) (s : state) :
  exists post : list event,
    @get_client_handler A e s
    = (Raise e, {| trace := trace s ++ post; orders := orders s |})
    /\ actions post = []
    /\ (is_exception e = true ->
        exists (headline : string) (detail : text),
          In headline ["Binance API error during client initialization: ";
                       "Unexpected error during client initialization: "]
          /\ alerts post = [(ERROR, FStr headline :: detail)]).
Proof.
  destruct e as [c m | c m | m | m | c | m]; unfold get_client_handler; run_step.
  5: { exists []. rewrite app_nil_r. destruct s.
       split; [reflexivity |]. split; [reflexivity | discriminate]. }
  all: eexists; (split; [reflexivity |]); (split; [reflexivity |]); intros _;
    eexists; eexists; (split; [| reflexivity]); cbn; tauto.
Qed.

Lemma upper_lower (s : string) : upper (lower s) = upper s.
Proof.
  induction s as [| c t IH]; [reflexivity |].
  cbn [upper lower]. rewrite IH. f_equal.
  destruct c as [[] [] [] [] [] [] [] []]; reflexivity.
Qed.

Lemma lower_upper (s : string) : lower (upper s) = lower s.
Proof.
  induction s as [| c t IH]; [reflexivity |].
  cbn [upper lower]. rewrite IH. f_equal.
  destruct c as [[] [] [] [] [] [] [] []]; reflexivity.
Qed.

(** X16.  [BinanceConfig()] goes through exactly when both credentials are
    set, are not empty and neither is the placeholder of the sample file; the
    object then holds them, with no client yet, and nothing is logged.  It
    selects the test network exactly when [USE_TESTNET] is not set or reads
    TRUE in any mix of cases: any other value, such as 1 or yes, selects the
    live exchange.  Otherwise it raises a [ValueError] and logs the same text as an error;
    a missing credential is reported before a placeholder is. *)
Theorem BinanceConfig_init_spec (getenv : string -> option string) (s : state) :
  (exists (key secret : string) (testnet : bool),
      getenv "BINANCE_API_KEY" = Some key /\ getenv "BINANCE_API_SECRET" = Some secret
      /\ key <> "" /\ secret <> ""
      /\ key <> "your_api_key_here" /\ secret <> "your_api_secret_here"
      /\ (testnet = true
          <-> match getenv "USE_TESTNET" with
              | None => True
              | Some v => upper v = "TRUE"
              end)
      /\ BinanceConfig_init getenv s
         = (Ok {| api_key := Some key; api_secret := Some secret; use_testnet := testnet;
                  client := None |}, s))
  \/ (exists message : string,
        BinanceConfig_init getenv s
        = (Raise (ValueError [FStr message]),
           {| trace := trace s ++ [Logged ERROR [FStr message]]; orders := orders s |})
        /\ ((falsy (getenv "BINANCE_API_KEY") || falsy (getenv "BINANCE_API_SECRET") = true
             /\ message
                = "Missing API credentials. Please set BINANCE_API_KEY and BINANCE_API_SECRET in your .env file.")
            \/ (falsy (getenv "BINANCE_API_KEY") || falsy (getenv "BINANCE_API_SECRET")
                = false
                /\ (getenv "BINANCE_API_KEY" = Some "your_api_key_here"
                    \/ getenv "BINANCE_API_SECRET" = Some "your_api_secret_here")
                /\ message
                   = "Please replace placeholder API credentials in .env file with your actual Binance API key and secret."))).
Proof.
  unfold BinanceConfig_init, _validate_credentials.
  destruct (falsy (getenv "BINANCE_API_KEY") || falsy (getenv "BINANCE_API_SECRET"))
    eqn:Hmissing.
  { right. eexists. split; [reflexivity |]. left. split; reflexivity. }
  apply orb_false_iff in Hmissing. destruct Hmissing as [Hk Hs].
  destruct (getenv "BINANCE_API_KEY") as [key |]; [| discriminate Hk].
  destruct (getenv "BINANCE_API_SECRET") as [secret |]; [| discriminate Hs].
  cbn [falsy equals] in *.
  destruct (String.eqb_spec key ""); [discriminate |].
  destruct (String.eqb_spec secret ""); [discriminate |].
  destruct (String.eqb_spec key "your_api_key_here") as [-> | Hpk].
  { right. eexists. split; [reflexivity |]. right.
    split; [reflexivity |]. split; [now left | reflexivity]. }
  destruct (String.eqb_spec secret "your_api_secret_here") as [-> | Hps].
  { right. eexists. split; [reflexivity |]. right.
    split; [reflexivity |]. split; [now right | reflexivity]. }
  left. exists key, secret.
  exists (String.eqb
            (lower (match getenv "USE_TESTNET" with Some v => v | None => "True" end))
            "true").
  repeat (split; [assumption || reflexivity |]).
  split; [| cbn [orb]; run_step; destruct s; reflexivity].
  destruct (getenv "USE_TESTNET") as [v |]; [| split; reflexivity].
  rewrite String.eqb_eq. split; intros H.
  - rewrite <- upper_lower, H. reflexivity.
  - rewrite <- lower_upper, H. reflexivity.
Qed.

(** X17.  A client that [get_client] returned is stored in the object: every
    later call returns the same client, without making a client, without
    testing the connection and without logging. *)
Theorem get_client_cached
    (new_client : option string -> option string -> bool -> result Client)
    (futures_ping : Client -> result unit)
    (self self' : BinanceConfig) (s s' : state) (c : Client) :
  get_client new_client futures_ping self s = (Ok c, self', s') ->
  client self' = Some c
  /\ forall (new_client' : option string -> option string -> bool -> result Client)
            (futures_ping' : Client -> result unit) (s2 : state),
       get_client new_client' futures_ping' self' s2 = (Ok c, self', s2).
Proof.
  unfold get_client. destruct (client self) as [c0 |] eqn:Hclient.
  - intros [= <- <- <-]. rewrite Hclient. split; [reflexivity |]. intros. reflexivity.
  - destruct (new_client (api_key self) (api_secret self) (use_testnet self)) as [c1 | e].
    + destruct (futures_ping c1) as [[] | e].
      * run_step. intros [= <- <- <-]. cbn [client]. split; reflexivity.
      * destruct (@get_client_handler_spec Client e s) as (post & -> & _).
        discriminate.
    + destruct (@get_client_handler_spec Client e s) as (post & -> & _).
      discriminate.
Qed.

Lemma get_client_cached_witness :
  let self := {| api_key := Some "k"; api_secret := Some "s"; use_testnet := true;
                 client := None |} in
  let self' := {| api_key := Some "k"; api_secret := Some "s"; use_testnet := true;
                  client := Some accepting_client |} in
  let s' := {| trace := [Logged INFO [FStr "Successfully connected to Binance Futures ";
                                      FStr "TESTNET"]];
               orders := [] |} in
  get_client (fun _ _ _ => Ok accepting_client) (fun _ => Ok tt) self initial
  = (Ok accepting_client, self', s')
  /\ client self' = Some accepting_client
  /\ forall (new_client' : option string -> option string -> bool -> result Client)
            (futures_ping' : Client -> result unit) (s2 : state),
       get_client new_client' futures_ping' self' s2 = (Ok accepting_client, self', s2).
Proof.
  intros self self' s'.
  assert (H : get_client (fun _ _ _ => Ok accepting_client) (fun _ => Ok tt) self initial
              = (Ok accepting_client, self', s')) by reflexivity.
  split; [exact H |].
  exact (get_client_cached _ _ self self' initial s' accepting_client H).
Defined.

(** X18.  The client is stored before the connection is tested.  When making
    the client succeeds and the test raises [e], [get_client] raises [e]
    (for an [Exception], after one error record) and submits nothing, but the
    object keeps the client: the next call returns it without testing the
    connection again and without logging. *)
Theorem get_client_failed_ping
    (new_client : option string -> option string -> bool -> result Client)
    (futures_ping : Client -> result unit)
    (self : BinanceConfig) (s : state) (c : Client) (e : exn) :
  client self = None ->
  new_client (api_key self) (api_secret self) (use_testnet self) = Ok c ->
  futures_ping c = Raise e ->
  exists (self' : BinanceConfig) (evs : list event),
    get_client new_client futures_ping self s
    = (Raise e, self', {| trace := trace s ++ evs; orders := orders s |})
    /\ client self' = Some c
    /\ actions evs = []
    /\ (is_exception e = true ->
        exists (headline : string) (detail : text),
          In headline ["Binance API error during client initialization: ";
                       "Unexpected error during client initialization: "]
          /\ alerts evs = [(ERROR, FStr headline :: detail)])
    /\ forall (new_client' : option string -> option string -> bool -> result Client)
              (futures_ping' : Client -> result unit) (s2 : state),
         get_client new_client' futures_ping' self' s2 = (Ok c, self', s2).
Proof.
  intros Hclient Hnew Hping. unfold get_client at 1. rewrite Hclient, Hnew, Hping.
  destruct (@get_client_handler_spec Client e s) as (post & -> & Hact & Halert).
  eexists. exists post. split; [reflexivity |]. split; [reflexivity |].
  split; [exact Hact |]. split; [exact Halert |]. intros. reflexivity.
Qed.

Lemma get_client_failed_ping_witness :
  let self := {| api_key := Some "k"; api_secret := Some "s"; use_testnet := true;
                 client := None |} in
  client self = None
  /\ exists (self' : BinanceConfig) (evs : list event),
       get_client (fun _ _ _ => Ok accepting_client)
         (fun _ => Raise (BinanceAPIException (-1001) "Disconnected")) self initial
       = (Raise (BinanceAPIException (-1001) "Disconnected"), self',
          {| trace := trace initial ++ evs; orders := orders initial |})
       /\ client self' = Some accepting_client
       /\ actions evs = []
       /\ (is_exception (BinanceAPIException (-1001) "Disconnected") = true ->
           exists (headline : string) (detail : text),
             In headline ["Binance API error during client initialization: ";
                          "Unexpected error during client initialization: "]
             /\ alerts evs = [(ERROR, FStr headline :: detail)])
       /\ forall (new_client' : option string -> option string -> bool -> result Client)
                 (futures_ping' : Client -> result unit) (s2 : state),
            get_client new_client' futures_ping' self' s2
            = (Ok accepting_client, self', s2).
Proof.
  intros self.
  assert (H : client self = None) by reflexivity.
  split; [exact H |].
  exact (get_client_failed_ping (fun _ _ _ => Ok accepting_client)
           (fun _ => Raise (BinanceAPIException (-1001) "Disconnected")) self initial
           accepting_client (BinanceAPIException (-1001) "Disconnected")
           H eq_refl eq_refl).
Defined.

(** ** The executors of one order *)

Lemma order_handler_spec {A} (what : string) (e : exn) (s : state) :
  exists post : list event,
    @order_handler A what e s
    = (Raise e, {| trace := trace s ++ post; orders := orders s |})
    /\ actions post = []
    /\ (is_exception e = true -> exists msg : text, alerts post = [(ERROR, msg)])
    /\ (is_exception e = false -> post = []).
Proof.
  destruct e as [c m | c m | m | m | c | m]; unfold order_handler; run_step.
  5: { exists []. rewrite app_nil_r. destruct s.
       split; [reflexivity |]. split; [reflexivity |]. split; [discriminate | reflexivity]. }
  all: eexists; (split; [reflexivity |]); (split; [reflexivity |]);
    (split; [intros _; eexists; reflexivity | discriminate]).
Qed.

(** The common shape of the three executors: one record, then one submission
    inside the [try]. *)
Lemma place_order_run (more : other_keys) (client : Client) (what : string)
    (start : text) (req : order_request) (s : state) :
  exists evs : list event,
    (logger_info start ;;
     try_except
       (order <- futures_create_order client req ;;
        logger_info (format_order_response more order) ;;
        logger_debug [FStr "Full order response: "; FResp order] ;;
        ret order)
       (order_handler what)) s
    = (client (submitted_requests (trace s)) req,
       {| trace := trace s ++ evs; orders := orders s |})
    /\ submissions evs = [(req, client (submitted_requests (trace s)) req)]
    /\ sleeps evs = []
    /\ match client (submitted_requests (trace s)) req with
       | Ok order =>
           alerts evs = []
           /\ In (Logged INFO (format_order_response more order)) evs
       | Raise e =>
           (is_exception e = true -> exists msg : text, alerts evs = [(ERROR, msg)])
           /\ (is_exception e = false -> alerts evs = [])
       end.
Proof.
  run_step. rewrite submitted_requests_app. cbn [submitted_requests].
  rewrite app_nil_r.
  destruct (client (submitted_requests (trace s)) req) as [o | e] eqn:E.
  - run_step. flatten_trace. eexists. split; [reflexivity |].
    split; [reflexivity |]. split; [reflexivity |]. split; [reflexivity |].
    cbn. tauto.
  - match goal with |- context [order_handler what e ?st] =>
      destruct (@order_handler_spec order_response what e st)
        as (post & -> & Hact & Hexc & Hnot)
    end.
    flatten_trace. eexists. split; [reflexivity |].
    split; [cbn [submissions]; now rewrite <- (submissions_actions post), Hact |].
    split; [cbn [sleeps]; now rewrite <- (sleeps_actions post), Hact |].
    split.
    + intros He. destruct (Hexc He) as (msg & Hal). exists msg. cbn [alerts]. exact Hal.
    + intros He. rewrite (Hnot He). reflexivity.
Qed.


(** ** The [main] functions of the executors of one order *)

Lemma sends_bind_result {A B} (m : M A) (k : A -> M B)
    (Q1 : list order_request -> result A
          -> list (order_request * result order_response) -> Prop)
    (R : A -> result B -> Prop) :
  sends m Q1 ->
  (forall a, sends (k a) (fun _ r subs => subs = [] /\ R a r)) ->
  sends (bind m k)
    (fun h r subs =>
       (exists a, Q1 h (Ok a) subs /\ R a r)
       \/ (exists e, r = Raise e /\ Q1 h (Raise e) subs)).
Proof.
  intros Hm Hk s. destruct (Hm s) as (r1 & s1 & evs1 & E1 & T1 & H1).
  unfold bind. rewrite E1. destruct r1 as [a | e].
  - destruct (Hk a s1) as (r2 & s2 & evs2 & E2 & T2 & S2 & HR).
    exists r2, s2, (evs1 ++ evs2). split; [exact E2 |].
    split; [now rewrite T2, T1, app_assoc |].
    left. exists a. rewrite submissions_app, S2, app_nil_r. now split.
  - exists (Raise e), s1, evs1. split; [reflexivity |]. split; [exact T1 |].
    right. exists e. now split.
Qed.

(** A [try] whose handlers submit nothing and all end in an exit, keeping
    track of how the body ended. *)
Lemma sends_try_exit_result (body : M unit) (handler : exn -> M unit)
    (G : list order_request -> result unit
         -> list (order_request * result order_response) -> Prop) :
  sends body G ->
  (forall e, sends (handler e)
               (fun _ r subs => subs = [] /\ exists c, r = Raise (SystemExit c))) ->
  sends (try_except body handler)
    (fun h r subs =>
       (r = Ok tt /\ G h (Ok tt) subs)
       \/ (exists c e, r = Raise (SystemExit c) /\ G h (Raise e) subs)).
Proof.
  intros Hb Hh s. destruct (Hb s) as (r & s1 & evs1 & E1 & T1 & H1).
  unfold try_except. rewrite E1. destruct r as [[] | e].
  - exists (Ok tt), s1, evs1. split; [reflexivity |]. split; [exact T1 |].
    left. now split.
  - destruct (Hh e s1) as (r2 & s2 & evs2 & E2 & T2 & S2 & c & ->).
    exists (Raise (SystemExit c)), s2, (evs1 ++ evs2). split; [exact E2 |].
    split; [now rewrite T2, T1, app_assoc |].
    right. exists c, e. rewrite submissions_app, S2, app_nil_r. now split.
Qed.

Lemma order_main_handler_exits (e : exn) :
  sends (order_main_handler e)
    (fun _ r subs => subs = [] /\ exists c, r = Raise (SystemExit c)).
Proof.
  intros s. destruct e as [c m | c m | m | m | c | m];
    unfold order_main_handler; run_step.
  all: try (eexists; eexists; eexists; split; [reflexivity |];
            split; [cbn [trace]; rewrite <- ?app_assoc; reflexivity |];
            split; [reflexivity | eexists; reflexivity]).
  all: exists (Raise (SystemExit c)), s, []; split; [reflexivity |];
    split; [now rewrite app_nil_r |]; split; [reflexivity | now exists c].
Qed.

(** The keys of an answer that the record holds are always there. *)
Lemma subscript_known (more : other_keys) (order : order_response) :
  subscript more order "orderId" = ret (FInt (orderId order))
  /\ subscript more order "status" = ret (FStr (status order))
  /\ subscript more order "type" = ret (FStr (r_type order))
  /\ subscript more order "price" = ret (FStr (r_price order))
  /\ subscript more order "stopPrice" = ret (FStr (r_stopPrice order))
  /\ subscript more order "origQty" = ret (FStr (origQty order)).
Proof. repeat split; reflexivity. Qed.

Lemma subscript_other (more : other_keys) (order : order_response) (key : string) :
  In key ["symbol"; "side"; "timeInForce"] ->
  subscript more order key
  = match more order key with
    | Some v => ret (FStr v)
    | None => raise (OtherException [FStr ("'" ++ key ++ "'")])
    end.
Proof.
  intros [<- | [<- | [<- | []]]]; unfold subscript, dict_get; cbn [String.eqb Ascii.eqb];
    cbn; now destruct (more order _).
Qed.

Ltac order_step :=
  cbv beta iota zeta delta
    [bind ret raise emit logger_debug logger_info logger_warning logger_error print
     sys_exit try_except subscript dict_get option_map format_value
     String.eqb Ascii.eqb Bool.eqb];
  cbn [trace orders].

Ltac order_done :=
  eexists; eexists; eexists;
  split; [reflexivity |];
  split; [cbn [trace]; rewrite <- ?app_assoc; reflexivity |];
  split; [reflexivity |];
  intros H; first [discriminate H | repeat split; discriminate].

(** What the lines after the executor need of the answer [order]. *)
Lemma market_report (more : other_keys) (order : order_response) :
  sends
    (print [FStr "Market order executed successfully!"] ;;
     v <- subscript more order "orderId" ;; print [FStr "Order ID: "; v] ;;
     v <- subscript more order "symbol" ;; print [FStr "Symbol: "; v] ;;
     v <- subscript more order "side" ;; print [FStr "Side: "; v] ;;
     v <- subscript more order "origQty" ;; print [FStr "Quantity: "; v] ;;
     v <- subscript more order "status" ;; print [FStr "Status: "; v])
    (fun _ r subs =>
       subs = []
       /\ (r = Ok tt -> more order "symbol" <> None /\ more order "side" <> None)).
Proof.
  intros s. order_step.
  destruct (more order "symbol"); order_step; [| order_done].
  destruct (more order "side"); order_step; order_done.
Qed.

Lemma limit_report (more : other_keys) (order : order_response) :
  sends
    (print [FStr "Limit order placed successfully!"] ;;
     v <- subscript more order "orderId" ;; print [FStr "Order ID: "; v] ;;
     v <- subscript more order "symbol" ;; print [FStr "Symbol: "; v] ;;
     v <- subscript more order "side" ;; print [FStr "Side: "; v] ;;
     v <- subscript more order "origQty" ;; print [FStr "Quantity: "; v] ;;
     v <- subscript more order "price" ;; print [FStr "Price: "; v] ;;
     v <- subscript more order "status" ;; print [FStr "Status: "; v] ;;
     v <- subscript more order "timeInForce" ;; print [FStr "Time in Force: "; v])
    (fun _ r subs =>
       subs = []
       /\ (r = Ok tt ->
           more order "symbol" <> None /\ more order "side" <> None
           /\ more order "timeInForce" <> None)).
Proof.
  intros s. order_step.
  destruct (more order "symbol"); order_step; [| order_done].
  destruct (more order "side"); order_step; [| order_done].
  destruct (more order "timeInForce"); order_step; order_done.
Qed.

Lemma stop_limit_report (more : other_keys) (order : order_response) :
  sends
    (print [FStr "Stop-limit order placed successfully!"] ;;
     v <- subscript more order "orderId" ;; print [FStr "Order ID: "; v] ;;
     v <- subscript more order "symbol" ;; print [FStr "Symbol: "; v] ;;
     v <- subscript more order "side" ;; print [FStr "Side: "; v] ;;
     v <- subscript more order "type" ;; print [FStr "Type: "; v] ;;
     v <- subscript more order "origQty" ;; print [FStr "Quantity: "; v] ;;
     v <- subscript more order "stopPrice" ;; print [FStr "Stop Price: "; v] ;;
     v <- subscript more order "price" ;; print [FStr "Limit Price: "; v] ;;
     v <- subscript more order "status" ;; print [FStr "Status: "; v])
    (fun _ r subs =>
       subs = []
       /\ (r = Ok tt -> more order "symbol" <> None /\ more order "side" <> None)).
Proof.
  intros s. order_step.
  destruct (more order "symbol"); order_step; [| order_done].
  destruct (more order "side"); order_step; order_done.
Qed.

Lemma place_order_sends (more : other_keys) (client : Client) (what : string)
    (start : text) (req : order_request) :
  sends
    (logger_info start ;;
     try_except
       (order <- futures_create_order client req ;;
        logger_info (format_order_response more order) ;;
        logger_debug [FStr "Full order response: "; FResp order] ;;
        ret order)
       (order_handler what))
    (fun h r subs => subs = [(req, client h req)] /\ r = client h req).
Proof.
  intros s. destruct (place_order_run more client what start req s) as (evs & E & Hsubs & _).
  eexists. eexists. exists evs. split; [exact E |]. split; [reflexivity |].
  split; [exact Hsubs | reflexivity].
Qed.

Lemma one_order_body (more : other_keys) (client : Client) (req : order_request)
    (keys : order_response -> Prop) (exec : M order_response)
    (report : order_response -> M unit) :
  sends exec (fun h r subs => subs = [(req, client h req)] /\ r = client h req) ->
  (forall order, sends (report order) (fun _ r subs => subs = [] /\ (r = Ok tt -> keys order))) ->
  sends (bind exec report) (fun h r subs => one_order_sent client h req keys r subs).
Proof.
  intros Hexec Hreport.
  eapply sends_weaken; [exact (sends_bind_result _ _ _ _ Hexec Hreport) |].
  intros h r subs [(o & [Hsubs Ho] & Hkeys) | (e & -> & Hsubs & He)].
  - split; [exact Hsubs |]. intros Hr. exists o. split; [now symmetry | now apply Hkeys].
  - split; [exact Hsubs | discriminate].
Qed.

Ltac quiet_step_result lemma :=
  apply sends_bind_quiet; [apply lemma | | intros; left; split; [reflexivity | discriminate]].

Ltac usage_branch_result :=
  intros s; run_step; exists (Raise (SystemExit 1)); eexists; eexists;
  split; [reflexivity |];
  split; [cbn [trace]; rewrite <- ?app_assoc; reflexivity |];
  split; [right; now exists 1 | left; split; [reflexivity | discriminate]].

(** ** [main] of [market_orders.py] *)


(** ** [main] of [limit_orders.py] *)


(** ** [main] of [stop_limit.py] *)


(** ** Sample runs of the [main] functions *)

(** [python src/advanced/twap.py btcusdt buy 1 2 10] with a client that
    accepts: two market orders of one half each, one sleep of ten seconds. *)
Example twap_main_two_slices :
  let out := run (twap_main 4300 accepting_client
                    ["twap.py"; "btcusdt"; "buy"; "1"; "2"; "10"]) in
  fst out = Ok tt
  /\ map fst (submissions (trace (snd out)))
     = [twap_request "BTCUSDT" "BUY" (Fin (1 # 2));
        twap_request "BTCUSDT" "BUY" (Fin (1 # 2))]
  /\ sleeps (trace (snd out)) = [10]
  /\ alerts (trace (snd out)) = [].
Proof. vm_compute. repeat split. Qed.

(** [python src/advanced/twap.py BTCUSDT BUY 1 101 10]: refused before
    anything is submitted. *)
Example twap_main_too_many_slices :
  let out := run (twap_main 4300 accepting_client
                    ["twap.py"; "BTCUSDT"; "BUY"; "1"; "101"; "10"]) in
  fst out = Raise (SystemExit 1)
  /\ submissions (trace (snd out)) = []
  /\ alerts (trace (snd out))
     = [(ERROR, [FStr "Validation error: ";
                 FStr "num_slices must not exceed 100 for safety"])].
Proof. vm_compute. repeat split. Qed.

(** [python src/advanced/grid.py BTCUSDT 1 50000 52000 3] with a client that
    refuses the second order: the first level is placed, the second is
    refused, the third is never sent, and [main] exits with status 1. *)
Example grid_main_second_refused :
  let out := run (grid_main 4300 (failing_client 2 (BinanceAPIException 400 "refused"))
                    ["grid.py"; "BTCUSDT"; "1"; "50000"; "52000"; "3"]) in
  fst out = Raise (SystemExit 1)
  /\ map fst (submissions (trace (snd out)))
     = [grid_request "BTCUSDT" (Fin 1) (Fin 50000);
        grid_request "BTCUSDT" (Fin 1) (Fin 51000)]
  /\ map (fun sub => succeeded sub) (submissions (trace (snd out))) = [true; false].
Proof. vm_compute. repeat split. Qed.

(** [python src/market_orders.py btcusdt buy 1] with a client that accepts
    but answers without the key [symbol]: the order is placed and [main]
    exits with status 1. *)
Example market_main_answer_without_symbol :
  let out := run (market_main (fun _ _ => None) accepting_client
                    ["market_orders.py"; "btcusdt"; "buy"; "1"]) in
  fst out = Raise (SystemExit 1)
  /\ submissions (trace (snd out))
     = [(market_request "BTCUSDT" "BUY" (Fin 1), Ok (stub_response 1))]
  /\ alerts (trace (snd out)) = [(ERROR, [FStr "Fatal error: "; FStr "'symbol'"])].
Proof. vm_compute. repeat split. Qed.
